(** * website-script: a shallow embedding of [script.py]

    The development follows the layout of the script: the Python string
    primitives it relies on, the inline renderer, the block renderer
    ([markdown_to_html]), the page composer and the site builder / cleaner
    running over a small file-system model.

    Text model.  A Python [str] is modelled by [string]; a character is an
    8-bit code.  The classification predicates ([isspace], [isdigit], line
    boundaries) follow CPython on the code points 0..255.  Literals of the
    script that contain characters outside this range are written as their
    UTF-8 bytes; no classification is ever applied to them. *)

From Stdlib Require Import Ascii String DecimalString.
From stdpp Require Import base list strings sorting gmap.

Local Open Scope string_scope.
Local Open Scope list_scope.

(** ** Python string primitives *)

Module Py.

Definition LF : ascii := ascii_of_nat 10.
Definition CR : ascii := ascii_of_nat 13.
Definition TAB : ascii := ascii_of_nat 9.
Definition DQUOTE : ascii := ascii_of_nat 34.
Definition dq : string := String DQUOTE "".
Definition nl : string := String LF "".

Definition code_in (c : ascii) (codes : list nat) : bool :=
  existsb (Nat.eqb (nat_of_ascii c)) codes.

(** [str.isspace] on one character, code points below 256. *)
Definition isspace (c : ascii) : bool :=
  code_in c [9; 10; 11; 12; 13; 28; 29; 30; 31; 32; 133; 160].

(** [str.isdigit] on one character, code points below 256: the decimal
    digits and the superscripts two, three and one. *)
Definition isdigit (c : ascii) : bool :=
  let n := nat_of_ascii c in
  ((48 <=? n)%nat && (n <=? 57)%nat) || code_in c [178; 179; 185].

(** Line boundaries of [str.splitlines], code points below 256. *)
Definition is_linebreak (c : ascii) : bool :=
  code_in c [10; 11; 12; 13; 28; 29; 30; 133].

Definition len (s : string) : nat := String.length s.

(** [s.startswith(p)] *)
Definition startswith (s p : string) : bool := String.prefix p s.

(** [s[n:]] and [s[:n]] for [0 <= n]. *)
Fixpoint drop (n : nat) (s : string) : string :=
  match n, s with
  | O, _ => s
  | S _, "" => ""
  | S k, String _ r => drop k r
  end.

Fixpoint take (n : nat) (s : string) : string :=
  match n, s with
  | O, _ => ""
  | S _, "" => ""
  | S k, String c r => String c (take k r)
  end.

(** [s.lstrip(chars)], the stripped set given as a predicate. *)
Fixpoint lstrip_by (f : ascii -> bool) (s : string) : string :=
  match s with
  | "" => ""
  | String c r => if f c then lstrip_by f r else s
  end.

Fixpoint rstrip_by (f : ascii -> bool) (s : string) : string :=
  match s with
  | "" => ""
  | String c r =>
      match rstrip_by f r with
      | "" => if f c then "" else String c ""
      | r' => String c r'
      end
  end.

Definition lstrip (s : string) : string := lstrip_by isspace s.
Definition rstrip (s : string) : string := rstrip_by isspace s.
Definition strip (s : string) : string := rstrip (lstrip s).

Definition is_char (a c : ascii) : bool := Ascii.eqb a c.

(** [sep.join(parts)] *)
Definition join (sep : string) (parts : list string) : string :=
  String.concat sep parts.

(** Add a character in front of the first piece of a split. *)
Definition cons_first (c : ascii) (pieces : list string) : list string :=
  match pieces with
  | [] => [String c ""]
  | p :: ps => String c p :: ps
  end.

(** [s.split(sep)] for a non-empty [sep]: leftmost, non-overlapping
    occurrences.  [skip] counts the characters of an occurrence that are
    still to be passed over.  (With an empty separator Python raises
    [ValueError]; the script only splits on non-empty literals.) *)
Fixpoint split_go (sep : string) (skip : nat) (s : string) : list string :=
  match s with
  | "" => [""]
  | String c r =>
      match skip with
      | S k => split_go sep k r
      | O =>
          if String.prefix sep s
          then "" :: split_go sep (String.length sep - 1) r
          else cons_first c (split_go sep 0 r)
      end
  end.

Definition split (s sep : string) : list string := split_go sep 0 s.

(** [s.count(sep)]: the same left-to-right scan, counting. *)
Fixpoint count_go (sep : string) (skip : nat) (s : string) : nat :=
  match s with
  | "" => 0
  | String c r =>
      match skip with
      | S k => count_go sep k r
      | O =>
          if String.prefix sep s
          then S (count_go sep (String.length sep - 1) r)
          else count_go sep 0 r
      end
  end.

Definition count (s sep : string) : nat := count_go sep 0 s.

(** [s.splitlines()]: no empty last line, CR LF is one boundary. *)
Fixpoint splitlines (s : string) : list string :=
  match s with
  | "" => []
  | String c r =>
      if is_linebreak c then
        match r with
        | String c' r' =>
            if Ascii.eqb c CR && Ascii.eqb c' LF
            then "" :: splitlines r'
            else "" :: splitlines r
        | "" => [""]
        end
      else cons_first c (splitlines r)
  end.

(** [s.find(ch)] for a one-character needle. *)
Fixpoint find_char (a : ascii) (s : string) : option nat :=
  match s with
  | "" => None
  | String c r =>
      if Ascii.eqb c a then Some 0 else S <$> find_char a r
  end.

(** [s.replace(a, b)] for one-character [a] and [b]. *)
Fixpoint replace_char (a b : ascii) (s : string) : string :=
  match s with
  | "" => ""
  | String c r =>
      String (if Ascii.eqb c a then b else c) (replace_char a b r)
  end.

(** [html.escape(s)] with [quote=True]. *)
Definition escape_char (c : ascii) : string :=
  if Ascii.eqb c "&" then "&amp;"
  else if Ascii.eqb c "<" then "&lt;"
  else if Ascii.eqb c ">" then "&gt;"
  else if Ascii.eqb c DQUOTE then "&quot;"
  else if Ascii.eqb c "'" then "&#x27;"
  else String c "".

Fixpoint escape (s : string) : string :=
  match s with
  | "" => ""
  | String c r => escape_char c +:+ escape r
  end.

(** [str(n)] for a non-negative integer. *)
Definition str_of_nat (n : nat) : string :=
  NilEmpty.string_of_uint (Nat.to_uint n).

End Py.

(** ** Inline renderer *)

(** The loop of [_replace_delimited]: every part is appended, wrapped when
    [toggle] is set, and [toggle] flips after each part.  Returns the
    output list and the value of [toggle] after the loop. *)
Fixpoint wrap_parts (open_tag close_tag : string) (toggle : bool)
    (parts : list string) : list string * bool :=
  match parts with
  | [] => ([], toggle)
  | part :: rest =>
      let '(out, t) := wrap_parts open_tag close_tag (negb toggle) rest in
      ((if toggle then open_tag +:+ part +:+ close_tag else part) :: out, t)
  end.

Definition _replace_delimited (s delim open_tag close_tag : string) : string :=
  let parts := Py.split s delim in
  if (length parts <? 3)%nat then s
  else
    let '(out, toggle) := wrap_parts open_tag close_tag false parts in
    if toggle then s else Py.join "" out.

(** The part of [_replace_links] that runs when [s[i] == "["]: [r] is the
    text after the bracket.  Returns the link text, the URL and the number
    of characters of [r] that the link takes. *)
Definition link_at (r : string) : option (string * string * nat) :=
  match Py.find_char "]" r with
  | None => None
  | Some j =>
      match Py.drop (S j) r with
      | String "(" after =>
          match Py.find_char ")" after with
          | Some k => Some (Py.take j r, Py.take k after, j + 2 + k + 1)
          | None => None
          end
      | _ => None
      end
  end.

(** [_replace_links]; [skip] counts the characters already consumed by
    [i = k + 1]. *)
Fixpoint replace_links_go (skip : nat) (s : string) : string :=
  match s with
  | "" => ""
  | String c r =>
      match skip with
      | S n => replace_links_go n r
      | O =>
          if Ascii.eqb c "[" then
            match link_at r with
            | Some (text, url, used) =>
                "<a href=" +:+ Py.dq +:+ url +:+ Py.dq +:+ ">" +:+ text
                  +:+ "</a>" +:+ replace_links_go used r
            | None => String c (replace_links_go 0 r)
            end
          else String c (replace_links_go 0 r)
      end
  end.

Definition _replace_links (s : string) : string := replace_links_go 0 s.

Definition _render_inline (text : string) : string :=
  let t := Py.escape text in
  let t := _replace_delimited t "`" "<code>" "</code>" in
  let t := _replace_delimited t "**" "<strong>" "</strong>" in
  let t := _replace_delimited t "*" "<em>" "</em>" in
  _replace_links t.

(** ** Block renderer *)

(** [_is_fenced_start]: [Some lang] on a fence line, [None] otherwise. *)
Definition _is_fenced_start (line : string) : option string :=
  let line := Py.rstrip_by (Py.is_char Py.LF) line in
  if Py.startswith line "```" then Some (Py.strip (Py.drop 3 line))
  else None.

Definition _starts_with_numbered_item (line : string) : option string :=
  let s := Py.lstrip line in
  match s with
  | String c0 r =>
      if (3 <=? Py.len s)%nat && Py.isdigit c0 then
        match Py.lstrip_by Py.isdigit r with
        | String "." (String " " t) => Some (Py.strip t)
        | _ => None
        end
      else None
  | "" => None
  end.

Definition is_indented (l : string) : bool :=
  Py.startswith l "    " || Py.startswith l (String Py.TAB "").

(** [_collect_indented_code(lines, start)], given [lines[start:]]. *)
Fixpoint _collect_indented_code (lines : list string) : list string * nat :=
  match lines with
  | [] => ([], 0)
  | l :: rest =>
      if is_indented l then
        let '(buf, n) := _collect_indented_code rest in
        ((if Py.startswith l "    " then Py.drop 4 l else Py.drop 1 l) :: buf,
         S n)
      else ([], 0)
  end.

(** The local variables of [markdown_to_html]. *)
Record RenderState := mkRenderState {
  html_lines : list string;
  in_code : bool;
  code_buf : list string;
  list_open : bool;
  ol_open : bool
}.

Definition init_state : RenderState := mkRenderState [] false [] false false.

Definition emit (ls : list string) (st : RenderState) : RenderState :=
  mkRenderState (html_lines st ++ ls) (in_code st) (code_buf st)
    (list_open st) (ol_open st).

Definition close_lists (st : RenderState) : RenderState :=
  mkRenderState
    (html_lines st
       ++ (if list_open st then ["</ul>"] else [])
       ++ (if ol_open st then ["</ol>"] else []))
    (in_code st) (code_buf st) false false.

Definition heading_level (line : string) : nat :=
  let level := Py.len line - Py.len (Py.lstrip_by (Py.is_char "#") line) in
  Nat.max 1 (Nat.min 6 level).

Definition heading_html (line : string) : string :=
  let level := heading_level line in
  let text := Py.strip (Py.drop level line) in
  ("<h" +:+ Py.str_of_nat level +:+ ">") +:+ _render_inline text
    +:+ ("</h" +:+ Py.str_of_nat level +:+ ">").

(** Python truthiness of an [Optional[str]]: [None] and the empty string
    are false. *)
Definition truthy (o : option string) : option string :=
  match o with
  | Some "" => None
  | _ => o
  end.

Definition is_unordered_item (line : string) : bool :=
  Py.startswith (Py.strip line) "- ".

(** [line = raw.rstrip("\n")] *)
Definition line_of (raw : string) : string :=
  Py.rstrip_by (Py.is_char Py.LF) raw.

(** One turn of the [while] loop of [markdown_to_html] at [raw = lines[i]],
    with [rest = lines[i+1:]].  Returns the new state and the amount by
    which [i] advances. *)
Definition process_line (st : RenderState) (raw : string)
    (rest : list string) : RenderState * nat :=
  let line := line_of raw in
  match _is_fenced_start line with
  | Some _ =>
      if in_code st then
        (mkRenderState
           (html_lines st ++ ["<pre><code>"]
              ++ Py.splitlines (Py.escape (Py.join Py.nl (code_buf st)))
              ++ ["</code></pre>"])
           false [] (list_open st) (ol_open st), 1)
      else
        (mkRenderState (html_lines st) true (code_buf st)
           (list_open st) (ol_open st), 1)
  | None =>
      if in_code st then
        (mkRenderState (html_lines st) true (code_buf st ++ [raw])
           (list_open st) (ol_open st), 1)
      else if Py.startswith line "#" then
        (emit [heading_html line] (close_lists st), 1)
      else
        match truthy (_starts_with_numbered_item line) with
        | Some item =>
            let st1 :=
              if ol_open st then st
              else
                let st0 := emit ["<ol>"] (close_lists st) in
                mkRenderState (html_lines st0) (in_code st0) (code_buf st0)
                  (list_open st0) true in
            (emit ["<li>" +:+ _render_inline item +:+ "</li>"] st1, 1)
        | None =>
            if is_unordered_item line then
              let st1 :=
                if list_open st then st
                else
                  let st0 := emit ["<ul>"] (close_lists st) in
                  mkRenderState (html_lines st0) (in_code st0) (code_buf st0)
                    true (ol_open st0) in
              (emit ["<li>"
                       +:+ _render_inline
                             (Py.strip (Py.drop 2 (Py.strip line)))
                       +:+ "</li>"] st1, 1)
            else if String.eqb (Py.strip line) "" then
              (emit [""] (close_lists st), 1)
            else if is_indented line then
              let '(code_block, advance) :=
                _collect_indented_code (raw :: rest) in
              (emit ["<pre><code>";
                     Py.escape (Py.join Py.nl code_block);
                     "</code></pre>"] (close_lists st), advance)
            else
              (emit ["<p>" +:+ _render_inline (Py.strip line) +:+ "</p>"]
                 (close_lists st), 1)
        end
  end.

(** The [while i < len(lines)] loop.  [skip] is the number of coming lines
    that an earlier turn has already consumed through [i += advance]. *)
Fixpoint scan (skip : nat) (st : RenderState) (lines : list string)
    : RenderState :=
  match lines with
  | [] => st
  | raw :: rest =>
      match skip with
      | S k => scan k st rest
      | O =>
          let '(st', advance) := process_line st raw rest in
          scan (advance - 1) st' rest
      end
  end.

(** The lines emitted after the loop: any list still open is closed. *)
Definition finish (st : RenderState) : list string :=
  html_lines st
    ++ (if list_open st then ["</ul>"] else [])
    ++ (if ol_open st then ["</ol>"] else []).

Definition render_lines (lines : list string) : list string :=
  finish (scan 0 init_state lines).

Definition markdown_to_html (md : string) : string :=
  Py.join Py.nl (render_lines (Py.splitlines md)).

(** ** Paths and the file system *)

(** A [pathlib.Path] is the list of its components.  The file system keeps
    its regular files, in the order in which an enumeration meets them, and
    the directories that exist.  A path is looked up as the operating
    system resolves it: below a regular file there is nothing to reach, a
    directory is no file, and what is neither is missing. *)
Module Fs.

Abbreviation Path := (list string).

Definition name (p : Path) : string := List.last p "".

(** [p / c] for [c] one plain path component, as the literals of the
    script are and as a domain name is; [pathlib] would split any other
    text at its separators. *)
Definition div (p : Path) (c : string) : Path := p ++ [c].

(** [p.parent] *)
Definition parent (p : Path) : Path := removelast p.

(** [p.relative_to(root)]; [None] stands for [ValueError]. *)
Fixpoint relative_to (p root : Path) : option Path :=
  match root, p with
  | [], _ => Some p
  | r :: root', c :: p' =>
      if String.eqb r c then relative_to p' root' else None
  | _ :: _, [] => None
  end.

Definition is_under (root p : Path) : bool :=
  match relative_to p root with
  | Some (_ :: _) => true
  | _ => false
  end.

(** [str(rel)] for a relative path with at least one component. *)
Definition str (rel : Path) : string := Py.join "/" rel.

Fixpoint rfind_char (a : ascii) (s : string) : option nat :=
  match s with
  | "" => None
  | String c r =>
      match rfind_char a r with
      | Some i => Some (S i)
      | None => if Ascii.eqb c a then Some 0 else None
      end
  end.

(** [PurePath.suffix] and [PurePath.stem], on the file name. *)
Definition suffix (nm : string) : string :=
  match rfind_char "." nm with
  | Some i =>
      if (0 <? i)%nat && (i <? Py.len nm - 1)%nat then Py.drop i nm else ""
  | None => ""
  end.

Definition stem (nm : string) : string :=
  match rfind_char "." nm with
  | Some i =>
      if (0 <? i)%nat && (i <? Py.len nm - 1)%nat then Py.take i nm else nm
  | None => nm
  end.

(** [p.with_suffix(sfx)]; [None] stands for the [ValueError] raised on
    an empty name. *)
Definition with_suffix (sfx : string) (p : Path) : option Path :=
  match name p with
  | "" => None
  | nm => Some (removelast p ++ [stem nm +:+ sfx])
  end.

Definition endswith (s sfx : string) : bool :=
  (Py.len sfx <=? Py.len s)%nat
    && String.eqb (Py.drop (Py.len s - Py.len sfx) s) sfx.

Abbreviation Files := (list (Path * string)).

Definition path_eqb (p q : Path) : bool := bool_decide (p = q).

Fixpoint lookup_file (p : Path) (fs : Files) : option string :=
  match fs with
  | [] => None
  | (q, t) :: rest => if path_eqb q p then Some t else lookup_file p rest
  end.

(** [path.write_text(text)]: overwrite in place or create. *)
Fixpoint write_file (p : Path) (text : string) (fs : Files) : Files :=
  match fs with
  | [] => [(p, text)]
  | (q, t) :: rest =>
      if path_eqb q p then (q, text) :: rest
      else (q, t) :: write_file p text rest
  end.

Definition remove_file (p : Path) (fs : Files) : Files :=
  filter (fun e => negb (path_eqb (fst e) p)) fs.

(** The directories [mkdir(parents=True, exist_ok=True)] creates for [d]:
    [d] and every ancestor of it that does not exist yet. *)
Fixpoint ancestors (d : Path) : list Path :=
  match d with
  | [] => [[]]
  | c :: d' => [] :: map (cons c) (ancestors d')
  end.

Definition mkdir_parents (d : Path) (dirs : list Path) : list Path :=
  dirs ++ filter (fun a => negb (bool_decide (a ∈ dirs))) (ancestors d).

(** What is found at a path. *)
Inductive kind :=
| Missing
| Unreachable
| Directory
| Regular (text : string).

(** A component on the way to [p] is a regular file, so that resolving
    [p] fails with [ENOTDIR]. *)
Definition blocked (fs : Files) (p : Path) : bool :=
  existsb (fun a => bool_decide (is_Some (lookup_file a fs)))
    (ancestors (parent p)).

Definition stat (ds : list Path) (fs : Files) (p : Path) : kind :=
  if blocked fs p then Unreachable
  else if bool_decide (p ∈ ds) then Directory
  else match lookup_file p fs with
       | Some t => Regular t
       | None => Missing
       end.

(** [root.rglob("*" + ext)]: the entries below [root] whose name ends
    with [ext], directories as well as regular files; nothing when [root]
    is not a directory.  Among the regular files the order is that of the
    enumeration.  Directories are listed before them; where a scan meets
    them depends on the tree, and the statements below either exclude
    matching directories or hold wherever they stand. *)
Definition matches (ext : string) (root p : Path) : bool :=
  is_under root p && endswith (name p) ext.

Definition rglob (ext : string) (root : Path) (ds : list Path) (fs : Files)
    : list Path :=
  match stat ds fs root with
  | Directory => filter (matches ext root) (ds ++ (fst <$> fs))
  | _ => []
  end.

End Fs.

Import Fs.

(** ** Site building *)

Record Config := mkConfig {
  site_title : string;
  base_url : string;
  css_href : string;
  date_format : string;
  src_root : option Path;
  dst_root : option Path
}.

(** The parsed command line, as far as [run_build] and [run_clean] read
    it. [domain] is one path component. *)
Record Args := mkArgs {
  domain : string;
  args_src_root : option Path;
  args_dst_root : option Path;
  clean_first : bool;
  dry_run : bool
}.

(** The calls to [logging], in order. *)
Inductive LogRecord :=
| LogNothingToClean (p : Path)
| LogRemove (p : Path)
| LogWrite (p : Path)
| LogConvert (src dst : Path)
| LogFound (n : nat)
| LogDomainSettings (p : Path)
| LogNotSet (what : string)
| LogSourceMissing (p : Path)
| LogBuildComplete (d : string)
| LogCleanComplete (d : string).

Inductive exn :=
| SystemExit (code : nat)
| FileNotFoundError (p : Path)
| IsADirectoryError (p : Path)
| NotADirectoryError (p : Path)
| FileExistsError (p : Path)
| ValueError.

Inductive outcome (A : Type) :=
| Ok (a : A)
| Raise (e : exn).
Arguments Ok {A} a.
Arguments Raise {A} e.

(** Everything a run can read or change: the files, the directories, the
    log written so far and the number of clock readings taken. *)
Record World := mkWorld {
  files : Files;
  dirs : list Path;
  log : list LogRecord;
  clock : nat
}.

Definition M (A : Type) : Type := World -> outcome A * World.

Definition ret {A} (a : A) : M A := fun w => (Ok a, w).

Definition bind {A B} (m : M A) (k : A -> M B) : M B :=
  fun w =>
    match m w with
    | (Ok a, w') => k a w'
    | (Raise e, w') => (Raise e, w')
    end.

Definition raise {A} (e : exn) : M A := fun w => (Raise e, w).

Notation "'let*' x := m 'in' k" := (bind m (fun x => k))
  (at level 10, x name, m at level 100, k at level 200).

Definition logging (r : LogRecord) : M unit :=
  fun w => (Ok tt, mkWorld (files w) (dirs w) (log w ++ [r]) (clock w)).

Definition get_world : M World := fun w => (Ok w, w).

(** What is found at [p] in the world [w]. *)
Definition kind_of (w : World) (p : Path) : kind :=
  stat (dirs w) (files w) p.

(** [p.exists()]: false also for a path that cannot be resolved. *)
Definition exists_path (p : Path) : M bool :=
  fun w =>
    (Ok (match kind_of w p with
         | Directory | Regular _ => true
         | Missing | Unreachable => false
         end), w).

(** [p.read_text(encoding="utf-8")] *)
Definition read_text (p : Path) : M string :=
  fun w =>
    match kind_of w p with
    | Regular t => (Ok t, w)
    | Directory => (Raise (IsADirectoryError p), w)
    | Unreachable => (Raise (NotADirectoryError p), w)
    | Missing => (Raise (FileNotFoundError p), w)
    end.

(** [p.unlink()]; on a directory the call fails, with [EISDIR] on Linux,
    and the script catches [FileNotFoundError] alone. *)
Definition unlink (p : Path) : M unit :=
  fun w =>
    match kind_of w p with
    | Regular _ =>
        (Ok tt, mkWorld (remove_file p (files w)) (dirs w) (log w) (clock w))
    | Directory => (Raise (IsADirectoryError p), w)
    | Unreachable => (Raise (NotADirectoryError p), w)
    | Missing => (Raise (FileNotFoundError p), w)
    end.

(** [d.mkdir(parents=True, exist_ok=True)]: nothing to do on a directory,
    an error when [d] or a component on the way to it is a regular file,
    and otherwise [d] and its missing ancestors are created. *)
Definition mkdir (d : Path) : M unit :=
  fun w =>
    match kind_of w d with
    | Unreachable => (Raise (NotADirectoryError d), w)
    | Regular _ => (Raise (FileExistsError d), w)
    | Directory | Missing =>
        (Ok tt, mkWorld (files w) (mkdir_parents d (dirs w)) (log w) (clock w))
    end.

(** [p.write_text(text, encoding="utf-8")]: the file is overwritten, or
    created when its parent is a directory. *)
Definition path_write_text (p : Path) (text : string) : M unit :=
  fun w =>
    match kind_of w p with
    | Directory => (Raise (IsADirectoryError p), w)
    | Unreachable => (Raise (NotADirectoryError p), w)
    | Regular _ =>
        (Ok tt, mkWorld (write_file p text (files w)) (dirs w) (log w) (clock w))
    | Missing =>
        match kind_of w (parent p) with
        | Directory =>
            (Ok tt,
             mkWorld (write_file p text (files w)) (dirs w) (log w) (clock w))
        | _ => (Raise (FileNotFoundError p), w)
        end
    end.

(** [try: m  except FileNotFoundError: pass] *)
Definition ignore_not_found (m : M unit) : M unit :=
  fun w =>
    match m w with
    | (Raise (FileNotFoundError _), w') => (Ok tt, w')
    | r => r
    end.

Fixpoint for_each {A} (xs : list A) (body : A -> M unit) : M unit :=
  match xs with
  | [] => ret tt
  | x :: rest => let* _ := body x in for_each rest body
  end.

Section Site.

(** The clock: [utcnow k] is the [k]-th reading of
    [datetime.utcnow().strftime("%Y-%m-%d %H:%M:%S")]. *)
Variable utcnow : nat -> string.

Definition read_clock : M string :=
  fun w =>
    (Ok (utcnow (clock w)),
     mkWorld (files w) (dirs w) (log w) (S (clock w))).

(** [HTML_TEMPLATE.format(...)] *)
Definition html_template
    (title canonical css base site content built : string) : string :=
  Py.join Py.nl
    [ "<!DOCTYPE html>";
      "<html lang=" +:+ Py.dq +:+ "en" +:+ Py.dq +:+ ">";
      "<head>";
      "<meta charset=" +:+ Py.dq +:+ "utf-8" +:+ Py.dq +:+ ">";
      "<meta name=" +:+ Py.dq +:+ "viewport" +:+ Py.dq
        +:+ " content=" +:+ Py.dq
        +:+ "width=device-width, initial-scale=1" +:+ Py.dq +:+ ">";
      "<title>" +:+ title +:+ "</title>";
      "<link rel=" +:+ Py.dq +:+ "canonical" +:+ Py.dq
        +:+ " href=" +:+ Py.dq +:+ canonical +:+ Py.dq +:+ ">";
      "<link rel=" +:+ Py.dq +:+ "stylesheet" +:+ Py.dq
        +:+ " href=" +:+ Py.dq +:+ css +:+ Py.dq +:+ ">";
      "</head>";
      "<body>";
      "<header>";
      "  <h1><a href=" +:+ Py.dq +:+ base +:+ Py.dq +:+ ">"
        +:+ site +:+ "</a></h1>";
      "</header>";
      "<main>";
      content;
      "</main>";
      "<footer>";
      "  <p>Built " +:+ built +:+ " UTC</p>";
      "</footer>";
      "</body>";
      "</html>";
      "" ].

Definition render_page (config : Config) (title content_html
    canonical_path : string) : M string :=
  let* built := read_clock in
  let canonical :=
    Py.rstrip_by (Py.is_char "/") (base_url config) +:+ "/"
      +:+ Py.lstrip_by (Py.is_char "/") canonical_path in
  ret (html_template (Py.escape title) canonical (css_href config)
         (Py.rstrip_by (Py.is_char "/") (base_url config))
         (Py.escape (site_title config)) content_html built).

Definition write_text (path : Path) (text : string) (dry : bool) : M unit :=
  let* _ := logging (LogWrite path) in
  if dry then ret tt
  else
    let* _ := mkdir (parent path) in
    path_write_text path text.

(** The first ATX heading of a text, as [md_title] finds it. *)
Fixpoint first_heading (lines : list string) : option string :=
  match lines with
  | [] => None
  | line :: rest =>
      if Py.startswith line "#"
      then Some (Py.strip (Py.lstrip_by (Py.is_char "#") line))
      else first_heading rest
  end.

Definition md_title (md_path : Path) : M (option string) :=
  let* text := read_text md_path in
  ret (first_heading (Py.splitlines text)).

(** [md_title(p) or p.stem.replace("-", " ")] *)
Definition title_or_stem (t : option string) (p : Path) : string :=
  match truthy t with
  | Some t' => t'
  | None => Py.replace_char "-" " " (stem (name p))
  end.

Definition from_value_error {A} (o : option A) : M A :=
  match o with
  | Some a => ret a
  | None => raise ValueError
  end.

Definition md_to_html_file (md_path rel_root out_root : Path)
    (cfg : Config) (dry : bool) : M (option Path) :=
  if Py.startswith (name md_path) "__"
     && String.eqb (suffix (name md_path)) ".md"
  then ret None
  else
    let* rel0 := from_value_error (relative_to md_path rel_root) in
    let* rel := from_value_error (with_suffix ".html" rel0) in
    let dst := out_root ++ rel in
    let* _ := logging (LogConvert md_path dst) in
    let* text := read_text md_path in
    let html_body := markdown_to_html text in
    let* t := md_title md_path in
    let title := title_or_stem t md_path in
    let canonical_path := str rel in
    let* page := render_page cfg title html_body canonical_path in
    let* _ := write_text dst page dry in
    ret (Some dst).

Definition collect_md_files (root : Path) : M (list Path) :=
  let* w := get_world in
  ret (rglob ".md" root (dirs w) (files w)).

(** The loop of [clean_domain] over the paths [rglob] has reported. *)
Definition remove_each (found : list Path) (dry : bool) : M unit :=
  for_each found (fun p =>
    let* _ := logging (LogRemove p) in
    if negb dry then ignore_not_found (unlink p) else ret tt).

Definition clean_domain (dst_domain_root : Path) (dry : bool) : M unit :=
  let* e := exists_path dst_domain_root in
  if negb e then logging (LogNothingToClean dst_domain_root)
  else
    let* w := get_world in
    remove_each (rglob ".html" dst_domain_root (dirs w) (files w)) dry.

(** The loop of [build_index] that collects [(href, title)] pairs. *)
Fixpoint index_entries (domain_src_root : Path) (found : list Path)
    : M (list (string * string)) :=
  match found with
  | [] => ret []
  | p :: rest =>
      if Py.startswith (name p) "__"
      then index_entries domain_src_root rest
      else
        let* rel0 := from_value_error (relative_to p domain_src_root) in
        let* rel_html := from_value_error (with_suffix ".html" rel0) in
        let* t := md_title p in
        let title := title_or_stem t p in
        let* tl := index_entries domain_src_root rest in
        ret ((Py.replace_char "\" "/" (str rel_html), title) :: tl)
  end.

(** The order of [list.sort] on pairs of strings. *)
Definition entry_le (a b : string * string) : Prop :=
  String.ltb (fst a) (fst b) = true
  \/ (fst a = fst b /\ String.leb (snd a) (snd b) = true).

Global Instance entry_le_dec a b : Decision (entry_le a b).
Proof. unfold entry_le. apply _. Defined.

Definition sort_entries (entries : list (string * string))
    : list (string * string) :=
  merge_sort entry_le entries.

Definition listing_item (e : string * string) : string :=
  "<li><a href=" +:+ Py.dq +:+ fst e +:+ Py.dq +:+ ">"
    +:+ Py.escape (snd e) +:+ "</a></li>".

Definition index_listing (entries : list (string * string)) : list string :=
  ["<h2>Posts</h2>"; "<ul>"] ++ (listing_item <$> entries) ++ ["</ul>"].

Definition build_index (domain_src_root domain_dst_root : Path)
    (cfg : Config) (dry : bool) : M unit :=
  let index_md := div domain_src_root "__index__.md" in
  let* e := exists_path index_md in
  let* body := (if e
                then let* text := read_text index_md in
                     ret (markdown_to_html text)
                else ret "<h2>Index</h2>") in
  let* w := get_world in
  let* entries := index_entries domain_src_root
               (rglob ".md" domain_src_root (dirs w) (files w)) in
  let entries := sort_entries entries in
  let listing := index_listing entries in
  let content := body +:+ Py.nl +:+ Py.join Py.nl listing in
  let* page := render_page cfg (site_title cfg +:+ " â€” Index") content
            "index.html" in
  write_text (div domain_dst_root "index.html") page dry.

(** [load_domain_settings], as far as it acts on the world; the mapping
    it returns goes to the configuration layer. *)
Definition load_domain_settings (domain_src_root : Path) : M unit :=
  let p := div domain_src_root "__settings__.toml" in
  let* e := exists_path p in
  if e then logging (LogDomainSettings p) else ret tt.

Definition assert_path (path : option Path) (what : string) : M Path :=
  match path with
  | None => let* _ := logging (LogNotSet what) in raise (SystemExit 2)
  | Some p => ret p
  end.

(** [run_build]; [cfg] is the [Config] that [build_config] returns. *)
Definition run_build (cfg : Config) (args : Args) : M unit :=
  let* r := assert_path (args_src_root args) "src_root" in
  let* _ := load_domain_settings (div r (domain args)) in
  let* src := assert_path (src_root cfg) "src_root" in
  let* dst := assert_path (dst_root cfg) "dst_root" in
  let domain_src := div src (domain args) in
  let domain_dst := div dst (domain args) in
  let* e := exists_path domain_src in
  if negb e then
    let* _ := logging (LogSourceMissing domain_src) in
    raise (SystemExit 2)
  else
    let* _ := (if clean_first args
               then clean_domain domain_dst (dry_run args)
               else ret tt) in
    let* md_files := collect_md_files domain_src in
    let* _ := logging (LogFound (length md_files)) in
    let* _ := for_each md_files (fun md =>
                let* _ := md_to_html_file md domain_src domain_dst cfg
                            (dry_run args) in
                ret tt) in
    let* _ := build_index domain_src domain_dst cfg (dry_run args) in
    logging (LogBuildComplete (domain args)).

Definition run_clean (cfg : Config) (args : Args) : M unit :=
  let* dst := assert_path
           (match dst_root cfg with
            | Some p => Some p
            | None => args_dst_root args
            end) "dst_root" in
  let* _ := clean_domain (div dst (domain args)) (dry_run args) in
  logging (LogCleanComplete (domain args)).

End Site.

(** ** Configuration *)

(** A [dict] with string keys, as [tomllib] and the command line deliver
    them.  A value is a string, or [None] for Python's [None]; other TOML
    values are not modelled. *)
Abbreviation Dict := (gmap string (option string)).

(** [{k: v for k, v in d.items() if v is not None}] *)
Definition without_none (d : Dict) : Dict :=
  filter (fun kv => is_Some kv.2) d.

Definition merge_config (base override : Dict) : Dict :=
  without_none override ∪ base.

(** The command-line options that only [build_config] reads. *)
Record Options := mkOptions {
  opt_site_title : option string;
  opt_base_url : option string;
  opt_css_href : option string;
  opt_date_format : option string
}.

(** [str(merged.get(key, default))] *)
Definition get_str (merged : Dict) (key default : string) : string :=
  match merged !! key with
  | Some (Some s) => s
  | Some None => "None"
  | None => default
  end.

Section Configuration.

(** [str(path)] and [Path(text)] of [pathlib]. *)
Variable path_str : Path -> string.
Variable path_of : string -> Path.

(** [Path(merged[key]) if merged.get(key) else None] *)
Definition get_path (merged : Dict) (key : string) : option Path :=
  match merged !! key with
  | Some (Some s) => if String.eqb s "" then None else Some (path_of s)
  | _ => None
  end.

(** [build_config]; [global_cfg] is what [find_config] has read. *)
Definition build_config (global_cfg per_domain : Dict) (opts : Options)
    (args : Args) : Config :=
  let merged : Dict := ∅ in
  let merged := merge_config merged global_cfg in
  let merged := merge_config merged per_domain in
  let cli : Dict :=
    {[ "site_title" := opt_site_title opts;
       "base_url" := opt_base_url opts;
       "css_href" := opt_css_href opts;
       "src_root" := path_str <$> args_src_root args;
       "dst_root" := path_str <$> args_dst_root args;
       "date_format" := opt_date_format opts ]} in
  let merged := merge_config merged (without_none cli) in
  mkConfig (get_str merged "site_title" "Site")
    (get_str merged "base_url" "/")
    (get_str merged "css_href" "/style.css")
    (get_str merged "date_format" "%Y-%m-%d")
    (get_path merged "src_root")
    (get_path merged "dst_root").

End Configuration.

(** * Notions used in the statements *)

(** A document given by its lines. *)
Definition doc (lines : list string) : string := Py.join Py.nl lines.

(** How the loop classifies a line outside a fence, in the order of its
    tests. *)
Definition is_fence (raw : string) : bool :=
  match _is_fenced_start (line_of raw) with Some _ => true | None => false end.

Definition ordered_item (raw : string) : option string :=
  truthy (_starts_with_numbered_item (line_of raw)).

Definition is_ordered (raw : string) : bool :=
  match ordered_item raw with Some _ => true | None => false end.

Definition is_unordered (raw : string) : bool :=
  is_unordered_item (line_of raw).

(** The [<li>] lines the loop emits for an ordered and an unordered item. *)
Definition ordered_li (raw : string) : string :=
  "<li>" +:+ _render_inline (default "" (ordered_item raw)) +:+ "</li>".

Definition unordered_li (raw : string) : string :=
  "<li>"
    +:+ _render_inline (Py.strip (Py.drop 2 (Py.strip (line_of raw))))
    +:+ "</li>".

(** The look-ahead of an indented block ends at a line that is not
    indented, or at the end of the input. *)
Definition stops (lines : list string) : Prop :=
  match lines with
  | [] => True
  | l :: _ => is_indented l = false
  end.

(** Outside a fence the buffer is empty. *)
Definition buffer_clear (st : RenderState) : Prop :=
  in_code st = false -> code_buf st = [].

(** Every character of [s] passes the test [P]. *)
Fixpoint str_all (P : ascii -> bool) (s : string) : bool :=
  match s with
  | "" => true
  | String c r => P c && str_all P r
  end.

(** A text without any line boundary, as [splitlines] delivers them. *)
Definition one_line (s : string) : bool :=
  str_all (fun c => negb (Py.is_linebreak c)) s.

(** The number of [#] a heading line starts with. *)
Definition leading_hashes (line : string) : nat :=
  Py.len line - Py.len (Py.lstrip_by (Py.is_char "#") line).

(** At most one kind of list is open. *)
Definition exclusive (st : RenderState) : Prop :=
  list_open st && ol_open st = false.

(** How often the line [x] occurs in the output [ls]. *)
Definition cnt (x : string) (ls : list string) : nat :=
  count_occ String.string_dec ls x.

(** The four output lines that open or close a list. *)
Definition list_tags : list string := ["<ul>"; "</ul>"; "<ol>"; "</ol>"].

Definition is_list_tag (x : string) : bool :=
  existsb (String.eqb x) list_tags.

(** A text without the character [<], as [html.escape] returns them. *)
Definition no_lt (s : string) : bool :=
  str_all (fun c => negb (Ascii.eqb c "<")) s.

(** What one turn adds to the output, and what it does to the two list
    flags: it leaves them alone, or closes the open list, or closes it and
    opens an [<ol>] or a [<ul>]. *)
Inductive turn_shape (st st' : RenderState) (body : list string) : Prop :=
| shape_same :
    html_lines st' = html_lines st ++ body ->
    list_open st' = list_open st -> ol_open st' = ol_open st ->
    turn_shape st st' body
| shape_closed :
    html_lines st' = html_lines (close_lists st) ++ body ->
    list_open st' = false -> ol_open st' = false ->
    turn_shape st st' body
| shape_ol :
    html_lines st' = html_lines (close_lists st) ++ "<ol>" :: body ->
    list_open st' = false -> ol_open st' = true ->
    turn_shape st st' body
| shape_ul :
    html_lines st' = html_lines (close_lists st) ++ "<ul>" :: body ->
    list_open st' = true -> ol_open st' = false ->
    turn_shape st st' body.

(** The list tags of an output in which every list is closed before the
    next one is opened: a sequence of pairs [<ul>], [</ul>] or [<ol>],
    [</ol>]. *)
Inductive list_blocks : list string -> Prop :=
| blocks_nil : list_blocks []
| blocks_ul word : list_blocks word -> list_blocks (word ++ ["<ul>"; "</ul>"])
| blocks_ol word : list_blocks word -> list_blocks (word ++ ["<ol>"; "</ol>"]).

(** The list tags of an output, in order. *)
Definition tag_word (ls : list string) : list string :=
  filter (fun x => is_list_tag x = true) ls.

(** The opening tag of the list that is open. *)
Definition opener (st : RenderState) : list string :=
  if list_open st then ["<ul>"] else if ol_open st then ["<ol>"] else [].

(** The closing tag of the list that is open. *)
Definition closer (st : RenderState) : list string :=
  if list_open st then ["</ul>"] else if ol_open st then ["</ol>"] else [].

(** The list tags emitted so far are closed blocks, followed by the
    opening tag of the list that is open. *)
Definition tags_nested (st : RenderState) : Prop :=
  exclusive st
  /\ exists word,
       list_blocks word /\ tag_word (html_lines st) = word ++ opener st.

(** For each kind of list, one more opening than closing tag in the output
    when it is open, as many when it is not. *)
Definition tags_ok (st : RenderState) : Prop :=
  cnt "<ul>" (html_lines st)
  = cnt "</ul>" (html_lines st) + Nat.b2n (list_open st)
  /\ cnt "<ol>" (html_lines st)
     = cnt "</ol>" (html_lines st) + Nat.b2n (ol_open st).

(** The test of [build_index] for the reserved prefix. *)
Definition reserved (p : Path) : bool := Py.startswith (name p) "__".

(** The [href] that [build_index] computes for a file; [None] when
    [relative_to] or [with_suffix] raises. *)
Definition entry_href (root p : Path) : option string :=
  rel0 ← relative_to p root;
  rel_html ← with_suffix ".html" rel0;
  Some (Py.replace_char "\" "/" (str rel_html)).

(** The entry of one file, read off the file system. *)
Definition entry_of (root : Path) (w : World) (p : Path) : string * string :=
  (default "" (entry_href root p),
   title_or_stem
     (first_heading
        (Py.splitlines
           (match kind_of w p with Regular t => t | _ => "" end))) p).

(** [p] is a regular file of [w]. *)
Definition regular (w : World) (p : Path) : Prop :=
  exists t, kind_of w p = Regular t.

(** What the enumeration of [build_index] reports and the loop does not
    skip. *)
Definition discovered (root : Path) (w : World) : list Path :=
  filter (fun p => negb (reserved p)) (rglob ".md" root (dirs w) (files w)).

(** The entries that the loop of [build_index] collects in [w], in the
    order of the enumeration, or the error that ends it. *)
Definition index_entries_of (root : Path) (w : World)
    : outcome (list (string * string)) :=
  fst (index_entries root (rglob ".md" root (dirs w) (files w)) w).

(** The body of the index page: the rendered [__index__.md] if it exists,
    a placeholder otherwise. *)
Definition index_body (root : Path) (w : World) : outcome string :=
  let index_md := div root "__index__.md" in
  match kind_of w index_md with
  | Regular text => Ok (markdown_to_html text)
  | Directory => Raise (IsADirectoryError index_md)
  | Missing | Unreachable => Ok "<h2>Index</h2>"
  end.

(** The text of the index page for a body, the collected entries and a
    reading of the clock. *)
Definition index_page (utcnow : nat -> string) (cfg : Config)
    (body : string) (entries : list (string * string)) (k : nat) : string :=
  html_template (Py.escape (site_title cfg +:+ " â€” Index"))
    (Py.rstrip_by (Py.is_char "/") (base_url cfg) +:+ "/"
       +:+ Py.lstrip_by (Py.is_char "/") "index.html")
    (css_href cfg) (Py.rstrip_by (Py.is_char "/") (base_url cfg))
    (Py.escape (site_title cfg))
    (body +:+ Py.nl
       +:+ Py.join Py.nl (index_listing (sort_entries entries)))
    (utcnow k).

(** A path at which [write_text] can leave a file: it has a name, no
    component on the way to it is a regular file, and it is not a
    directory. *)
Definition can_write (w : World) (p : Path) : bool :=
  negb (bool_decide (p = [])) && negb (blocked (files w) p)
  && negb (bool_decide (p ∈ dirs w)).

(** An error of the operating system at a call that changes the file
    system, or at a read of a directory. *)
Definition os_error {A} (o : outcome A) : Prop :=
  match o with
  | Raise (IsADirectoryError _) | Raise (NotADirectoryError _)
  | Raise (FileExistsError _) => True
  | _ => False
  end.

(** A path that [unlink] removes or finds missing. *)
Definition removable (w : World) (p : Path) : Prop :=
  match kind_of w p with
  | Regular _ | Missing => True
  | Directory | Unreachable => False
  end.

(** What an enumeration below [root] goes through, before [rglob] asks
    whether [root] is a directory. *)
Definition enum (ext : string) (root : Path) (w : World) : list Path :=
  filter (matches ext root) (dirs w ++ (fst <$> files w)).

(** One plain path component, as a domain name is: not empty, no
    separator, and neither of the two special names. *)
Definition is_component (c : string) : bool :=
  negb (String.eqb c "") && negb (String.eqb c ".")
  && negb (String.eqb c "..")
  && str_all (fun a => negb (Ascii.eqb a "/")) c.

(** The two worlds have the same entry at every path that starts with
    [root]. *)
Definition same_below (root : Path) (w1 w2 : World) : Prop :=
  forall p, root `prefix_of` p -> kind_of w1 p = kind_of w2 p.

(** A computation that leaves files and directories as they are. *)
Definition keeps_fs {A} (m : M A) : Prop :=
  forall w, files (snd (m w)) = files w /\ dirs (snd (m w)) = dirs w.

(** Two runs agree when they end the same way and have logged the same
    lines. *)
Definition agree {A} (r1 r2 : outcome A * World) : Prop :=
  fst r1 = fst r2 /\ log (snd r1) = log (snd r2).

(** Two runs agree unless the second ends in an error of the operating
    system. *)
Definition agree_unless_os_error {A} (r1 r2 : outcome A * World) : Prop :=
  os_error (fst r2) \/ agree r1 r2.

(** What a dry run (left) and a real run (right) of a build with the
    source tree [src] agree on at every point: the log, the clock, what is
    found at the paths below the source tree, and what an enumeration of
    it goes through. *)
Definition sim_rel (src : Path) (w1 w2 : World) : Prop :=
  log w1 = log w2 /\ clock w1 = clock w2
  /\ same_below src w1 w2
  /\ enum ".md" src w1 = enum ".md" src w2.

(** The two runs end the same way and stay related, unless the real one
    ends in an error of the operating system. *)
Definition sim (src : Path) {A} (m1 m2 : M A) : Prop :=
  forall w1 w2,
    sim_rel src w1 w2 ->
    os_error (fst (m2 w2))
    \/ (fst (m1 w1) = fst (m2 w2)
        /\ sim_rel src (snd (m1 w1)) (snd (m2 w2))).

(** The source and the destination tree of a domain do not contain one
    another. *)
Definition trees_apart (cfg : Config) (args : Args) : Prop :=
  match src_root cfg, dst_root cfg with
  | Some s, Some d =>
      ~ div s (domain args) `prefix_of` div d (domain args)
      /\ ~ div d (domain args) `prefix_of` div s (domain args)
  | _, _ => True
  end.

(** The same invocation without the dry-run flag. *)
Definition for_real (args : Args) : Args :=
  mkArgs (domain args) (args_src_root args) (args_dst_root args)
    (clean_first args) false.

(** A character that starts no inline markup. *)
Definition plain_char (c : ascii) : bool :=
  negb (Ascii.eqb c "`") && negb (Ascii.eqb c "*") && negb (Ascii.eqb c "[").

(** The [<a>] element that [_replace_links] emits. *)
Definition anchor (url text : string) : string :=
  "<a href=" +:+ Py.dq +:+ url +:+ Py.dq +:+ ">" +:+ text +:+ "</a>".

(** A line that none of the tests of the loop takes: it becomes a
    paragraph. *)
Definition is_plain (raw : string) : bool :=
  negb (is_fence raw) && negb (Py.startswith (line_of raw) "#")
  && negb (is_ordered raw) && negb (is_unordered raw)
  && negb (String.eqb (Py.strip (line_of raw)) "")
  && negb (is_indented (line_of raw)).

Definition paragraph (raw : string) : string :=
  "<p>" +:+ _render_inline (Py.strip (line_of raw)) +:+ "</p>".

(** One indentation unit taken off a line, as [_collect_indented_code]
    does it. *)
Definition unindent (l : string) : string :=
  if Py.startswith l "    " then Py.drop 4 l else Py.drop 1 l.

(** A line that opens an indented block: indented, and taken by none of
    the earlier tests of the loop. *)
Definition opens_code (raw : string) : bool :=
  negb (is_fence raw) && negb (Py.startswith (line_of raw) "#")
  && negb (is_ordered raw) && negb (is_unordered raw)
  && negb (String.eqb (Py.strip (line_of raw)) "")
  && is_indented (line_of raw).

(** [m] stays below [root]: every file whose path does not start with
    [root] is afterwards what it was before, and no directory is removed,
    however the action ends. *)
Definition stays_below {A} (root : Path) (m : M A) : Prop :=
  forall w,
    (forall q, ~ root `prefix_of` q ->
               lookup_file q (files (snd (m w))) = lookup_file q (files w))
    /\ dirs w ⊆ dirs (snd (m w)).

(** The page that [md_to_html_file] writes for the source [md] with text
    [text], at the relative path [rel_html], on the [k]-th reading of the
    clock. *)
Definition page_for (utcnow : nat -> string) (cfg : Config)
    (md rel_html : Path) (text : string) (k : nat) : string :=
  html_template
    (Py.escape (title_or_stem (first_heading (Py.splitlines text)) md))
    (Py.rstrip_by (Py.is_char "/") (base_url cfg) +:+ "/"
       +:+ Py.lstrip_by (Py.is_char "/") (str rel_html))
    (css_href cfg) (Py.rstrip_by (Py.is_char "/") (base_url cfg))
    (Py.escape (site_title cfg)) (markdown_to_html text) (utcnow k).

(** The relative path of the page of a source at the relative path
    [rel]. *)
Definition html_path (rel : Path) : Path :=
  removelast rel ++ [stem (name rel) +:+ ".html"].

(** The value that is in force for a key: the command line first, then
    the settings of the domain, then the global configuration. *)
Definition in_force (cli : option string) (per_domain global_cfg : Dict)
    (key : string) : option string :=
  match cli with
  | Some s => Some s
  | None =>
      match per_domain !! key with
      | Some (Some s) => Some s
      | _ =>
          match global_cfg !! key with
          | Some (Some s) => Some s
          | _ => None
          end
      end
  end.

(** A root that is in force: an empty text counts as not set. *)
Definition root_in_force (path_of : string -> Path) (o : option string)
    : option Path :=
  match o with
  | Some s => if String.eqb s "" then None else Some (path_of s)
  | None => None
  end.

(** * Properties *)

(** ** String primitives *)

Section StringFacts.

Lemma split_go_nonempty sep k s : Py.split_go sep k s <> [].
Proof.
  revert k; induction s as [|c r IH]; intros k; cbn [Py.split_go];
    [discriminate|].
  destruct k; [|apply IH].
  destruct (String.prefix sep (String c r)); [discriminate|].
  specialize (IH 0). destruct (Py.split_go sep 0 r); [congruence|discriminate].
Qed.

Lemma cons_first_length c l : l <> [] -> length (Py.cons_first c l) = length l.
Proof. destruct l; [congruence|reflexivity]. Qed.

(** [len(s.split(sep)) == s.count(sep) + 1] *)
Lemma split_go_length sep k s :
  length (Py.split_go sep k s) = S (Py.count_go sep k s).
Proof.
  revert k; induction s as [|c r IH]; intros k;
    cbn [Py.split_go Py.count_go]; [done|].
  destruct k; [|apply IH].
  destruct (String.prefix sep (String c r)); cbn [length].
  - by rewrite IH.
  - rewrite cons_first_length by apply split_go_nonempty. apply IH.
Qed.

Lemma split_length s sep : length (Py.split s sep) = S (Py.count s sep).
Proof. apply split_go_length. Qed.

Lemma append_nil_l s : "" +:+ s = s.
Proof. reflexivity. Qed.

Lemma append_cons c s t : String c s +:+ t = String c (s +:+ t).
Proof. reflexivity. Qed.

Lemma append_nil_r s : s +:+ "" = s.
Proof.
  induction s as [|x s IH]; [done|]. by rewrite append_cons, IH.
Qed.

Lemma append_assoc (a b c : string) : (a +:+ b) +:+ c = a +:+ b +:+ c.
Proof.
  induction a as [|x a IH]; [done|]. by rewrite !append_cons, IH.
Qed.

End StringFacts.

(** ** Inline renderer *)

Section Inline.

Variables open_tag close_tag : string.

(** After the loop [toggle] tells whether the number of parts is odd. *)
Lemma wrap_parts_toggle t parts :
  snd (wrap_parts open_tag close_tag t parts)
  = xorb t (Nat.odd (length parts)).
Proof.
  revert t; induction parts as [|p ps IH]; intros t.
  - by destruct t.
  - cbn [wrap_parts length].
    specialize (IH (negb t)).
    destruct (wrap_parts open_tag close_tag (negb t) ps) as [out t'].
    cbn [snd] in *. rewrite IH, Nat.odd_succ, <- Nat.negb_odd.
    by destruct t, (Nat.odd (length ps)).
Qed.

(** Fewer than three parts: the text is returned as it is. *)
Lemma replace_delimited_few_parts s delim :
  length (Py.split s delim) < 3 ->
  _replace_delimited s delim open_tag close_tag = s.
Proof.
  intros H. unfold _replace_delimited.
  by rewrite (proj2 (Nat.ltb_lt _ _) H).
Qed.

(** What line 171 of the script does: with an even number of delimiter
    occurrences the number of parts is odd, [toggle] is set after the
    loop, and the text is returned without any substitution. *)
Lemma replace_delimited_even_count s delim :
  Nat.even (Py.count s delim) = true ->
  _replace_delimited s delim open_tag close_tag = s.
Proof.
  intros Hev. unfold _replace_delimited.
  destruct (length (Py.split s delim) <? 3)%nat; [done|].
  pose proof (wrap_parts_toggle false (Py.split s delim)) as Ht.
  destruct (wrap_parts open_tag close_tag false (Py.split s delim))
    as [out t]; cbn [snd] in Ht.
  rewrite split_length, Nat.odd_succ, Hev in Ht.
  by rewrite Ht.
Qed.

(** With an odd number of occurrences, three or more, the parts are
    joined with every second one wrapped, the last one included. *)
Lemma replace_delimited_odd_count s delim :
  Nat.odd (Py.count s delim) = true -> 3 <= Py.count s delim ->
  _replace_delimited s delim open_tag close_tag
  = Py.join "" (fst (wrap_parts open_tag close_tag false (Py.split s delim))).
Proof.
  intros Hodd Hge. unfold _replace_delimited.
  rewrite split_length.
  destruct (Nat.ltb_spec (S (Py.count s delim)) 3) as [Hlt|_]; [lia|].
  pose proof (wrap_parts_toggle false (Py.split s delim)) as Ht.
  destruct (wrap_parts open_tag close_tag false (Py.split s delim))
    as [out t]; cbn [snd fst] in *.
  rewrite split_length, Nat.odd_succ, <- Nat.negb_odd, Hodd in Ht.
  by rewrite Ht.
Qed.

End Inline.

(** C1. The script means to wrap the segments enclosed by matched
    delimiter pairs; on a line with one well-formed pair of each kind it
    wraps nothing: [_render_inline] returns the escaped text with the
    delimiters still in it, where the specification has [<em>],
    [<strong>] and [<code>] elements.  (The check after the loop of
    [_replace_delimited] reads [toggle] after its last flip.) *)
Theorem C1_paired_delimiters_left_unwrapped :
  Py.count (Py.escape "a *b* c") "*" = 2
  /\ _render_inline "a *b* c" = "a *b* c"
  /\ _render_inline "a **b** c" = "a **b** c"
  /\ _render_inline "a `b` c" = "a `b` c"
  /\ _replace_delimited "a *b* c" "*" "<em>" "</em>" = "a *b* c".
Proof. by vm_compute. Qed.

(** C2. A line with three occurrences of a delimiter, an odd count, is
    substituted: two [<em>] elements are emitted, the second one around
    the unterminated last segment, where the specification leaves the
    line as it is.  With one occurrence the text is returned unchanged. *)
Theorem C2_odd_count_is_substituted :
  Py.count (Py.escape "*a*b*") "*" = 3
  /\ _render_inline "*a*b*" = "<em>a</em>b<em></em>"
  /\ _render_inline "x `a`b` y" = "x <code>a</code>b<code> y</code>"
  /\ _render_inline "a *b" = "a *b".
Proof. by vm_compute. Qed.


(** ** Block renderer: one turn of the loop *)

Section Turn.

Variable st : RenderState.
Variable raw : string.
Variable rest : list string.

Lemma turn_fence_open :
  is_fence raw = true -> in_code st = false ->
  process_line st raw rest
  = (mkRenderState (html_lines st) true (code_buf st)
       (list_open st) (ol_open st), 1).
Proof.
  unfold is_fence, process_line. intros Hf Hc.
  destruct (_is_fenced_start (line_of raw)); [|done]. by rewrite Hc.
Qed.

Lemma turn_fence_close :
  is_fence raw = true -> in_code st = true ->
  process_line st raw rest
  = (mkRenderState
       (html_lines st ++ ["<pre><code>"]
          ++ Py.splitlines (Py.escape (Py.join Py.nl (code_buf st)))
          ++ ["</code></pre>"])
       false [] (list_open st) (ol_open st), 1).
Proof.
  unfold is_fence, process_line. intros Hf Hc.
  destruct (_is_fenced_start (line_of raw)); [|done]. by rewrite Hc.
Qed.

(** Inside a fence every other line is buffered as it is. *)
Lemma turn_buffer :
  is_fence raw = false -> in_code st = true ->
  process_line st raw rest
  = (mkRenderState (html_lines st) true (code_buf st ++ [raw])
       (list_open st) (ol_open st), 1).
Proof.
  unfold is_fence, process_line. intros Hf Hc.
  destruct (_is_fenced_start (line_of raw)); [done|]. by rewrite Hc.
Qed.

Lemma turn_heading :
  is_fence raw = false -> in_code st = false ->
  Py.startswith (line_of raw) "#" = true ->
  process_line st raw rest
  = (emit [heading_html (line_of raw)] (close_lists st), 1).
Proof.
  unfold is_fence, process_line. intros Hf Hc Hh.
  destruct (_is_fenced_start (line_of raw)); [done|]. by rewrite Hc, Hh.
Qed.

End Turn.

(** ** Block renderer: how lines are told apart *)

Lemma rstrip_by_head f c r :
  Py.rstrip_by f (String c r) = "" \/
  exists r', Py.rstrip_by f (String c r) = String c r'.
Proof.
  cbn [Py.rstrip_by].
  destruct (Py.rstrip_by f r); [destruct (f c)|]; eauto.
Qed.

Lemma startswith_head_ne c r p0 p :
  c <> p0 -> Py.startswith (String c r) (String p0 p) = false.
Proof.
  intros Hne. unfold Py.startswith. cbn [String.prefix].
  destruct (ascii_dec p0 c); congruence.
Qed.

Lemma startswith_rstrip_head_ne f c r p0 p :
  c <> p0 -> Py.startswith (Py.rstrip_by f (String c r)) (String p0 p) = false.
Proof.
  intros Hne. destruct (rstrip_by_head f c r) as [->|[r' ->]]; [done|].
  by apply startswith_head_ne.
Qed.

(** A numbered item starts with white space or a digit. *)
Lemma numbered_head line t :
  _starts_with_numbered_item line = Some t ->
  exists c l, line = String c l /\ (Py.isspace c = true \/ Py.isdigit c = true).
Proof.
  destruct line as [|c l]; [done|]. intros H. exists c, l. split; [done|].
  destruct (Py.isspace c) eqn:Hsp; [by left|right].
  unfold _starts_with_numbered_item, Py.lstrip in H.
  cbn [Py.lstrip_by] in H. rewrite Hsp in H.
  destruct (Py.isdigit c); [done|]. by rewrite andb_false_r in H.
Qed.

(** An unordered item starts with white space or a dash. *)
Lemma unordered_head line :
  is_unordered_item line = true ->
  exists c l, line = String c l /\ (Py.isspace c = true \/ c = "-"%char).
Proof.
  destruct line as [|c l]; [done|]. intros H. exists c, l. split; [done|].
  destruct (Py.isspace c) eqn:Hsp; [by left|right].
  unfold is_unordered_item, Py.strip, Py.lstrip, Py.rstrip in H.
  cbn [Py.lstrip_by] in H. rewrite Hsp in H.
  destruct (rstrip_by_head Py.isspace c l) as [E|[r' E]]; rewrite E in H;
    [done|].
  destruct (ascii_dec c "-") as [->|Hne]; [done|].
  by rewrite startswith_head_ne in H.
Qed.

Lemma is_fence_head_ne c l :
  c <> "`"%char -> _is_fenced_start (String c l) = None.
Proof.
  intros Hne. unfold _is_fenced_start.
  by rewrite startswith_rstrip_head_ne.
Qed.

Lemma ordered_item_numbered raw :
  is_ordered raw = true ->
  exists t, _starts_with_numbered_item (line_of raw) = Some t.
Proof.
  unfold is_ordered, ordered_item.
  destruct (_starts_with_numbered_item (line_of raw)); [eauto|done].
Qed.

Lemma ordered_not_fence raw : is_ordered raw = true -> is_fence raw = false.
Proof.
  intros [t Ht]%ordered_item_numbered.
  apply numbered_head in Ht as (c & l & E & Hc).
  unfold is_fence. rewrite E, is_fence_head_ne; [done|].
  intros ->. by destruct Hc.
Qed.

Lemma ordered_not_heading raw :
  is_ordered raw = true -> Py.startswith (line_of raw) "#" = false.
Proof.
  intros [t Ht]%ordered_item_numbered.
  apply numbered_head in Ht as (c & l & E & Hc).
  rewrite E. apply startswith_head_ne. intros ->. by destruct Hc.
Qed.

Lemma unordered_not_fence raw : is_unordered raw = true -> is_fence raw = false.
Proof.
  intros (c & l & E & Hc)%unordered_head.
  unfold is_fence. rewrite E, is_fence_head_ne; [done|].
  intros ->. by destruct Hc.
Qed.

Lemma unordered_not_heading raw :
  is_unordered raw = true -> Py.startswith (line_of raw) "#" = false.
Proof.
  intros (c & l & E & Hc)%unordered_head.
  rewrite E. apply startswith_head_ne. intros ->. by destruct Hc.
Qed.

Lemma unordered_not_ordered raw :
  is_unordered raw = true -> ordered_item raw = None.
Proof.
  unfold is_unordered, ordered_item, is_unordered_item, Py.strip, Py.rstrip.
  unfold _starts_with_numbered_item.
  destruct (Py.lstrip (line_of raw)) as [|c0 r]; [done|]. intros H.
  destruct (rstrip_by_head Py.isspace c0 r) as [E|[r' E]]; rewrite E in H;
    [done|].
  destruct (ascii_dec c0 "-") as [->|Hne].
  - by rewrite andb_false_r.
  - by rewrite startswith_head_ne in H.
Qed.

Section ListTurn.

Variable st : RenderState.
Variable raw : string.
Variable rest : list string.

(** An ordered item outside a fence: an [<ol>] is opened unless one is
    open, after closing whatever list is open; then the [<li>]. *)
Lemma turn_ordered :
  is_ordered raw = true -> in_code st = false ->
  process_line st raw rest
  = (emit [ordered_li raw]
       (if ol_open st then st
        else mkRenderState
               (html_lines st
                  ++ (if list_open st then ["</ul>"] else []) ++ ["<ol>"])
               false (code_buf st) false true), 1).
Proof.
  intros Ho Hc.
  pose proof (ordered_not_fence _ Ho) as Hf.
  pose proof (ordered_not_heading _ Ho) as Hh.
  unfold is_fence in Hf. unfold process_line, ordered_li.
  destruct (_is_fenced_start (line_of raw)); [done|].
  rewrite Hc, Hh. unfold is_ordered in Ho. fold (ordered_item raw).
  destruct (ordered_item raw) as [item|]; [|done]. cbn [default].
  destruct (ol_open st) eqn:Hol; [done|].
  unfold emit, close_lists; cbn. rewrite Hol, Hc.
  by rewrite app_nil_r, <- !app_assoc.
Qed.

Lemma turn_unordered :
  is_unordered raw = true -> in_code st = false ->
  process_line st raw rest
  = (emit [unordered_li raw]
       (if list_open st then st
        else mkRenderState
               (html_lines st
                  ++ (if ol_open st then ["</ol>"] else []) ++ ["<ul>"])
               false (code_buf st) true false), 1).
Proof.
  intros Hu Hc.
  pose proof (unordered_not_fence _ Hu) as Hf.
  pose proof (unordered_not_heading _ Hu) as Hh.
  pose proof (unordered_not_ordered _ Hu) as Ho.
  unfold is_fence in Hf. unfold process_line, unordered_li.
  destruct (_is_fenced_start (line_of raw)); [done|].
  rewrite Hc, Hh. fold (ordered_item raw). rewrite Ho.
  unfold is_unordered in Hu. rewrite Hu.
  destruct (list_open st) eqn:Hul; [done|].
  unfold emit, close_lists; cbn. rewrite Hul, Hc.
  by rewrite <- !app_assoc.
Qed.

End ListTurn.

(** ** Block renderer: the loop *)

Lemma collect_app l1 l2 :
  stops l2 -> _collect_indented_code (l1 ++ l2) = _collect_indented_code l1.
Proof.
  intros Hs. induction l1 as [|l l1 IH]; cbn [app _collect_indented_code].
  - destruct l2 as [|x l2]; [done|]. cbn in *. by rewrite Hs.
  - by rewrite IH.
Qed.

Lemma collect_advance_le lines :
  snd (_collect_indented_code lines) <= length lines.
Proof.
  induction lines as [|l ls IH]; cbn; [done|].
  destruct (is_indented l); cbn; [|lia].
  destruct (_collect_indented_code ls); cbn in *. lia.
Qed.

Lemma process_line_app st raw l1 l2 :
  stops l2 -> process_line st raw (l1 ++ l2) = process_line st raw l1.
Proof.
  intros Hs. unfold process_line.
  by rewrite (app_comm_cons l1 l2 raw), collect_app.
Qed.

Lemma process_line_advance_le st raw rest :
  snd (process_line st raw rest) - 1 <= length rest.
Proof.
  pose proof (collect_advance_le (raw :: rest)) as Hle.
  unfold process_line.
  repeat match goal with
         | |- context [match ?x with _ => _ end] =>
             lazymatch x with
             | _collect_indented_code _ => fail
             | _ => destruct x
             end
         end; cbn [snd]; try lia.
  destruct (_collect_indented_code (raw :: rest)); cbn [snd length] in *. lia.
Qed.

(** Scanning a document in two pieces, when the second piece does not
    continue an indented block. *)
Lemma scan_app k st l1 l2 :
  stops l2 -> k <= length l1 ->
  scan k st (l1 ++ l2) = scan 0 (scan k st l1) l2.
Proof.
  intros Hs. revert k st.
  induction l1 as [|raw l1 IH]; intros k st Hk; cbn [app scan length] in *.
  - by replace k with 0 by lia.
  - destruct k as [|k]; [|apply IH; lia].
    rewrite process_line_app by done.
    pose proof (process_line_advance_le st raw l1) as Hle.
    destruct (process_line st raw l1) as [st' adv]; cbn [snd] in Hle.
    by apply IH.
Qed.

(** A fence line is not indented. *)
Lemma fence_head raw : is_fence raw = true -> exists l, raw = String "`" l.
Proof.
  unfold is_fence, _is_fenced_start, line_of.
  destruct raw as [|c l]; [done|]. intros H.
  destruct (ascii_dec c "`") as [->|Hne]; [eauto|].
  destruct (rstrip_by_head (Py.is_char Py.LF) c l) as [E|[r' E]];
    rewrite E in H; [done|].
  by rewrite startswith_rstrip_head_ne in H.
Qed.

Lemma fence_stops raw more : is_fence raw = true -> stops (raw :: more).
Proof. intros [l ->]%fence_head. reflexivity. Qed.

(** Inside a fence the loop only buffers, up to the next fence line. *)
Lemma scan_buffer st ls more :
  in_code st = true -> Forall (fun l => is_fence l = false) ls ->
  scan 0 st (ls ++ more)
  = scan 0 (mkRenderState (html_lines st) true (code_buf st ++ ls)
              (list_open st) (ol_open st)) more.
Proof.
  intros Hc Hls. revert st Hc.
  induction Hls as [|l ls Hl _ IH]; intros st Hc.
  - rewrite app_nil_r. by destruct st; cbn in *; subst.
  - cbn [app scan]. rewrite turn_buffer by done. cbn [Nat.sub].
    rewrite IH by done. cbn. by rewrite <- app_assoc.
Qed.

(** A whole fenced block: one [<pre><code>] element is emitted at the
    closing fence, holding what [splitlines] makes of the escaped buffer. *)
Lemma scan_fenced_block st opening interior closing more :
  in_code st = false ->
  is_fence opening = true -> Forall (fun l => is_fence l = false) interior ->
  is_fence closing = true ->
  scan 0 st (opening :: interior ++ closing :: more)
  = scan 0
      (mkRenderState
         (html_lines st ++ ["<pre><code>"]
            ++ Py.splitlines
                 (Py.escape (Py.join Py.nl (code_buf st ++ interior)))
            ++ ["</code></pre>"])
         false [] (list_open st) (ol_open st)) more.
Proof.
  intros Hc Ho Hi Hcl. cbn [scan].
  rewrite turn_fence_open by done. cbn [Nat.sub].
  rewrite scan_buffer by done. cbn [scan].
  by rewrite turn_fence_close.
Qed.

Lemma process_line_buffer_clear st raw rest :
  buffer_clear st -> buffer_clear (fst (process_line st raw rest)).
Proof.
  unfold buffer_clear, process_line, emit, close_lists. intros H.
  repeat match goal with
         | |- context [match ?x with _ => _ end] => destruct x eqn:?
         end; cbn; intros; try done; auto.
Qed.

Lemma scan_buffer_clear k st lines :
  buffer_clear st -> buffer_clear (scan k st lines).
Proof.
  revert k st. induction lines as [|raw rest IH]; intros k st H; [done|].
  cbn [scan]. destruct k; [|by apply IH].
  pose proof (process_line_buffer_clear st raw rest H) as H'.
  destruct (process_line st raw rest). by apply IH.
Qed.

(** ** Lines, joined and split again *)

Lemma str_all_app P a b : str_all P (a +:+ b) = str_all P a && str_all P b.
Proof.
  induction a as [|c a IH]; [done|].
  rewrite append_cons. cbn [str_all]. by rewrite IH, andb_assoc.
Qed.

Lemma splitlines_one_line l :
  one_line l = true -> l <> "" -> Py.splitlines l = [l].
Proof.
  induction l as [|c r IH]; [done|]. intros [Hc Hr]%andb_true_iff _.
  cbn [Py.splitlines]. apply negb_true_iff in Hc. rewrite Hc.
  destruct r as [|c' r']; [done|].
  by rewrite IH.
Qed.

Lemma splitlines_lf rest : Py.splitlines (String Py.LF rest) = "" :: Py.splitlines rest.
Proof. by destruct rest. Qed.

Lemma splitlines_line_lf l rest :
  one_line l = true ->
  Py.splitlines (l +:+ String Py.LF rest) = l :: Py.splitlines rest.
Proof.
  induction l as [|c r IH]; intros Hl.
  - apply splitlines_lf.
  - apply andb_true_iff in Hl as [Hc Hr]. apply negb_true_iff in Hc.
    rewrite append_cons. cbn [Py.splitlines]. rewrite Hc.
    by rewrite IH.
Qed.

Lemma join_two sep l l' ls :
  Py.join sep (l :: l' :: ls) = l +:+ sep +:+ Py.join sep (l' :: ls).
Proof. reflexivity. Qed.

(** [splitlines] gives the lines of a joined text back, unless the last
    of them is empty: that one is lost. *)
Lemma splitlines_join ls :
  Forall (fun l => one_line l = true) ls -> last ls <> Some "" ->
  Py.splitlines (Py.join Py.nl ls) = ls.
Proof.
  induction 1 as [|l ls Hl Hls IH]; intros Hlast; [done|].
  destruct ls as [|l' ls].
  - cbn. apply splitlines_one_line; [done|]. intros ->. by apply Hlast.
  - rewrite join_two. unfold Py.nl at 1. rewrite append_cons, append_nil_l.
    rewrite splitlines_line_lf by done. f_equal. by apply IH.
Qed.

Lemma splitlines_join_empty_last ls :
  Forall (fun l => one_line l = true) ls ->
  Py.splitlines (Py.join Py.nl (ls ++ [""])) = ls.
Proof.
  induction 1 as [|l ls Hl Hls IH]; [done|].
  destruct ls as [|l' ls].
  - cbn [app]. rewrite join_two. cbn [Py.join String.concat].
    unfold Py.nl. rewrite append_cons, !append_nil_l.
    by rewrite splitlines_line_lf.
  - cbn [app] in *. rewrite join_two. unfold Py.nl at 1.
    rewrite append_cons, append_nil_l.
    rewrite splitlines_line_lf by done. by f_equal.
Qed.

Lemma escape_app a b : Py.escape (a +:+ b) = Py.escape a +:+ Py.escape b.
Proof.
  induction a as [|c a IH]; [done|].
  rewrite append_cons. cbn [Py.escape]. by rewrite IH, append_assoc.
Qed.

Lemma escape_join ls :
  Py.escape (Py.join Py.nl ls) = Py.join Py.nl (map Py.escape ls).
Proof.
  induction ls as [|l ls IH]; [done|].
  destruct ls as [|l' ls]; [done|].
  rewrite join_two, !escape_app, IH. reflexivity.
Qed.

Lemma escape_char_one_line c :
  Py.is_linebreak c = false -> one_line (Py.escape_char c) = true.
Proof.
  intros Hc. unfold Py.escape_char.
  repeat (destruct (Ascii.eqb c _); [done|]).
  unfold one_line; cbn [str_all]. by rewrite Hc.
Qed.

Lemma escape_one_line s : one_line s = true -> one_line (Py.escape s) = true.
Proof.
  induction s as [|c r IH]; [done|]. intros [Hc Hr]%andb_true_iff.
  cbn [Py.escape]. unfold one_line. rewrite str_all_app.
  apply andb_true_iff; split; [|by apply IH].
  apply escape_char_one_line. by apply negb_true_iff.
Qed.

Lemma escape_nonempty s : s <> "" -> Py.escape s <> "".
Proof.
  destruct s as [|c r]; [done|]. intros _. cbn [Py.escape].
  unfold Py.escape_char.
  repeat (destruct (Ascii.eqb c _); [done|]). done.
Qed.

(** The content of a fenced block when its last buffered line is not
    empty: the buffered lines, each escaped. *)
Lemma splitlines_escape_join ls :
  Forall (fun l => one_line l = true) ls -> last ls <> Some "" ->
  Py.splitlines (Py.escape (Py.join Py.nl ls)) = map Py.escape ls.
Proof.
  intros Hls Hlast. rewrite escape_join. apply splitlines_join.
  - apply Forall_fmap. eapply Forall_impl; [exact Hls|].
    intros l Hl. by apply escape_one_line.
  - change (map Py.escape ls) with (Py.escape <$> ls).
    rewrite fmap_last. destruct (last ls) as [l|]; [|done].
    cbn. intros [= E]. apply Hlast. f_equal.
    destruct l as [|c r]; [done|]. by apply escape_nonempty in E.
Qed.

(** ** Headings *)

Lemma lstrip_by_len f s : Py.len (Py.lstrip_by f s) <= Py.len s.
Proof.
  induction s as [|c r IH]; cbn [Py.lstrip_by]; [done|].
  destruct (f c); unfold Py.len in *; cbn [String.length]; lia.
Qed.

Lemma drop_leading f s :
  Py.drop (Py.len s - Py.len (Py.lstrip_by f s)) s = Py.lstrip_by f s.
Proof.
  induction s as [|c r IH]; [done|]. cbn [Py.lstrip_by].
  destruct (f c).
  - pose proof (lstrip_by_len f r) as Hle.
    replace (Py.len (String c r) - Py.len (Py.lstrip_by f r))
      with (S (Py.len r - Py.len (Py.lstrip_by f r)))
      by (unfold Py.len in *; cbn [String.length]; lia).
    exact IH.
  - by rewrite Nat.sub_diag.
Qed.

Lemma heading_level_range line : 1 <= heading_level line <= 6.
Proof. unfold heading_level. lia. Qed.

(** With one to six leading [#] the level is their number and the whole
    marker is taken off the text. *)
Lemma heading_marker_stripped line :
  1 <= leading_hashes line <= 6 ->
  heading_level line = leading_hashes line
  /\ Py.drop (heading_level line) line = Py.lstrip_by (Py.is_char "#") line.
Proof.
  intros Hn. assert (heading_level line = leading_hashes line) as E.
  { unfold heading_level. fold (leading_hashes line). lia. }
  split; [done|]. rewrite E. apply drop_leading.
Qed.

(** C3. A heading line is rendered as [<hN>] with [N] the number of
    leading [#] clamped to 1..6, and for one to six [#] the marker is
    stripped from the text: ["# Title"] and ["###### Deep"] render as the
    specification says.  With seven [#] the level is clamped to 6 and only
    six characters are cut off, so the [<h6>] text keeps a [#], where the
    specification has none; [md_title] ([first_heading]) strips all of
    them from the same line. *)
Theorem C3_heading_above_six_keeps_hash :
  markdown_to_html "# Title" = "<h1>Title</h1>"
  /\ markdown_to_html "###### Deep" = "<h6>Deep</h6>"
  /\ markdown_to_html "####### Deep" = "<h6># Deep</h6>"
  /\ heading_level "####### Deep" = 6
  /\ first_heading ["####### Deep"] = Some "Deep".
Proof. by vm_compute. Qed.

(** ** Fenced code blocks *)

(** A fenced block on its own: the element holds the interior lines,
    escaped, when the last interior line is not empty. *)
Lemma fenced_block_content opening interior closing :
  is_fence opening = true -> is_fence closing = true ->
  Forall (fun l => is_fence l = false) interior ->
  Forall (fun l => one_line l = true) interior ->
  last interior <> Some "" ->
  render_lines (opening :: interior ++ [closing])
  = ["<pre><code>"] ++ map Py.escape interior ++ ["</code></pre>"].
Proof.
  intros Ho Hc Hi Hl Hlast. unfold render_lines.
  rewrite scan_fenced_block by done. cbn [scan init_state code_buf app].
  rewrite splitlines_escape_join by done.
  unfold finish. cbn. by rewrite app_nil_r.
Qed.

(** A last interior line that is empty is not emitted. *)
Lemma fenced_block_loses_empty_last opening interior closing :
  is_fence opening = true -> is_fence closing = true ->
  Forall (fun l => is_fence l = false) interior ->
  Forall (fun l => one_line l = true) interior ->
  render_lines (opening :: (interior ++ [""]) ++ [closing])
  = ["<pre><code>"] ++ map Py.escape interior ++ ["</code></pre>"].
Proof.
  intros Ho Hc Hi Hl. unfold render_lines.
  rewrite scan_fenced_block; [|done..| |done].
  - cbn [scan init_state code_buf app html_lines finish list_open ol_open].
    rewrite escape_join.
    change (map Py.escape (interior ++ [""])) with (Py.escape <$> interior ++ [""]).
    rewrite fmap_app. cbn [fmap list_fmap Py.escape].
    rewrite splitlines_join_empty_last; [by rewrite app_nil_r|].
    apply Forall_fmap. eapply Forall_impl; [exact Hl|].
    intros l ?. by apply escape_one_line.
  - apply Forall_app. split; [done|]. by constructor.
Qed.

(** C4. A fenced block whose last interior line is empty: the interior
    lines are ["a"] and the empty line, and the element that is emitted
    holds ["a"] alone.  The empty line is lost when the buffer is joined,
    escaped and split again; the specification has the interior lines
    verbatim.  The indented block of the same two lines keeps its empty
    line.  A block whose last interior line is not empty is rendered as
    the specification says, its interior lines left unprocessed. *)
Theorem C4_fenced_block_drops_empty_last_line :
  markdown_to_html (doc ["```py"; "# a"; "- <b>"; "```"])
  = doc ["<pre><code>"; "# a"; "- &lt;b&gt;"; "</code></pre>"]
  /\ markdown_to_html (doc ["```"; "a"; ""; "```"])
     = doc ["<pre><code>"; "a"; "</code></pre>"]
  /\ markdown_to_html (doc ["    a"; "    "])
     = doc ["<pre><code>"; "a"; ""; "</code></pre>"].
Proof. by vm_compute. Qed.

(** ** Unclosed fences *)

Lemma finish_same st st' :
  html_lines st' = html_lines st -> list_open st' = list_open st ->
  ol_open st' = ol_open st -> finish st' = finish st.
Proof. unfold finish. by intros -> -> ->. Qed.

Lemma scan_unclosed_fence st opening rest :
  in_code st = false -> is_fence opening = true ->
  Forall (fun l => is_fence l = false) rest ->
  finish (scan 0 st (opening :: rest)) = finish st.
Proof.
  intros Hc Ho Hr. cbn [scan]. rewrite turn_fence_open by done.
  cbn [Nat.sub]. rewrite <- (app_nil_r rest), scan_buffer by done.
  by apply finish_same.
Qed.

(** C10. A fence that is opened outside a fenced block and never closed:
    the opening line and every line after it leave no trace, the document
    renders as the lines before the opening fence do.  In particular no
    [<pre><code>] element is emitted for it. *)
Theorem C10_unclosed_fence_is_dropped (md : string)
    (before : list string) (opening : string) (rest : list string) :
  Py.splitlines md = before ++ opening :: rest ->
  in_code (scan 0 init_state before) = false ->
  is_fence opening = true ->
  Forall (fun l => is_fence l = false) rest ->
  markdown_to_html md = Py.join Py.nl (render_lines before).
Proof.
  intros Hmd Hc Ho Hr. unfold markdown_to_html, render_lines.
  rewrite Hmd, scan_app; [|by eapply fence_stops|lia].
  by rewrite scan_unclosed_fence.
Qed.

Lemma C10_unclosed_fence_witness :
  markdown_to_html (doc ["# T"; "```py"; "x = 1"; "# lost"])
  = Py.join Py.nl (render_lines ["# T"]).
Proof.
  apply (C10_unclosed_fence_is_dropped
           (doc ["# T"; "```py"; "x = 1"; "# lost"])
           ["# T"] "```py" ["x = 1"; "# lost"]).
  - reflexivity.
  - reflexivity.
  - reflexivity.
  - repeat constructor.
Defined.

(** ** Lists *)

(** A run of ordered items outside a fence, when an [<ol>] is open. *)
Lemma scan_ordered_run st ls more :
  in_code st = false -> ol_open st = true ->
  Forall (fun l => is_ordered l = true) ls ->
  scan 0 st (ls ++ more) = scan 0 (emit (map ordered_li ls) st) more.
Proof.
  intros Hc Hol Hls. revert st Hc Hol.
  induction Hls as [|l ls Hl _ IH]; intros st Hc Hol.
  - unfold emit. cbn. rewrite app_nil_r. by destruct st.
  - cbn [app scan]. rewrite turn_ordered by done. rewrite Hol.
    cbn [Nat.sub]. rewrite IH by done. f_equal.
    unfold emit; cbn. by rewrite <- app_assoc.
Qed.

(** A run of ordered items when no [<ol>] is open: the open [<ul>], if
    any, is closed and one [<ol>] is opened for the whole run. *)
Lemma scan_ordered_run_opening st l ls more :
  in_code st = false -> ol_open st = false ->
  Forall (fun l => is_ordered l = true) (l :: ls) ->
  scan 0 st ((l :: ls) ++ more)
  = scan 0
      (mkRenderState
         (html_lines st ++ (if list_open st then ["</ul>"] else [])
            ++ ["<ol>"] ++ map ordered_li (l :: ls))
         false (code_buf st) false true) more.
Proof.
  intros Hc Hol Hls. apply Forall_cons in Hls as [Hl Hls].
  cbn [app scan]. rewrite turn_ordered by done. rewrite Hol.
  cbn [Nat.sub]. rewrite scan_ordered_run by done. f_equal.
  unfold emit; cbn. by rewrite <- !app_assoc.
Qed.

Lemma process_line_exclusive st raw rest :
  exclusive st -> exclusive (fst (process_line st raw rest)).
Proof.
  unfold exclusive, process_line, emit, close_lists. intros H.
  repeat match goal with
         | |- context [match ?x with _ => _ end] => destruct x eqn:?
         end; cbn in *; try done; try congruence;
    by repeat match goal with
              | E : list_open _ = _ |- _ => rewrite E
              | E : ol_open _ = _ |- _ => rewrite E
              end.
Qed.

Lemma scan_exclusive k st lines : exclusive st -> exclusive (scan k st lines).
Proof.
  revert k st. induction lines as [|raw rest IH]; intros k st H; [done|].
  cbn [scan]. destruct k; [|by apply IH].
  pose proof (process_line_exclusive st raw rest H) as H'.
  destruct (process_line st raw rest). by apply IH.
Qed.

(** *** Opening and closing tags are balanced *)

Lemma cnt_app x a b : cnt x (a ++ b) = cnt x a + cnt x b.
Proof. apply count_occ_app. Qed.

Lemma cnt_cons_same x l : cnt x (x :: l) = S (cnt x l).
Proof. by apply count_occ_cons_eq. Qed.

Lemma cnt_cons_diff x y l : y <> x -> cnt x (y :: l) = cnt x l.
Proof. by apply count_occ_cons_neq. Qed.

Lemma cnt_other x body :
  is_list_tag x = true -> Forall (fun y => is_list_tag y = false) body ->
  cnt x body = 0.
Proof.
  intros Hx. induction 1 as [|y body Hy _ IH]; [done|].
  unfold cnt in *. rewrite count_occ_cons_neq; [done|]. congruence.
Qed.

Lemma no_lt_not_tag x : no_lt x = true -> is_list_tag x = false.
Proof.
  destruct x as [|c r]; [done|]. intros [Hc _]%andb_true_iff.
  apply negb_true_iff in Hc. unfold is_list_tag, list_tags.
  cbn [existsb String.eqb]. by rewrite Hc.
Qed.

Lemma escape_no_lt s : no_lt (Py.escape s) = true.
Proof.
  induction s as [|c r IH]; [done|]. cbn [Py.escape]. unfold no_lt.
  rewrite str_all_app. apply andb_true_iff; split; [|exact IH].
  unfold Py.escape_char.
  destruct (Ascii.eqb c "&"); [done|].
  destruct (Ascii.eqb c "<") eqn:Hlt; [done|].
  destruct (Ascii.eqb c ">"); [done|].
  destruct (Ascii.eqb c Py.DQUOTE); [done|].
  destruct (Ascii.eqb c "'"); [done|].
  cbn [str_all]. by rewrite Hlt.
Qed.

Lemma cons_first_all P c pieces :
  P c = true -> Forall (fun l => str_all P l = true) pieces ->
  Forall (fun l => str_all P l = true) (Py.cons_first c pieces).
Proof.
  intros Hc [|l ls Hl Hls]; constructor; cbn [str_all];
    rewrite ?Hc; auto.
Qed.

Lemma splitlines_all_bounded P n s :
  String.length s <= n -> str_all P s = true ->
  Forall (fun l => str_all P l = true) (Py.splitlines s).
Proof.
  revert s. induction n as [|n IH]; intros [|c r] Hn Hs; cbn in Hn;
    try constructor; try lia.
  apply andb_true_iff in Hs as [Hc Hr]. cbn [Py.splitlines].
  destruct (Py.is_linebreak c).
  - destruct r as [|c' r']; [by repeat constructor|].
    destruct (Ascii.eqb c Py.CR && Ascii.eqb c' Py.LF);
      (constructor; [done|]).
    + apply andb_true_iff in Hr as [_ Hr']. apply IH; [cbn in Hn; lia|done].
    + apply IH; [lia|done].
  - apply cons_first_all; [done|]. apply IH; [lia|done].
Qed.

Lemma splitlines_all P s :
  str_all P s = true -> Forall (fun l => str_all P l = true) (Py.splitlines s).
Proof. by apply (splitlines_all_bounded P (String.length s)). Qed.

Lemma code_lines_not_tags buf :
  Forall (fun y => is_list_tag y = false)
    (Py.splitlines (Py.escape (Py.join Py.nl buf))).
Proof.
  eapply Forall_impl; [apply splitlines_all, escape_no_lt|].
  intros l. apply no_lt_not_tag.
Qed.

Lemma process_line_shape st raw rest :
  exists body,
    turn_shape st (fst (process_line st raw rest)) body
    /\ Forall (fun y => is_list_tag y = false) body.
Proof.
  unfold process_line.
  destruct (_is_fenced_start (line_of raw)) as [lang|].
  { destruct (in_code st).
    - eexists. split; [by apply shape_same|]. cbn [fst].
      constructor; [done|]. apply Forall_app. split.
      + apply code_lines_not_tags.
      + by repeat constructor.
    - exists []. split; [|done]. apply shape_same; cbn; [|done..].
      by rewrite app_nil_r. }
  destruct (in_code st) eqn:Hc.
  { exists []. split; [|done]. apply shape_same; cbn; [|done..].
    by rewrite app_nil_r. }
  destruct (Py.startswith (line_of raw) "#").
  { eexists. split; [by apply shape_closed|]. by repeat constructor. }
  destruct (truthy (_starts_with_numbered_item (line_of raw))) as [item|].
  { destruct (ol_open st) eqn:Hol.
    - eexists. split; [by apply shape_same|]. by repeat constructor.
    - exists ["<li>" +:+ _render_inline item +:+ "</li>"].
      split; [|by repeat constructor].
      apply shape_ol; cbn; [|done..]. by rewrite <- !app_assoc. }
  destruct (is_unordered_item (line_of raw)).
  { destruct (list_open st) eqn:Hul.
    - eexists. split; [by apply shape_same|]. by repeat constructor.
    - eexists. split.
      + apply shape_ul; cbn; [|done..]. by rewrite <- !app_assoc.
      + by repeat constructor. }
  destruct (String.eqb (Py.strip (line_of raw)) "").
  { eexists. split; [by apply shape_closed|]. by repeat constructor. }
  destruct (is_indented (line_of raw)).
  { destruct (_collect_indented_code (raw :: rest)) as [code_block advance].
    eexists. split; [by apply shape_closed|].
    repeat constructor. apply no_lt_not_tag, escape_no_lt. }
  eexists. split; [by apply shape_closed|]. by repeat constructor.
Qed.

Lemma close_lists_cnt st :
  cnt "<ul>" (html_lines (close_lists st)) = cnt "<ul>" (html_lines st)
  /\ cnt "<ol>" (html_lines (close_lists st)) = cnt "<ol>" (html_lines st)
  /\ cnt "</ul>" (html_lines (close_lists st))
     = cnt "</ul>" (html_lines st) + Nat.b2n (list_open st)
  /\ cnt "</ol>" (html_lines (close_lists st))
     = cnt "</ol>" (html_lines st) + Nat.b2n (ol_open st).
Proof.
  unfold close_lists; cbn [html_lines]. rewrite !cnt_app.
  destruct (list_open st), (ol_open st); cbn; lia.
Qed.

Lemma process_line_tags_ok st raw rest :
  tags_ok st -> tags_ok (fst (process_line st raw rest)).
Proof.
  intros [Hul Hol].
  destruct (process_line_shape st raw rest) as (body & Hshape & Hbody).
  pose proof (close_lists_cnt st) as (C1 & C2 & C3 & C4).
  pose proof (fun x Hx => cnt_other x body Hx Hbody) as Hz.
  pose proof (Hz "<ul>" eq_refl) as Z1. pose proof (Hz "</ul>" eq_refl) as Z2.
  pose proof (Hz "<ol>" eq_refl) as Z3. pose proof (Hz "</ol>" eq_refl) as Z4.
  unfold tags_ok.
  destruct Hshape as [-> -> ->| -> -> ->| -> -> ->| -> -> ->];
    rewrite ?cnt_app, ?cnt_cons_same, ?cnt_cons_diff by done;
    cbn [Nat.b2n]; lia.
Qed.

Lemma scan_tags_ok k st lines : tags_ok st -> tags_ok (scan k st lines).
Proof.
  revert k st. induction lines as [|raw rest IH]; intros k st H; [done|].
  cbn [scan]. destruct k; [|by apply IH].
  pose proof (process_line_tags_ok st raw rest H) as H'.
  destruct (process_line st raw rest). by apply IH.
Qed.

(** In the finished output every [<ul>] and every [<ol>] is closed. *)
Lemma render_lines_balanced lines :
  cnt "<ul>" (render_lines lines) = cnt "</ul>" (render_lines lines)
  /\ cnt "<ol>" (render_lines lines) = cnt "</ol>" (render_lines lines).
Proof.
  unfold render_lines, finish.
  assert (tags_ok init_state) as H0 by (by split).
  destruct (scan_tags_ok 0 init_state lines H0) as [Hul Hol].
  rewrite !cnt_app.
  destruct (list_open _), (ol_open _); cbn in *; lia.
Qed.

Lemma ordered_run_document ls :
  ls <> [] -> Forall (fun l => is_ordered l = true) ls ->
  render_lines ls = ["<ol>"] ++ map ordered_li ls ++ ["</ol>"].
Proof.
  intros Hne Hls. destruct ls as [|l ls]; [done|].
  unfold render_lines.
  rewrite <- (app_nil_r (l :: ls)), scan_ordered_run_opening by done.
  unfold finish. cbn. by rewrite app_nil_r.
Qed.

(** *** Lists are closed in place *)

Lemma tag_word_app a b : tag_word (a ++ b) = tag_word a ++ tag_word b.
Proof. apply filter_app. Qed.

Lemma tag_word_body body :
  Forall (fun y => is_list_tag y = false) body -> tag_word body = [].
Proof.
  induction 1 as [|y body Hy _ IH]; [done|]. unfold tag_word in *.
  rewrite filter_cons_False; [done|]. by rewrite Hy.
Qed.

Lemma close_lists_nested st word :
  exclusive st -> list_blocks word ->
  tag_word (html_lines st) = word ++ opener st ->
  exists word',
    list_blocks word' /\ tag_word (html_lines (close_lists st)) = word'.
Proof.
  unfold exclusive, opener, close_lists. cbn [html_lines].
  intros Hx Hw E. rewrite !tag_word_app, E.
  destruct (list_open st), (ol_open st); try done; eexists;
    (split; [|cbn; rewrite <- ?app_assoc; reflexivity]);
    cbn; rewrite ?app_nil_r; by try constructor.
Qed.

Lemma process_line_tags_nested st raw rest :
  tags_nested st -> tags_nested (fst (process_line st raw rest)).
Proof.
  intros [Hx (word & Hw & E)]. split; [by apply process_line_exclusive|].
  destruct (process_line_shape st raw rest) as (body & Hshape & Hbody).
  pose proof (tag_word_body body Hbody) as Hb.
  destruct (close_lists_nested st word Hx Hw E) as (word' & Hw' & E').
  unfold opener in *.
  destruct Hshape as [H1 H2 H3|H1 H2 H3|H1 H2 H3|H1 H2 H3];
    rewrite H1, H2, ?H3.
  - exists word. split; [done|]. by rewrite tag_word_app, Hb, app_nil_r.
  - exists word'. split; [done|]. by rewrite tag_word_app, Hb, E', !app_nil_r.
  - exists word'. split; [done|].
    rewrite tag_word_app, E'. unfold tag_word at 1.
    rewrite filter_cons_True by done. fold (tag_word body). by rewrite Hb.
  - exists word'. split; [done|].
    rewrite tag_word_app, E'. unfold tag_word at 1.
    rewrite filter_cons_True by done. fold (tag_word body). by rewrite Hb.
Qed.

Lemma scan_tags_nested k st lines :
  tags_nested st -> tags_nested (scan k st lines).
Proof.
  revert k st. induction lines as [|raw rest IH]; intros k st H; [done|].
  cbn [scan]. destruct k; [|by apply IH].
  pose proof (process_line_tags_nested st raw rest H) as H'.
  destruct (process_line st raw rest). by apply IH.
Qed.

(** At the end of the input the list that is open is closed: its closing
    tag is the last line of the output. *)
Lemma render_lines_closes lines :
  render_lines lines
  = html_lines (scan 0 init_state lines) ++ closer (scan 0 init_state lines).
Proof.
  unfold render_lines, finish, closer.
  pose proof (scan_exclusive 0 init_state lines eq_refl) as Hx.
  unfold exclusive in Hx.
  by destruct (list_open _), (ol_open _).
Qed.

(** In the finished output the list tags are a sequence of closed
    blocks. *)
Lemma render_lines_nested lines : list_blocks (tag_word (render_lines lines)).
Proof.
  rewrite render_lines_closes.
  assert (tags_nested init_state) as H0.
  { split; [done|]. exists []. split; [constructor|done]. }
  destruct (scan_tags_nested 0 init_state lines H0) as [Hx (word & Hw & E)].
  rewrite tag_word_app, E. unfold opener, closer, exclusive in *.
  destruct (list_open _), (ol_open _); try done; cbn;
    rewrite <- ?app_assoc, ?app_nil_r; by try constructor.
Qed.



(** The example of the specification: two ordered items, then a dash
    item. *)
Example lists_interleaved :
  markdown_to_html (doc ["1. first"; "2. second"; "- x"])
  = doc ["<ol>"; "<li>first</li>"; "<li>second</li>"; "</ol>";
         "<ul>"; "<li>x</li>"; "</ul>"].
Proof. by vm_compute. Qed.

(** A numbered line whose text is empty: [_starts_with_numbered_item]
    returns the empty string for it, the loop tests that result for truth,
    and the line ends the list and becomes a paragraph. *)
Example numbered_item_with_empty_text :
  _starts_with_numbered_item "2. " = Some ""
  /\ is_ordered "2. " = false
  /\ markdown_to_html (doc ["1. a"; "2. "; "3. b"])
     = doc ["<ol>"; "<li>a</li>"; "</ol>"; "<p>2.</p>";
            "<ol>"; "<li>b</li>"; "</ol>"].
Proof. by vm_compute. Qed.

(** ** The file system *)

Lemma world_eta w : mkWorld (files w) (dirs w) (log w) (clock w) = w.
Proof. by destruct w. Qed.

Lemma path_eqb_true p q : path_eqb p q = true <-> p = q.
Proof. unfold path_eqb. apply bool_decide_eq_true. Qed.

Lemma path_eqb_false p q : path_eqb p q = false <-> p <> q.
Proof. unfold path_eqb. apply bool_decide_eq_false. Qed.

Lemma lookup_file_None p fs : lookup_file p fs = None <-> p ∉ fst <$> fs.
Proof.
  induction fs as [|[q t] fs IH]; cbn [lookup_file fmap list_fmap fst].
  - split; [|done]. intros _. apply not_elem_of_nil.
  - rewrite not_elem_of_cons. destruct (path_eqb q p) eqn:E.
    + apply path_eqb_true in E as ->. split; [done|]. by intros [? _].
    + apply path_eqb_false in E. rewrite IH. split; [|tauto].
      intros ?. split; [congruence|done].
Qed.

Lemma lookup_file_Some p fs : is_Some (lookup_file p fs) <-> p ∈ fst <$> fs.
Proof.
  rewrite <- not_eq_None_Some, lookup_file_None.
  split; [|tauto]. intros H. by destruct (decide (p ∈ fst <$> fs)).
Qed.

Lemma remove_file_absent p fs : lookup_file p fs = None -> remove_file p fs = fs.
Proof.
  intros H%lookup_file_None. unfold remove_file.
  induction fs as [|[q t] fs IH]; [done|].
  apply not_elem_of_cons in H as [Hne H]. cbn in Hne.
  rewrite filter_cons_True.
  - f_equal. by apply IH.
  - cbn. apply Is_true_true, negb_true_iff, path_eqb_false. congruence.
Qed.

Lemma lookup_filter_other (P : Path * string -> Prop)
    `{forall e, Decision (P e)} q fs :
  (forall t, P (q, t)) -> lookup_file q (filter P fs) = lookup_file q fs.
Proof.
  intros HP. induction fs as [|[r u] fs IH]; [done|].
  rewrite filter_cons. destruct (decide (P (r, u))) as [Hr|Hr];
    cbn [lookup_file].
  - by rewrite IH.
  - destruct (path_eqb r q) eqn:E; [|done].
    apply path_eqb_true in E as ->. by destruct Hr.
Qed.

Lemma lookup_filter_gone (P : Path * string -> Prop)
    `{forall e, Decision (P e)} q fs :
  (forall t, ~ P (q, t)) -> lookup_file q (filter P fs) = None.
Proof.
  intros HP. apply lookup_file_None. intros Hin.
  apply list_elem_of_fmap in Hin as ([p t] & -> & Hin).
  apply list_elem_of_filter in Hin as [Hp _]. by apply (HP t).
Qed.

Lemma lookup_remove_other p q fs :
  q <> p -> lookup_file q (remove_file p fs) = lookup_file q fs.
Proof.
  intros Hne. unfold remove_file. apply lookup_filter_other. intros t.
  cbn [fst]. apply Is_true_true, negb_true_iff, path_eqb_false. done.
Qed.

Lemma lookup_write_same p t fs : lookup_file p (write_file p t fs) = Some t.
Proof.
  induction fs as [|[q u] fs IH]; cbn [write_file lookup_file].
  - unfold path_eqb. by rewrite bool_decide_eq_true_2.
  - destruct (path_eqb q p) eqn:E; cbn [lookup_file]; by rewrite E.
Qed.

Lemma lookup_write_other p q t fs :
  q <> p -> lookup_file q (write_file p t fs) = lookup_file q fs.
Proof.
  intros Hne. induction fs as [|[r u] fs IH]; cbn [write_file lookup_file].
  - unfold path_eqb. by rewrite bool_decide_eq_false_2.
  - destruct (path_eqb r p) eqn:E; cbn [lookup_file].
    + apply path_eqb_true in E as ->.
      unfold path_eqb. by rewrite bool_decide_eq_false_2.
    + by rewrite IH.
Qed.

(** *** What is found at a path *)

Lemma blocked_true fs p :
  blocked fs p = true
  <-> exists a, a ∈ ancestors (parent p) /\ is_Some (lookup_file a fs).
Proof.
  unfold blocked. rewrite existsb_exists. split.
  - intros (a & Ha & Hf). exists a. split; [by apply list_elem_of_In|].
    by apply bool_decide_eq_true in Hf.
  - intros (a & Ha & Hf). exists a. split; [by apply list_elem_of_In|].
    by apply bool_decide_eq_true.
Qed.

(** Two file lists with the same files at the components on the way to
    [p] block it alike. *)
Lemma blocked_ext fs1 fs2 p :
  (forall a, a ∈ ancestors (parent p) ->
             is_Some (lookup_file a fs1) <-> is_Some (lookup_file a fs2)) ->
  blocked fs1 p = blocked fs2 p.
Proof.
  intros H. apply eq_true_iff_eq. rewrite !blocked_true.
  split; intros (a & Ha & Hf); exists a; (split; [done|]); by apply (H a Ha).
Qed.

Lemma stat_ext ds1 fs1 ds2 fs2 p :
  (forall a, a ∈ ancestors (parent p) ->
             is_Some (lookup_file a fs1) <-> is_Some (lookup_file a fs2)) ->
  (p ∈ ds1 <-> p ∈ ds2) -> lookup_file p fs1 = lookup_file p fs2 ->
  stat ds1 fs1 p = stat ds2 fs2 p.
Proof.
  intros Hb Hd Hl. unfold stat.
  rewrite (blocked_ext fs1 fs2 p Hb), Hl, (bool_decide_ext _ _ Hd). done.
Qed.

Lemma stat_regular ds fs p t :
  stat ds fs p = Regular t
  <-> blocked fs p = false /\ (p ∉ ds) /\ lookup_file p fs = Some t.
Proof.
  unfold stat. destruct (blocked fs p); [by (split; [|intros [? _]])|].
  destruct (decide (p ∈ ds)) as [Hd|Hd].
  - rewrite bool_decide_eq_true_2 by done. split; [done|]. by intros (_ & ? & _).
  - rewrite bool_decide_eq_false_2 by done.
    destruct (lookup_file p fs) as [u|]; split.
    + by intros [= ->].
    + by intros (_ & _ & [= ->]).
    + done.
    + by intros (_ & _ & ?).
Qed.

Lemma stat_missing ds fs p :
  stat ds fs p = Missing
  <-> blocked fs p = false /\ (p ∉ ds) /\ lookup_file p fs = None.
Proof.
  unfold stat. destruct (blocked fs p); [by (split; [|intros [? _]])|].
  destruct (decide (p ∈ ds)) as [Hd|Hd].
  - rewrite bool_decide_eq_true_2 by done. split; [done|]. by intros (_ & ? & _).
  - rewrite bool_decide_eq_false_2 by done.
    destruct (lookup_file p fs) as [u|]; split; try done.
    by intros (_ & _ & ?).
Qed.

Lemma stat_directory ds fs p :
  stat ds fs p = Directory <-> blocked fs p = false /\ p ∈ ds.
Proof.
  unfold stat. destruct (blocked fs p); [by (split; [|intros [? _]])|].
  destruct (decide (p ∈ ds)) as [Hd|Hd].
  - by rewrite bool_decide_eq_true_2.
  - rewrite bool_decide_eq_false_2 by done.
    destruct (lookup_file p fs); split; try done; by intros [_ ?].
Qed.

(** A directory is never reported as a regular file. *)
Lemma regular_not_dir w p : regular w p -> p ∉ dirs w.
Proof. intros [t Ht]. by apply stat_regular in Ht as (_ & ? & _). Qed.

(** ** Cleaning *)

Lemma regular_removable w p : regular w p -> removable w p.
Proof. intros [t Ht]. unfold removable. by rewrite Ht. Qed.

(** One turn of the loop with [dry_run] off: the file is gone afterwards,
    whether or not it was still there. *)
Lemma unlink_tolerant p w :
  removable w p ->
  ignore_not_found (unlink p) w
  = (Ok tt, mkWorld (remove_file p (files w)) (dirs w) (log w) (clock w)).
Proof.
  unfold removable, ignore_not_found, unlink.
  destruct (kind_of w p) eqn:E; try done. intros _.
  apply stat_missing in E as (_ & _ & E).
  by rewrite remove_file_absent, world_eta.
Qed.

(** On a directory the loop stops with the error of [unlink]. *)
Lemma unlink_directory p w :
  kind_of w p = Directory ->
  ignore_not_found (unlink p) w = (Raise (IsADirectoryError p), w).
Proof. intros E. unfold ignore_not_found, unlink. by rewrite E. Qed.

(** Removing a file leaves every other removable path removable. *)
Lemma removable_after p q w :
  removable w q ->
  removable (mkWorld (remove_file p (files w)) (dirs w) (log w) (clock w)) q.
Proof.
  unfold removable, kind_of. cbn [files dirs]. intros H.
  assert (blocked (files w) q = false /\ q ∉ dirs w) as [Hb Hd].
  { destruct (stat (dirs w) (files w) q) eqn:E; try done.
    - by apply stat_missing in E as (? & ? & _).
    - by apply stat_regular in E as (? & ? & _). }
  assert (blocked (remove_file p (files w)) q = false) as Hb'.
  { destruct (blocked (remove_file p (files w)) q) eqn:E; [|done].
    apply blocked_true in E as (a & Ha & Hf).
    assert (blocked (files w) q = true) as Hc; [|congruence].
    apply blocked_true. exists a. split; [done|].
    destruct (decide (a = p)) as [->|Hne].
    - unfold remove_file in Hf. rewrite lookup_filter_gone in Hf.
      + by destruct Hf.
      + intros t. cbn [fst]. unfold path_eqb.
        rewrite bool_decide_eq_true_2 by done. by intros [].
    - by rewrite lookup_remove_other in Hf. }
  unfold stat. rewrite Hb', bool_decide_eq_false_2 by done.
  by destruct (lookup_file q (remove_file p (files w))).
Qed.

Lemma remove_each_real found w :
  Forall (removable w) found ->
  remove_each found false w
  = (Ok tt,
     mkWorld (foldl (fun fs p => remove_file p fs) (files w) found)
       (dirs w) (log w ++ (LogRemove <$> found)) (clock w)).
Proof.
  intros Hall. revert w Hall.
  induction found as [|p found IH]; intros w Hall.
  - cbn. by rewrite app_nil_r, world_eta.
  - apply Forall_cons in Hall as [Hp Hall].
    unfold remove_each in *. cbn [for_each]. unfold bind at 1 2, logging.
    cbn [negb]. rewrite unlink_tolerant by done. cbn [files dirs log clock].
    rewrite IH.
    + cbn. by rewrite <- app_assoc.
    + eapply Forall_impl; [exact Hall|]. intros q Hq.
      apply (removable_after p q
               (mkWorld (files w) (dirs w) (log w ++ [LogRemove p]) (clock w))).
      exact Hq.
Qed.

Lemma remove_each_dry found w :
  remove_each found true w
  = (Ok tt,
     mkWorld (files w) (dirs w) (log w ++ (LogRemove <$> found)) (clock w)).
Proof.
  revert w. induction found as [|p found IH]; intros w.
  - cbn. by rewrite app_nil_r, world_eta.
  - unfold remove_each in *. cbn [for_each]. unfold bind at 1 2, logging, ret.
    cbn [negb]. rewrite IH. cbn. by rewrite <- app_assoc.
Qed.

Lemma foldl_remove_file found fs :
  foldl (fun fs p => remove_file p fs) fs found
  = filter (fun e => fst e ∉ found) fs.
Proof.
  revert fs. induction found as [|p found IH]; intros fs; cbn [foldl].
  - induction fs as [|e fs IHfs]; [done|].
    rewrite filter_cons_True by apply not_elem_of_nil. by f_equal.
  - rewrite IH. unfold remove_file. rewrite list_filter_filter.
    apply list_filter_iff. intros e. rewrite not_elem_of_cons.
    rewrite Is_true_true, negb_true_iff, path_eqb_false. tauto.
Qed.

Lemma filter_on_members {A} (P Q : A -> Prop)
    `{forall x, Decision (P x)} `{forall x, Decision (Q x)} (l : list A) :
  (forall x, x ∈ l -> P x <-> Q x) -> filter P l = filter Q l.
Proof.
  induction l as [|x l IH]; intros Hl; [done|].
  rewrite !filter_cons.
  destruct (decide (P x)) as [HP|HP], (decide (Q x)) as [HQ|HQ].
  - f_equal. apply IH. intros y Hy. apply Hl. by right.
  - exfalso. apply HQ, Hl; [by left|done].
  - exfalso. apply HP, Hl; [by left|done].
  - apply IH. intros y Hy. apply Hl. by right.
Qed.

Lemma rglob_directory ext root ds fs :
  stat ds fs root = Directory ->
  rglob ext root ds fs = filter (matches ext root) (ds ++ (fst <$> fs)).
Proof. intros E. unfold rglob. by rewrite E. Qed.

Lemma rglob_elem ext root ds fs p :
  p ∈ rglob ext root ds fs ->
  matches ext root p = true /\ (p ∈ ds \/ p ∈ fst <$> fs).
Proof.
  unfold rglob. destruct (stat ds fs root); try by intros ?%elem_of_nil.
  intros [Hm Hin]%list_elem_of_filter. split; [by apply Is_true_true|].
  by apply elem_of_app in Hin.
Qed.

(** After the loop over what [rglob] reported below a directory, the
    files that are left are those that it did not report. *)
Lemma remove_reported ext root ds fs :
  stat ds fs root = Directory ->
  foldl (fun fs p => remove_file p fs) fs (rglob ext root ds fs)
  = filter (fun e => negb (matches ext root (fst e))) fs.
Proof.
  intros Hroot. rewrite foldl_remove_file. apply filter_on_members.
  intros [p t] Hin. cbn [fst]. rewrite rglob_directory by done.
  rewrite list_elem_of_filter.
  destruct (matches ext root p) eqn:E; cbn [negb]; split; try done.
  - intros Hn. apply Hn. split; [done|]. apply elem_of_app. right.
    apply list_elem_of_fmap. by exists (p, t).
  - by intros _ [? _].
Qed.

Lemma clean_domain_missing root dry w :
  exists_path root w = (Ok false, w) ->
  clean_domain root dry w
  = (Ok tt,
     mkWorld (files w) (dirs w) (log w ++ [LogNothingToClean root]) (clock w)).
Proof. intros He. unfold clean_domain, bind. by rewrite He. Qed.

Lemma exists_path_directory root w :
  kind_of w root = Directory -> exists_path root w = (Ok true, w).
Proof. intros E. unfold exists_path. by rewrite E. Qed.

Lemma clean_domain_directory root w :
  kind_of w root = Directory ->
  Forall (regular w) (rglob ".html" root (dirs w) (files w)) ->
  clean_domain root false w
  = (Ok tt,
     mkWorld
       (filter (fun e => negb (matches ".html" root (fst e))) (files w))
       (dirs w)
       (log w ++ (LogRemove <$> rglob ".html" root (dirs w) (files w)))
       (clock w)).
Proof.
  intros Hroot Hall. unfold clean_domain, bind.
  rewrite exists_path_directory by done. cbn [negb get_world].
  rewrite remove_each_real, remove_reported; [done|done|].
  eapply Forall_impl; [exact Hall|]. apply regular_removable.
Qed.

(** A root that is a regular file has nothing below it to report. *)
Lemma clean_domain_regular root dry t w :
  kind_of w root = Regular t -> clean_domain root dry w = (Ok tt, w).
Proof.
  intros E. unfold clean_domain, bind, exists_path, rglob, kind_of in *.
  rewrite E. cbn [negb get_world]. rewrite E. by destruct dry.
Qed.




(** ** Writing a file *)

Lemma ancestors_prefix a d : a ∈ ancestors d -> a `prefix_of` d.
Proof.
  revert a. induction d as [|c d IH]; intros a; cbn [ancestors].
  - by intros ->%list_elem_of_singleton.
  - intros [->|Hin]%elem_of_cons; [apply prefix_nil|].
    apply list_elem_of_fmap in Hin as (b & -> & Hb).
    by apply prefix_cons, IH.
Qed.

Lemma prefix_ancestors a d : a `prefix_of` d -> a ∈ ancestors d.
Proof.
  revert a. induction d as [|c d IH]; intros a [k Hk]; cbn [ancestors].
  - destruct a; [|done]. by apply list_elem_of_singleton.
  - destruct a as [|c' a]; [by left|]. injection Hk as -> Hk. right.
    apply list_elem_of_fmap. exists a. split; [done|].
    apply IH. by exists k.
Qed.

Lemma mkdir_parents_creates a d ds :
  a `prefix_of` d -> a ∈ mkdir_parents d ds.
Proof.
  intros Ha%prefix_ancestors. unfold mkdir_parents.
  destruct (decide (a ∈ ds)); [set_solver|].
  apply elem_of_app. right. apply list_elem_of_filter. split; [|done].
  apply Is_true_true, negb_true_iff. by apply bool_decide_eq_false.
Qed.

Lemma mkdir_parents_elem a d ds :
  a ∈ mkdir_parents d ds <-> a ∈ ds \/ a `prefix_of` d.
Proof.
  split.
  - unfold mkdir_parents. intros [H|H]%elem_of_app; [by left|].
    apply list_elem_of_filter in H as [_ H]. right. by apply ancestors_prefix.
  - intros [H|H]; [|by apply mkdir_parents_creates].
    unfold mkdir_parents. apply elem_of_app. by left.
Qed.

Lemma parent_prefix (p : Path) : parent p `prefix_of` p.
Proof.
  unfold parent. destruct p as [|c p] using rev_ind; [done|].
  rewrite removelast_last. by apply prefix_app_r.
Qed.

(** The components on the way to a path are on the way to every path
    below it. *)
Lemma blocked_prefix fs a p :
  a `prefix_of` p -> blocked fs a = true -> blocked fs p = true.
Proof.
  intros Hap. rewrite !blocked_true. intros (b & Hb & Hf).
  exists b. split; [|done]. apply prefix_ancestors.
  apply ancestors_prefix in Hb.
  destruct (decide (a = p)) as [->|Hne]; [done|].
  etrans; [exact Hb|]. etrans; [apply parent_prefix|].
  destruct Hap as [k ->]. destruct k as [|c k _] using rev_ind.
  { by rewrite app_nil_r in Hne. }
  unfold parent. rewrite app_assoc, removelast_last. by apply prefix_app_r.
Qed.

(** The outcome of [mkdir]. *)
Lemma mkdir_cases d w :
  os_error (fst (mkdir d w))
  \/ (mkdir d w
      = (Ok tt,
         mkWorld (files w) (mkdir_parents d (dirs w)) (log w) (clock w))
      /\ blocked (files w) d = false).
Proof.
  unfold mkdir, kind_of, stat.
  destruct (blocked (files w) d); [by left|].
  destruct (bool_decide (d ∈ dirs w)); [by right|].
  destruct (lookup_file d (files w)); [by left|by right].
Qed.

(** The outcome of a real [write_text]: an error of the operating system,
    or the file written and the directories on the way to it made. *)
Lemma write_text_real_cases p t w :
  os_error (fst (write_text p t false w))
  \/ write_text p t false w
     = (Ok tt,
        mkWorld (write_file p t (files w))
          (mkdir_parents (parent p) (dirs w))
          (log w ++ [LogWrite p]) (clock w)).
Proof.
  unfold write_text, bind at 1, logging. unfold bind.
  set (w0 := mkWorld (files w) (dirs w) (log w ++ [LogWrite p]) (clock w)).
  destruct (mkdir_cases (parent p) w0) as [H|[-> Hb]].
  { left. by destruct (mkdir (parent p) w0) as [[[]|e] w1]. }
  subst w0. unfold path_write_text, kind_of. cbn [files dirs log clock] in *.
  destruct (stat _ _ p) eqn:E; [|by left|by left|by right].
  assert (stat (mkdir_parents (parent p) (dirs w)) (files w) (parent p)
          = Directory) as ->; [|by right].
  apply stat_directory. split; [done|]. by apply mkdir_parents_creates.
Qed.

Lemma write_text_can_write p t w :
  can_write w p = true ->
  write_text p t false w
  = (Ok tt,
     mkWorld (write_file p t (files w)) (mkdir_parents (parent p) (dirs w))
       (log w ++ [LogWrite p]) (clock w)).
Proof.
  unfold can_write. intros [[Hne Hb]%andb_true_iff Hd]%andb_true_iff.
  apply negb_true_iff, bool_decide_eq_false in Hne.
  apply negb_true_iff in Hb. apply negb_true_iff, bool_decide_eq_false in Hd.
  assert (blocked (files w) (parent p) = false) as Hbp.
  { destruct (blocked (files w) (parent p)) eqn:E; [|done].
    by rewrite (blocked_prefix _ _ p (parent_prefix p) E) in Hb. }
  assert (lookup_file (parent p) (files w) = None) as Hlp.
  { destruct (lookup_file (parent p) (files w)) eqn:E; [|done].
    assert (blocked (files w) p = true) as Hc; [|congruence].
    apply blocked_true. exists (parent p).
    split; [by apply prefix_ancestors|]. by rewrite E. }
  assert (p ∉ mkdir_parents (parent p) (dirs w)) as Hd'.
  { intros [H|H]%mkdir_parents_elem; [done|].
    apply prefix_length in H. unfold parent in H.
    destruct p as [|c p _] using rev_ind; [done|].
    rewrite removelast_last, length_app in H. cbn in H. lia. }
  unfold write_text, bind at 1, logging. unfold bind, mkdir, kind_of, stat.
  cbn [files dirs log clock]. rewrite Hbp, Hlp.
  destruct (bool_decide (parent p ∈ dirs w));
    unfold path_write_text, kind_of, stat; cbn [files dirs log clock];
    rewrite Hb, (bool_decide_eq_false_2 _ Hd');
    destruct (lookup_file p (files w)); try done;
    rewrite Hbp, bool_decide_eq_true_2; try done;
    by apply mkdir_parents_creates.
Qed.

(** ** Reserved files *)

Lemma take_drop n s : Py.take n s +:+ Py.drop n s = s.
Proof.
  revert s. induction n as [|n IH]; intros [|c r]; try done.
  cbn [Py.take Py.drop]. by rewrite append_cons, IH.
Qed.

Lemma len_app a b : Py.len (a +:+ b) = Py.len a + Py.len b.
Proof.
  unfold Py.len. induction a as [|c a IH]; [done|].
  rewrite append_cons. cbn [String.length]. by rewrite IH.
Qed.

Lemma drop_app a b : Py.drop (Py.len a) (a +:+ b) = b.
Proof. induction a as [|c a IH]; [done|]. by rewrite append_cons. Qed.

Lemma endswith_split s sfx :
  endswith s sfx = true -> exists pre, s = pre +:+ sfx.
Proof.
  unfold endswith. intros [_ E]%andb_true_iff. apply String.eqb_eq in E.
  exists (Py.take (Py.len s - Py.len sfx) s).
  pose proof (take_drop (Py.len s - Py.len sfx) s) as H.
  by rewrite E in H.
Qed.

Lemma rfind_dot_md pre :
  rfind_char "." (pre +:+ ".md") = Some (Py.len pre).
Proof.
  induction pre as [|c pre IH]; [done|].
  rewrite append_cons. cbn [rfind_char]. by rewrite IH.
Qed.

(** A discovered Markdown file other than [".md"] has the suffix [".md"]. *)
Lemma suffix_md nm : endswith nm ".md" = true -> nm <> ".md" -> suffix nm = ".md".
Proof.
  intros [pre ->]%endswith_split Hne. unfold suffix.
  rewrite rfind_dot_md, len_app.
  destruct pre as [|c pre]; [done|].
  replace (0 <? Py.len (String c pre))%nat with true by done.
  replace (Py.len (String c pre) <? Py.len (String c pre) + Py.len ".md" - 1)%nat
    with true.
  - apply drop_app.
  - symmetry. apply Nat.ltb_lt. cbn. lia.
Qed.

Lemma index_entries_skip_reserved root found w :
  index_entries root found w
  = index_entries root (filter (fun p => negb (reserved p)) found) w.
Proof.
  revert w. induction found as [|p found IH]; intros w; [done|].
  cbn [index_entries]. fold (reserved p).
  destruct (reserved p) eqn:Hr.
  - rewrite filter_cons_False by (cbn beta; rewrite Hr; cbn; tauto). apply IH.
  - rewrite filter_cons_True by (cbn beta; rewrite Hr; exact I).
    cbn [index_entries]. fold (reserved p). rewrite Hr.
    unfold bind.
    destruct (from_value_error (relative_to p root) w) as [[rel0|e] w1];
      [|done].
    destruct (from_value_error (with_suffix ".html" rel0) w1)
      as [[rel|e] w2]; [|done].
    destruct (md_title p w2) as [[t|e] w3]; [|done].
    by rewrite IH.
Qed.

(** Every entry of the listing belongs to a file without the reserved
    prefix, one entry per such file, in the order of discovery. *)
Lemma index_entries_sources root found w es w' :
  index_entries root found w = (Ok es, w') ->
  Forall2 (fun e p => reserved p = false /\ entry_href root p = Some (fst e))
    es (filter (fun p => negb (reserved p)) found).
Proof.
  revert w es. induction found as [|p found IH]; intros w es.
  - cbn. intros [= <- _]. constructor.
  - cbn [index_entries]. fold (reserved p).
    destruct (reserved p) eqn:Hr.
    + rewrite filter_cons_False by (cbn beta; rewrite Hr; cbn; tauto). apply IH.
    + rewrite filter_cons_True by (cbn beta; rewrite Hr; exact I).
      unfold bind.
      destruct (relative_to p root) as [rel0|] eqn:E1; cbn; [|done].
      destruct (with_suffix ".html" rel0) as [rel|] eqn:E2; cbn; [|done].
      destruct (md_title p w) as [[t|e] w3]; [|done].
      destruct (index_entries root found w3) as [[tl|e] w4] eqn:Htl; [|done].
      intros [= <- <-]. constructor; [|by eapply IH].
      split; [done|]. unfold entry_href. rewrite E1. cbn. by rewrite E2.
Qed.

Section Reserved.

Variable utcnow : nat -> string.

(** C7. A discovered Markdown file (its name ends with [".md"]) whose
    name starts with the reserved prefix is not rendered:
    [md_to_html_file] returns [None] and leaves the world as it is, not a
    file, a directory or a log line is added.  [build_index] has no entry
    for it: the entries are the same with and without the file in the
    enumeration, and every entry is the entry of a file without the
    prefix. *)
Theorem C7_reserved_files_excluded (md_path : Path) :
  Py.startswith (name md_path) "__" = true ->
  endswith (name md_path) ".md" = true ->
  (forall rel_root out_root cfg dry w,
      md_to_html_file utcnow md_path rel_root out_root cfg dry w = (Ok None, w))
  /\ (forall root before after w,
        index_entries root (before ++ md_path :: after) w
        = index_entries root (before ++ after) w)
  /\ (forall root found w es w',
        index_entries root found w = (Ok es, w') ->
        Forall2
          (fun e p => reserved p = false /\ entry_href root p = Some (fst e))
          es (filter (fun p => negb (reserved p)) found)).
Proof.
  intros Hpre Hmd. split; [|split].
  - intros rel_root out_root cfg dry w. unfold md_to_html_file.
    rewrite Hpre, suffix_md; [done..|].
    intros E. by rewrite E in Hpre.
  - intros root before after w.
    rewrite index_entries_skip_reserved.
    rewrite (index_entries_skip_reserved root (before ++ after)).
    rewrite !filter_app, filter_cons_False; [done|].
    unfold reserved. rewrite Hpre. cbn. tauto.
  - apply index_entries_sources.
Qed.

End Reserved.

Lemma C7_reserved_witness :
  let w := mkWorld
             [(["src"; "d"; "__index__.md"], "# Home");
              (["src"; "d"; "b.md"], "# Bee")]
             [[]; ["src"]; ["src"; "d"]] [] 0 in
  md_to_html_file (fun _ => "2024-01-01 00:00:00")
    ["src"; "d"; "__index__.md"] ["src"; "d"] ["out"; "d"]
    (mkConfig "Site" "/" "/style.css" "%Y-%m-%d" None None) false w
  = (Ok None, w)
  /\ index_entries ["src"; "d"]
       ([] ++ ["src"; "d"; "__index__.md"] :: [["src"; "d"; "b.md"]]) w
     = index_entries ["src"; "d"] ([] ++ [["src"; "d"; "b.md"]]) w.
Proof.
  intros w.
  destruct (C7_reserved_files_excluded (fun _ => "2024-01-01 00:00:00")
              ["src"; "d"; "__index__.md"] eq_refl eq_refl) as (H1 & H2 & _).
  split; [apply H1|apply H2].
Defined.

(** ** The order of the index *)

Lemma ltb_leb a b : String.ltb a b = true -> String.leb a b = true.
Proof. unfold String.ltb, String.leb. by destruct (String.compare a b). Qed.

Lemma compare_refl a : String.compare a a = Eq.
Proof.
  induction a as [|c a IH]; [done|]. cbn [String.compare].
  unfold Ascii.compare. by rewrite N.compare_refl.
Qed.

Lemma ltb_ne a b : String.ltb a b = true -> a <> b.
Proof. intros H ->. unfold String.ltb in H. by rewrite compare_refl in H. Qed.

Lemma leb_ne_ltb a b : String.leb a b = true -> a <> b -> String.ltb a b = true.
Proof.
  unfold String.ltb, String.leb. intros H Hne.
  destruct (String.compare a b) eqn:E; try done.
  by apply String.compare_eq_iff in E.
Qed.

Lemma leb_le a b : String.leb a b = true <-> String.le a b.
Proof. unfold String.le. symmetry. apply Is_true_true. Qed.

Lemma ltb_trans a b c :
  String.ltb a b = true -> String.ltb b c = true -> String.ltb a c = true.
Proof.
  intros Hab Hbc. apply leb_ne_ltb.
  - apply leb_le. transitivity b; by apply leb_le, ltb_leb.
  - intros ->. apply (ltb_ne _ _ Hab).
    apply (anti_symm String.le); by apply leb_le, ltb_leb.
Qed.

Global Instance entry_le_trans : Transitive entry_le.
Proof.
  intros a b c [Hab|[Eab Hab]] [Hbc|[Ebc Hbc]].
  - left. by eapply ltb_trans.
  - left. by rewrite <- Ebc.
  - left. by rewrite Eab.
  - right. split; [congruence|].
    apply leb_le. transitivity (snd b); by apply leb_le.
Qed.

Global Instance entry_le_total : Total entry_le.
Proof.
  intros a b. destruct (decide (fst a = fst b)) as [E|Hne].
  - destruct (total String.le (snd a) (snd b)) as [H|H].
    + left. right. split; [done|]. by apply leb_le.
    + right. right. split; [done|]. by apply leb_le.
  - destruct (total String.le (fst a) (fst b)) as [H|H].
    + left. left. apply leb_ne_ltb; [by apply leb_le|done].
    + right. left. apply leb_ne_ltb; [by apply leb_le|congruence].
Qed.

Global Instance entry_le_antisym : AntiSymm (=) entry_le.
Proof.
  intros [a1 a2] [b1 b2] [Hab|[Eab Hab]] [Hba|[Eba Hba]]; cbn in *.
  - exfalso. apply (ltb_ne _ _ Hab).
    apply (anti_symm String.le); by apply leb_le, ltb_leb.
  - exfalso. by apply (ltb_ne _ _ Hab).
  - exfalso. by apply (ltb_ne _ _ Hba).
  - f_equal; [done|]. apply (anti_symm String.le); by apply leb_le.
Qed.

(** The sorted listing does not depend on the order of the entries. *)
Lemma sort_entries_perm es1 es2 :
  es1 ≡ₚ es2 -> sort_entries es1 = sort_entries es2.
Proof.
  intros Hp. unfold sort_entries.
  apply (StronglySorted_unique entry_le).
  - apply StronglySorted_merge_sort; apply _.
  - apply StronglySorted_merge_sort; apply _.
  - by rewrite !merge_sort_Permutation.
Qed.

Lemma entry_le_href a b : entry_le a b -> String.le (fst a) (fst b).
Proof.
  intros [H|[-> _]]; [by apply leb_le, ltb_leb|done].
Qed.

(** The listing is in ascending order of the [href]. *)
Lemma sort_entries_sorted es :
  StronglySorted (fun a b => String.le (fst a) (fst b)) (sort_entries es).
Proof.
  assert (StronglySorted entry_le (sort_entries es)) as H
    by (apply StronglySorted_merge_sort; apply _).
  induction H as [|e l _ IH Hall]; constructor; [done|].
  eapply Forall_impl; [exact Hall|]. intros b. apply entry_le_href.
Qed.

(** ** The index page *)

Lemma relative_to_last p root rel :
  relative_to p root = Some rel -> rel <> [] -> name rel = name p.
Proof.
  revert p. induction root as [|r root IH]; intros p.
  - by destruct p; intros [= ->].
  - destruct p as [|c p]; [done|]. cbn [relative_to].
    destruct (String.eqb r c); [|done]. intros Hrel Hne.
    rewrite (IH p Hrel Hne). unfold name.
    destruct p as [|c' p]; [|done].
    destruct root; cbn in Hrel; [|done]. by injection Hrel as <-.
Qed.

Lemma is_under_relative root p :
  is_under root p = true ->
  exists c rel, relative_to p root = Some (c :: rel).
Proof.
  unfold is_under. destruct (relative_to p root) as [[|c rel]|]; [done| |done].
  eauto.
Qed.

Lemma read_text_regular p w t :
  kind_of w p = Regular t -> read_text p w = (Ok t, w).
Proof. intros E. unfold read_text. by rewrite E. Qed.

Lemma read_text_ok p w t w' :
  read_text p w = (Ok t, w') -> kind_of w p = Regular t /\ w' = w.
Proof.
  unfold read_text. destruct (kind_of w p); try done. by intros [= -> ->].
Qed.

Lemma md_title_read p w t :
  kind_of w p = Regular t ->
  md_title p w = (Ok (first_heading (Py.splitlines t)), w).
Proof.
  intros H. unfold md_title, bind. by rewrite (read_text_regular p w t H).
Qed.

Lemma md_title_ok p w o w' :
  md_title p w = (Ok o, w') ->
  exists t, kind_of w p = Regular t
            /\ o = first_heading (Py.splitlines t) /\ w' = w.
Proof.
  unfold md_title, bind. destruct (read_text p w) as [[t|e] w1] eqn:E; [|done].
  apply read_text_ok in E as [E ->]. intros [= <- <-]. eauto.
Qed.

(** The loop of [build_index] reads and computes, nothing else: when
    every path that it does not skip is a regular file below the root, it
    returns their entries in order. *)
Lemma index_entries_listed root found w :
  Forall (fun p => is_Some (entry_href root p) /\ regular w p)
    (filter (fun p => negb (reserved p)) found) ->
  index_entries root found w
  = (Ok (entry_of root w <$> filter (fun p => negb (reserved p)) found), w).
Proof.
  induction found as [|p found IH]; [done|].
  cbn [index_entries]. fold (reserved p).
  destruct (reserved p) eqn:Hr.
  - rewrite filter_cons_False by (cbn beta; rewrite Hr; cbn; tauto).
    exact IH.
  - rewrite filter_cons_True by (cbn beta; rewrite Hr; exact I).
    intros [[[h Hh] [t Ht]] Hall]%Forall_cons. specialize (IH Hall).
    rewrite fmap_cons. unfold entry_of at 1. rewrite Hh, Ht. cbn [default].
    unfold entry_href in Hh.
    destruct (relative_to p root) as [rel0|]; [|done]. cbn in Hh.
    destruct (with_suffix ".html" rel0) as [rel|] eqn:E2; [|done].
    injection Hh as <-.
    unfold bind at 1. cbn [from_value_error ret].
    unfold bind at 1. rewrite E2. cbn [from_value_error ret].
    unfold bind at 1. rewrite (md_title_read p w t Ht).
    unfold bind. by rewrite IH.
Qed.

(** Conversely, when the loop returns entries, every path that it did not
    skip is a regular file below the root, and the world is as before. *)
Lemma index_entries_ok root found w es w' :
  index_entries root found w = (Ok es, w') ->
  w' = w
  /\ Forall (fun p => is_Some (entry_href root p) /\ regular w p)
       (filter (fun p => negb (reserved p)) found).
Proof.
  revert es w'. induction found as [|p found IH]; intros es w'.
  - cbn. by intros [= _ <-].
  - cbn [index_entries]. fold (reserved p).
    destruct (reserved p) eqn:Hr.
    + rewrite filter_cons_False by (cbn beta; rewrite Hr; cbn; tauto).
      apply IH.
    + rewrite filter_cons_True by (cbn beta; rewrite Hr; exact I).
      unfold bind at 1.
      destruct (relative_to p root) as [rel0|] eqn:E1; cbn; [|done].
      unfold bind at 1.
      destruct (with_suffix ".html" rel0) as [rel|] eqn:E2; cbn; [|done].
      unfold bind at 1.
      destruct (md_title p w) as [[o|e] w1] eqn:E3; [|done].
      apply md_title_ok in E3 as (t & Ht & -> & ->).
      unfold bind.
      destruct (index_entries root found w) as [[tl|e] w2] eqn:Htl; [|done].
      destruct (IH tl w2 eq_refl) as [-> Hall]. intros [= <- <-].
      split; [done|]. constructor; [|done].
      split; [|by exists t]. unfold entry_href. rewrite E1. cbn.
      by rewrite E2.
Qed.

Lemma index_entries_world root found w :
  snd (index_entries root found w) = w.
Proof.
  induction found as [|p found IH]; [done|].
  cbn [index_entries]. destruct (Py.startswith (name p) "__"); [done|].
  unfold bind at 1.
  destruct (relative_to p root) as [rel0|]; cbn; [|done].
  unfold bind at 1.
  destruct (with_suffix ".html" rel0) as [rel|]; cbn; [|done].
  unfold bind at 1, md_title, bind, read_text.
  destruct (kind_of w p); cbn; try done.
  unfold bind. destruct (index_entries root found w) as [[tl|e] w2];
    by cbn in *.
Qed.

Section Index.

Variable utcnow : nat -> string.

Lemma render_page_run cfg title content path w :
  render_page utcnow cfg title content path w
  = (Ok (html_template (Py.escape title)
           (Py.rstrip_by (Py.is_char "/") (base_url cfg) +:+ "/"
              +:+ Py.lstrip_by (Py.is_char "/") path)
           (css_href cfg) (Py.rstrip_by (Py.is_char "/") (base_url cfg))
           (Py.escape (site_title cfg)) content (utcnow (clock w))),
     mkWorld (files w) (dirs w) (log w) (S (clock w))).
Proof. reflexivity. Qed.

(** [build_index] step by step: the body, the entries, the page, the
    write. *)
Lemma build_index_run src dst cfg dry w :
  build_index utcnow src dst cfg dry w
  = match index_body src w with
    | Ok body =>
        match index_entries_of src w with
        | Ok es =>
            write_text (div dst "index.html")
              (index_page utcnow cfg body es (clock w)) dry
              (mkWorld (files w) (dirs w) (log w) (S (clock w)))
        | Raise e => (Raise e, w)
        end
    | Raise e => (Raise e, w)
    end.
Proof.
  unfold build_index, index_body, index_entries_of, bind at 1, exists_path.
  assert (forall body : string,
    (let* w0 := get_world in
     let* entries := index_entries src (rglob ".md" src (dirs w0) (files w0)) in
     let* page := render_page utcnow cfg (site_title cfg +:+ " â€” Index")
                    (body +:+ Py.nl
                       +:+ Py.join Py.nl (index_listing (sort_entries entries)))
                    "index.html" in
     write_text (div dst "index.html") page dry) w
    = match fst (index_entries src (rglob ".md" src (dirs w) (files w)) w) with
      | Ok es =>
          write_text (div dst "index.html")
            (index_page utcnow cfg body es (clock w)) dry
            (mkWorld (files w) (dirs w) (log w) (S (clock w)))
      | Raise e => (Raise e, w)
      end) as Hrest.
  { intros body. unfold bind at 1, get_world. unfold bind at 1.
    pose proof (index_entries_world src
                  (rglob ".md" src (dirs w) (files w)) w) as Hw.
    destruct (index_entries src _ w) as [[es|e] w1]; cbn [fst snd] in *;
      subst w1; [|done].
    unfold bind. by rewrite render_page_run. }
  destruct (kind_of w (div src "__index__.md")) eqn:E.
  - unfold bind at 1. cbn [ret]. apply Hrest.
  - unfold bind at 1. cbn [ret]. apply Hrest.
  - unfold bind at 1 2, read_text. by rewrite E.
  - unfold bind at 1 2, read_text. rewrite E. cbn [ret]. apply Hrest.
Qed.

(** After a real [build_index] that returns, [index.html] holds the page
    with the listing of the collected entries. *)
Lemma build_index_written src dst cfg w w' :
  build_index utcnow src dst cfg false w = (Ok tt, w') ->
  exists body es,
    index_body src w = Ok body /\ index_entries_of src w = Ok es
    /\ lookup_file (div dst "index.html") (files w')
       = Some (index_page utcnow cfg body es (clock w)).
Proof.
  rewrite build_index_run.
  destruct (index_body src w) as [body|e]; [|done].
  destruct (index_entries_of src w) as [es|e]; [|done].
  intros H. exists body, es. split; [done|]. split; [done|].
  unfold write_text, bind, logging, mkdir, path_write_text in H.
  cbn [negb] in H.
  repeat match type of H with
         | context [match ?x with _ => _ end] => destruct x eqn:?; try done
         end;
    injection H as <-; cbn [files]; apply lookup_write_same.
Qed.

(** A real [build_index] whose body can be read, whose loop returns and
    whose page can be written returns, and leaves the page. *)
Lemma build_index_real src dst cfg w body es :
  index_body src w = Ok body -> index_entries_of src w = Ok es ->
  can_write w (div dst "index.html") = true ->
  build_index utcnow src dst cfg false w
  = (Ok tt,
     mkWorld
       (write_file (div dst "index.html")
          (index_page utcnow cfg body es (clock w)) (files w))
       (mkdir_parents (parent (div dst "index.html")) (dirs w))
       (log w ++ [LogWrite (div dst "index.html")])
       (S (clock w))).
Proof.
  intros Hb He Hw. rewrite build_index_run, Hb, He.
  by rewrite write_text_can_write.
Qed.

End Index.

(** ** Enumeration order *)

Lemma lookup_file_elem p t fs :
  NoDup (fst <$> fs) -> lookup_file p fs = Some t <-> (p, t) ∈ fs.
Proof.
  induction fs as [|[q u] fs IH]; cbn [lookup_file fmap list_fmap fst].
  - intros _. split; [done|]. by intros ?%elem_of_nil.
  - intros [Hq Hnd]%NoDup_cons. rewrite elem_of_cons.
    destruct (path_eqb q p) eqn:E.
    + apply path_eqb_true in E as ->. split.
      * intros [= ->]. by left.
      * intros [[= ->]|Hin]; [done|]. exfalso. apply Hq.
        apply list_elem_of_fmap. by exists (p, t).
    + apply path_eqb_false in E. rewrite IH by done. split; [by right|].
      intros [[= -> _]|Hin]; [done|done].
Qed.

Lemma lookup_file_perm p fs1 fs2 :
  NoDup (fst <$> fs1) -> fs1 ≡ₚ fs2 -> lookup_file p fs1 = lookup_file p fs2.
Proof.
  intros Hnd Hp.
  assert (NoDup (fst <$> fs2)) as Hnd2 by (by rewrite <- Hp).
  destruct (lookup_file p fs1) as [t|] eqn:E1.
  - symmetry. apply lookup_file_elem; [done|]. rewrite <- Hp.
    by apply lookup_file_elem.
  - destruct (lookup_file p fs2) as [t|] eqn:E2; [|done].
    apply lookup_file_elem in E2; [|done]. rewrite <- Hp in E2.
    apply lookup_file_elem in E2; [|done]. congruence.
Qed.

(** What is found at a path does not depend on the order in which the
    files and the directories are kept. *)
Lemma stat_perm ds1 fs1 ds2 fs2 p :
  NoDup (fst <$> fs1) -> fs1 ≡ₚ fs2 -> ds1 ≡ₚ ds2 ->
  stat ds1 fs1 p = stat ds2 fs2 p.
Proof.
  intros Hnd Hf Hd. apply stat_ext.
  - intros a _. by rewrite (lookup_file_perm a fs1 fs2).
  - by rewrite Hd.
  - by apply lookup_file_perm.
Qed.

Lemma rglob_perm ext root ds1 fs1 ds2 fs2 :
  NoDup (fst <$> fs1) -> fs1 ≡ₚ fs2 -> ds1 ≡ₚ ds2 ->
  rglob ext root ds1 fs1 ≡ₚ rglob ext root ds2 fs2.
Proof.
  intros Hnd Hf Hd. unfold rglob.
  rewrite (stat_perm ds1 fs1 ds2 fs2 root Hnd Hf Hd).
  destruct (stat ds2 fs2 root); try done. by rewrite Hf, Hd.
Qed.

Lemma entry_of_perm root w1 w2 p :
  NoDup (fst <$> files w1) -> files w1 ≡ₚ files w2 -> dirs w1 ≡ₚ dirs w2 ->
  entry_of root w1 p = entry_of root w2 p.
Proof.
  intros Hnd Hf Hd. unfold entry_of, kind_of.
  by rewrite (stat_perm _ _ _ _ p Hnd Hf Hd).
Qed.

Lemma regular_perm w1 w2 p :
  NoDup (fst <$> files w1) -> files w1 ≡ₚ files w2 -> dirs w1 ≡ₚ dirs w2 ->
  regular w1 p -> regular w2 p.
Proof.
  intros Hnd Hf Hd [t Ht]. exists t. unfold kind_of in *.
  by rewrite <- (stat_perm _ _ _ _ p Hnd Hf Hd).
Qed.

(** When the loop of [build_index] returns entries for one enumeration
    order, it returns entries for every other one, and they are the same
    up to their order. *)
Lemma index_entries_of_perm root w1 w2 es1 :
  NoDup (fst <$> files w1) -> files w1 ≡ₚ files w2 -> dirs w1 ≡ₚ dirs w2 ->
  index_entries_of root w1 = Ok es1 ->
  exists es2,
    index_entries_of root w2 = Ok es2 /\ es1 ≡ₚ es2
    /\ es1 = entry_of root w1 <$> discovered root w1.
Proof.
  intros Hnd Hf Hd. unfold index_entries_of, discovered.
  set (found1 := rglob ".md" root (dirs w1) (files w1)).
  set (found2 := rglob ".md" root (dirs w2) (files w2)).
  assert (found1 ≡ₚ found2) as Hfound by (by apply rglob_perm).
  destruct (index_entries root found1 w1) as [[es|e] w'] eqn:E; [|done].
  cbn [fst]. intros [= ->].
  destruct (index_entries_ok _ _ _ _ _ E) as [-> Hall].
  rewrite (index_entries_listed root found1 w1 Hall) in E.
  injection E as <-.
  exists (entry_of root w2 <$> filter (fun p => negb (reserved p)) found2).
  rewrite index_entries_listed.
  - split; [done|]. split; [|done]. rewrite <- Hfound.
    erewrite list_fmap_ext; [done|]. intros i p _.
    by apply entry_of_perm.
  - rewrite <- Hfound. eapply Forall_impl; [exact Hall|].
    intros p [Hh Hr]. split; [done|]. by eapply regular_perm.
Qed.

Section IndexOrder.

Variable utcnow : nat -> string.

(** C6. Two worlds that hold the same files and directories in a
    different enumeration order.  When the loop of [build_index] returns
    entries in one of them, it does in the other, and the listing, which
    is made from the sorted entries, is the same in both.  The entries
    are those of the discovered paths without the reserved prefix, each
    with the [href] of its file; sorted they are in ascending order of the
    [href], and the text of each item carries that [href] as the target of
    its link.  In either world a real [build_index] that returns leaves
    the page with this listing in [index.html]; and it does return when
    the body of the page can be read and nothing is in the way of
    [index.html]. *)
Theorem C6_index_listing_order_independent (src dst : Path) (cfg : Config)
    (w1 w2 : World) (es1 : list (string * string)) :
  NoDup (fst <$> files w1) ->
  files w1 ≡ₚ files w2 -> dirs w1 ≡ₚ dirs w2 ->
  index_entries_of src w1 = Ok es1 ->
  exists es2,
    index_entries_of src w2 = Ok es2
    /\ sort_entries es1 = sort_entries es2
    /\ index_listing (sort_entries es1) = index_listing (sort_entries es2)
    /\ es1 = entry_of src w1 <$> discovered src w1
    /\ Forall2 (fun e p => reserved p = false /\ regular w1 p
                           /\ entry_href src p = Some (fst e))
         es1 (discovered src w1)
    /\ sort_entries es1 ≡ₚ es1
    /\ StronglySorted (fun a b => String.le (fst a) (fst b))
         (sort_entries es1)
    /\ index_listing (sort_entries es1)
       = ["<h2>Posts</h2>"; "<ul>"]
           ++ ((fun e => "<li><a href=" +:+ Py.dq +:+ fst e +:+ Py.dq +:+ ">"
                           +:+ Py.escape (snd e) +:+ "</a></li>")
                 <$> sort_entries es1)
           ++ ["</ul>"]
    /\ (forall w',
          build_index utcnow src dst cfg false w1 = (Ok tt, w') ->
          exists body,
            lookup_file (div dst "index.html") (files w')
            = Some (index_page utcnow cfg body es1 (clock w1)))
    /\ (forall w',
          build_index utcnow src dst cfg false w2 = (Ok tt, w') ->
          exists body,
            lookup_file (div dst "index.html") (files w')
            = Some (index_page utcnow cfg body es2 (clock w2)))
    /\ (forall body,
          index_body src w1 = Ok body ->
          can_write w1 (div dst "index.html") = true ->
          build_index utcnow src dst cfg false w1
          = (Ok tt,
             mkWorld
               (write_file (div dst "index.html")
                  (index_page utcnow cfg body es1 (clock w1)) (files w1))
               (mkdir_parents (parent (div dst "index.html")) (dirs w1))
               (log w1 ++ [LogWrite (div dst "index.html")])
               (S (clock w1))))
    /\ (forall body,
          index_body src w2 = Ok body ->
          can_write w2 (div dst "index.html") = true ->
          build_index utcnow src dst cfg false w2
          = (Ok tt,
             mkWorld
               (write_file (div dst "index.html")
                  (index_page utcnow cfg body es2 (clock w2)) (files w2))
               (mkdir_parents (parent (div dst "index.html")) (dirs w2))
               (log w2 ++ [LogWrite (div dst "index.html")])
               (S (clock w2)))).
Proof.
  intros Hnd Hf Hd Hes.
  destruct (index_entries_of_perm src w1 w2 es1 Hnd Hf Hd Hes)
    as (es2 & Hes2 & Hperm & Hshape).
  exists es2. split; [done|].
  pose proof (sort_entries_perm es1 es2 Hperm) as Hsort.
  split; [done|]. split; [by rewrite Hsort|]. split; [done|].
  split.
  { unfold index_entries_of in Hes.
    destruct (index_entries src _ w1) as [[es|e] w'] eqn:E; [|done].
    cbn [fst] in Hes. injection Hes as ->.
    pose proof (index_entries_sources _ _ _ _ _ E) as Hsrc.
    destruct (index_entries_ok _ _ _ _ _ E) as [_ Hall].
    fold (discovered src w1) in Hsrc, Hall.
    clear -Hsrc Hall. induction Hsrc as [|e p es ps [Hr Hh] _ IH];
      [constructor|].
    apply Forall_cons in Hall as [[_ Hreg] Hall].
    constructor; [done|by apply IH]. }
  split; [unfold sort_entries; apply merge_sort_Permutation|].
  split; [apply sort_entries_sorted|].
  split; [done|].
  split.
  { intros w' Hb.
    destruct (build_index_written utcnow src dst cfg w1 w' Hb)
      as (body & es & _ & Hes' & Hl).
    exists body. congruence. }
  split.
  { intros w' Hb.
    destruct (build_index_written utcnow src dst cfg w2 w' Hb)
      as (body & es & _ & Hes' & Hl).
    exists body. congruence. }
  split; intros body Hb Hw; by apply build_index_real.
Qed.

End IndexOrder.

Lemma C6_index_order_witness :
  let cfg := mkConfig "Site" "/" "/style.css" "%Y-%m-%d" None None in
  let w1 := mkWorld
              [(["src"; "d"; "b.md"], "# Bee");
               (["src"; "d"; "sub"; "a-x.md"], "text");
               (["src"; "d"; "__index__.md"], "# Home")]
              [[]; ["src"]; ["src"; "d"]; ["src"; "d"; "sub"]] [] 0 in
  let w2 := mkWorld
              [(["src"; "d"; "sub"; "a-x.md"], "text");
               (["src"; "d"; "__index__.md"], "# Home");
               (["src"; "d"; "b.md"], "# Bee")]
              [[]; ["src"; "d"; "sub"]; ["src"]; ["src"; "d"]] [] 0 in
  index_entries_of ["src"; "d"] w1
  = Ok [("b.html", "Bee"); ("sub/a-x.html", "a x")]
  /\ index_entries_of ["src"; "d"] w2
     = Ok [("sub/a-x.html", "a x"); ("b.html", "Bee")]
  /\ fst (build_index (fun _ => "2024-01-01 00:00:00") ["src"; "d"]
            ["out"; "d"] cfg false w1) = Ok tt
  /\ fst (build_index (fun _ => "2024-01-01 00:00:00") ["src"; "d"]
            ["out"; "d"] cfg false w2) = Ok tt
  /\ exists es2,
       index_entries_of ["src"; "d"] w2 = Ok es2
       /\ sort_entries [("b.html", "Bee"); ("sub/a-x.html", "a x")]
          = sort_entries es2.
Proof.
  intros cfg w1 w2. split; [by vm_compute|]. split; [by vm_compute|].
  destruct (C6_index_listing_order_independent
              (fun _ => "2024-01-01 00:00:00")
              ["src"; "d"] ["out"; "d"] cfg w1 w2
              [("b.html", "Bee"); ("sub/a-x.html", "a x")])
    as (es2 & H1 & H2 & _ & _ & _ & _ & _ & _ & _ & _ & H3 & H4).
  - apply (bool_decide_unpack _). by vm_compute.
  - apply (Permutation_cons_append [_; _]).
  - constructor. symmetry. apply (Permutation_cons_append [_; _]).
  - by vm_compute.
  - split; [by rewrite (H3 (markdown_to_html "# Home"))|].
    split; [by rewrite (H4 (markdown_to_html "# Home"))|].
    by exists es2.
Defined.

(** ** Dry runs *)

Lemma keeps_ret {A} (a : A) : keeps_fs (ret a).
Proof. by intros w. Qed.

Lemma keeps_raise {A} e : keeps_fs (@raise A e).
Proof. by intros w. Qed.

Lemma keeps_bind {A B} (m : M A) (k : A -> M B) :
  keeps_fs m -> (forall a, keeps_fs (k a)) -> keeps_fs (bind m k).
Proof.
  intros Hm Hk w. unfold bind. specialize (Hm w).
  destruct (m w) as [[a|e] w1]; cbn [snd] in *; [|done].
  destruct (Hk a w1) as [-> ->]. done.
Qed.

Lemma keeps_logging r : keeps_fs (logging r).
Proof. by intros w. Qed.

Lemma keeps_get_world : keeps_fs get_world.
Proof. by intros w. Qed.

Lemma keeps_exists_path p : keeps_fs (exists_path p).
Proof. by intros w. Qed.

Lemma keeps_read_text p : keeps_fs (read_text p).
Proof. intros w. unfold read_text. by destruct (kind_of w p). Qed.

Lemma keeps_from_value_error {A} (o : option A) : keeps_fs (from_value_error o).
Proof. destruct o; [apply keeps_ret|apply keeps_raise]. Qed.

Lemma keeps_for_each {A} (xs : list A) (body : A -> M unit) :
  (forall x, keeps_fs (body x)) -> keeps_fs (for_each xs body).
Proof.
  intros Hb. induction xs as [|x xs IH]; [apply keeps_ret|].
  cbn [for_each]. apply keeps_bind; [apply Hb|]. by intros _.
Qed.

Create HintDb keeps.
#[local] Hint Resolve keeps_ret keeps_raise keeps_logging keeps_get_world
  keeps_exists_path keeps_read_text keeps_from_value_error : keeps.

Ltac keeps :=
  repeat first
    [ progress eauto with keeps
    | match goal with
      | |- keeps_fs (bind _ _) => apply keeps_bind; [|intros ?]
      | |- keeps_fs (for_each _ _) => apply keeps_for_each; intros ?
      | |- keeps_fs (if ?b then _ else _) => destruct b
      | |- keeps_fs (match ?o with Some _ => _ | None => _ end) => destruct o
      end ].

Lemma keeps_write_text_dry p t : keeps_fs (write_text p t true).
Proof. unfold write_text. keeps. Qed.

Lemma keeps_md_title p : keeps_fs (md_title p).
Proof. unfold md_title. keeps. Qed.

Lemma keeps_index_entries root found : keeps_fs (index_entries root found).
Proof.
  induction found as [|p found IH]; cbn [index_entries]; [keeps|].
  destruct (Py.startswith (name p) "__"); [done|].
  pose proof (keeps_md_title p). keeps.
Qed.

Lemma keeps_clean_domain_dry root : keeps_fs (clean_domain root true).
Proof. unfold clean_domain, remove_each. cbn [negb]. keeps. Qed.

Lemma keeps_load_domain_settings root : keeps_fs (load_domain_settings root).
Proof. unfold load_domain_settings. keeps. Qed.

Lemma keeps_assert_path o what : keeps_fs (assert_path o what).
Proof. unfold assert_path. keeps. Qed.

Section DryRun.

Variable utcnow : nat -> string.

Lemma keeps_read_clock : keeps_fs (read_clock utcnow).
Proof. by intros w. Qed.

Lemma keeps_render_page cfg title content path :
  keeps_fs (render_page utcnow cfg title content path).
Proof. by intros w. Qed.

Lemma keeps_md_to_html_file_dry md rel_root out_root cfg :
  keeps_fs (md_to_html_file utcnow md rel_root out_root cfg true).
Proof.
  unfold md_to_html_file.
  pose proof keeps_render_page. pose proof keeps_write_text_dry.
  pose proof keeps_md_title. keeps.
Qed.

Lemma keeps_build_index_dry src dst cfg :
  keeps_fs (build_index utcnow src dst cfg true).
Proof.
  unfold build_index.
  pose proof keeps_render_page. pose proof keeps_write_text_dry.
  pose proof keeps_index_entries. keeps.
Qed.

Lemma keeps_run_build_dry cfg args :
  dry_run args = true -> keeps_fs (run_build utcnow cfg args).
Proof.
  intros Hdry. unfold run_build. rewrite Hdry.
  pose proof keeps_build_index_dry. pose proof keeps_md_to_html_file_dry.
  pose proof keeps_clean_domain_dry. pose proof keeps_load_domain_settings.
  pose proof keeps_assert_path. unfold collect_md_files. keeps.
Qed.

Lemma keeps_run_clean_dry cfg args :
  dry_run args = true -> keeps_fs (run_clean cfg args).
Proof.
  intros Hdry. unfold run_clean. rewrite Hdry.
  pose proof keeps_clean_domain_dry. pose proof keeps_assert_path. keeps.
Qed.

End DryRun.

(** ** A dry run and a real run, side by side *)

Lemma endswith_app a sfx : endswith (a +:+ sfx) sfx = true.
Proof.
  unfold endswith. rewrite len_app. apply andb_true_iff. split.
  - apply Nat.leb_le. lia.
  - replace (Py.len a + Py.len sfx - Py.len sfx) with (Py.len a) by lia.
    rewrite drop_app. apply String.eqb_refl.
Qed.

Lemma name_snoc (p : Path) x : name (p ++ [x]) = x.
Proof. unfold name. apply last_last. Qed.

Lemma relative_to_app p root rel :
  relative_to p root = Some rel -> p = root ++ rel.
Proof.
  revert p. induction root as [|r root IH]; intros p.
  - destruct p; by intros [= <-].
  - destruct p as [|c p]; [done|]. cbn [relative_to].
    destruct (String.eqb r c) eqn:E; [|done].
    apply String.eqb_eq in E as ->. intros ->%IH. done.
Qed.

Lemma matches_below ext root p : matches ext root p = true -> root `prefix_of` p.
Proof.
  intros [Hu _]%andb_true_iff.
  apply is_under_relative in Hu as (c & rel & Hrel%relative_to_app).
  by exists (c :: rel).
Qed.

Lemma rglob_below ext root ds fs :
  Forall (fun p => root `prefix_of` p) (rglob ext root ds fs).
Proof.
  apply Forall_forall. intros p [Hm _]%rglob_elem. by eapply matches_below.
Qed.

(** The names of the files after a write, an enumeration filtered. *)
Lemma filter_names_write (P : Path -> Prop) `{forall p, Decision (P p)}
    p t (fs : Files) :
  ~ P p -> filter P (fst <$> write_file p t fs) = filter P (fst <$> fs).
Proof.
  intros Hp. induction fs as [|[q u] fs IH]; cbn [write_file].
  - cbn [fmap list_fmap fst]. by rewrite filter_cons_False.
  - destruct (path_eqb q p) eqn:E; [done|].
    rewrite !fmap_cons, !filter_cons. cbn [fst]. by rewrite IH.
Qed.

Lemma filter_names_remove (P : Path -> Prop) `{forall p, Decision (P p)}
    (found : list Path) (fs : Files) :
  (forall p, p ∈ found -> ~ P p) ->
  filter P (fst <$> filter (fun e => fst e ∉ found) fs)
  = filter P (fst <$> fs).
Proof.
  intros Hf. induction fs as [|[q u] fs IH]; [done|].
  rewrite filter_cons. cbn [fst].
  destruct (decide (q ∉ found)) as [Hq|Hq].
  - rewrite !fmap_cons, !filter_cons. cbn [fst]. by rewrite IH.
  - rewrite fmap_cons. cbn [fst]. rewrite (filter_cons_False P).
    + exact IH.
    + apply Hf. by destruct (decide (q ∈ found)).
Qed.

Lemma filter_none {A} (P : A -> Prop) `{forall x, Decision (P x)} (l : list A) :
  Forall (fun x => ~ P x) l -> filter P l = [].
Proof.
  induction 1 as [|x l Hx _ IH]; [done|]. by rewrite filter_cons_False.
Qed.

Lemma filter_all {A} (P : A -> Prop) `{forall x, Decision (P x)} (l : list A) :
  Forall P l -> filter P l = l.
Proof.
  induction 1 as [|x l Hx _ IH]; [done|]. rewrite filter_cons_True by done.
  by f_equal.
Qed.

Lemma filter_mkdir_parents (P : Path -> Prop) `{forall p, Decision (P p)}
    d ds :
  (forall a, a `prefix_of` d -> ~ P a) ->
  filter P (mkdir_parents d ds) = filter P ds.
Proof.
  intros Hd. unfold mkdir_parents. rewrite filter_app.
  rewrite (filter_none P (filter _ _)); [by rewrite app_nil_r|].
  apply Forall_forall. intros a [_ Ha]%list_elem_of_filter.
  by apply Hd, ancestors_prefix.
Qed.

#[local] Instance removable_dec w p : Decision (removable w p).
Proof. unfold removable. destruct (kind_of w p); apply _. Defined.

Lemma remove_each_cons p found w :
  remove_each (p :: found) false w
  = match ignore_not_found (unlink p)
            (mkWorld (files w) (dirs w) (log w ++ [LogRemove p]) (clock w))
    with
    | (Ok _, w') => remove_each found false w'
    | (Raise e, w') => (Raise e, w')
    end.
Proof. reflexivity. Qed.

(** The outcome of the loop of a real [clean_domain]: an error of the
    operating system, or every reported path removed. *)
Lemma remove_each_real_cases found w :
  os_error (fst (remove_each found false w))
  \/ remove_each found false w
     = (Ok tt,
        mkWorld (filter (fun e => fst e ∉ found) (files w)) (dirs w)
          (log w ++ (LogRemove <$> found)) (clock w)).
Proof.
  revert w. induction found as [|p found IH]; intros w.
  - right. cbn. rewrite app_nil_r.
    rewrite filter_all; [by rewrite world_eta|].
    apply Forall_forall. intros e _. apply not_elem_of_nil.
  - rewrite remove_each_cons.
    set (w0 := mkWorld (files w) (dirs w) (log w ++ [LogRemove p]) (clock w)).
    destruct (decide (removable w0 p)) as [Hr|Hr].
    + rewrite unlink_tolerant by done. subst w0. cbn [files dirs log clock].
      match goal with
      | |- context [remove_each found false ?w1] =>
          destruct (IH w1) as [H|H]; [by left|rewrite H]
      end.
      right. cbn [files dirs log clock]. f_equal. f_equal.
      * unfold remove_file. rewrite list_filter_filter.
        apply list_filter_iff. intros e. rewrite not_elem_of_cons.
        rewrite Is_true_true, negb_true_iff, path_eqb_false. tauto.
      * by rewrite <- app_assoc.
    + left. unfold removable, ignore_not_found, unlink in *.
      by destruct (kind_of w0 p).
Qed.

Section Simulation.

Variable utcnow : nat -> string.

(** The source and the destination tree of the domain, neither inside
    the other. *)
Variables src dst : Path.
Hypothesis src_not_in_dst : ~ src `prefix_of` dst.
Hypothesis dst_not_in_src : ~ dst `prefix_of` src.

Lemma apart_on_the_way q x :
  src `prefix_of` q -> q `prefix_of` dst ++ x -> False.
Proof.
  intros Hs Hq.
  destruct (prefix_weak_total src dst (dst ++ x)) as [H|H]; try done.
  - by etrans.
  - by apply prefix_app_r.
Qed.

Lemma apart_below q : src `prefix_of` q -> dst `prefix_of` q -> False.
Proof.
  intros Hs Hd. by destruct (prefix_weak_total src dst q Hs Hd).
Qed.

Lemma sim_rel_refl w : sim_rel src w w.
Proof. by repeat split. Qed.

(** A step of the real run that changes files at or below the
    destination tree and makes directories on the way to a path in it. *)
Lemma sim_rel_step w1 w2 fs' ds' l :
  sim_rel src w1 w2 ->
  (forall a, ~ dst `prefix_of` a ->
             lookup_file a fs' = lookup_file a (files w2)) ->
  (forall a, src `prefix_of` a -> a ∈ ds' <-> a ∈ dirs w2) ->
  filter (matches ".md" src) (ds' ++ (fst <$> fs')) = enum ".md" src w2 ->
  sim_rel src (mkWorld (files w1) (dirs w1) (log w1 ++ l) (clock w1))
          (mkWorld fs' ds' (log w2 ++ l) (clock w2)).
Proof.
  intros (Hl & Hc & Hk & He) Hf Hd Henum.
  split; [cbn; by rewrite Hl|]. split; [done|]. split.
  - intros q Hq. change (kind_of w1 q = stat ds' fs' q).
    rewrite (Hk q Hq). unfold kind_of. symmetry. apply stat_ext.
    + intros a Ha. rewrite Hf; [done|]. intros Hda.
      apply (apart_below q Hq). etrans; [exact Hda|].
      apply ancestors_prefix in Ha. etrans; [exact Ha|apply parent_prefix].
    + by apply Hd.
    + apply Hf. intros Hdq. by apply (apart_below q).
  - unfold enum in *. cbn [files dirs]. by rewrite Henum.
Qed.

Lemma sim_ret {A} (a : A) : sim src (ret a) (ret a).
Proof. intros w1 w2 H. by right. Qed.

Lemma sim_raise {A} e : sim src (@raise A e) (raise e).
Proof. intros w1 w2 H. by right. Qed.

Lemma sim_bind {A B} (m1 m2 : M A) (k1 k2 : A -> M B) :
  sim src m1 m2 -> (forall a, sim src (k1 a) (k2 a)) ->
  sim src (bind m1 k1) (bind m2 k2).
Proof.
  intros Hm Hk w1 w2 HR. unfold bind. destruct (Hm w1 w2 HR) as [H|[E HR']].
  { left. by destruct (m2 w2) as [[a|e] w2']. }
  destruct (m1 w1) as [[a|e] w1'], (m2 w2) as [[a'|e'] w2'];
    cbn [fst snd] in *; try done.
  - injection E as <-. by apply Hk.
  - injection E as <-. by right.
Qed.

Lemma sim_logging r : sim src (logging r) (logging r).
Proof.
  intros w1 w2 (Hl & Hc & Hk & He). right. split; [done|].
  unfold logging. cbn [snd]. by repeat split; cbn; rewrite ?Hl.
Qed.

Lemma sim_read_clock : sim src (read_clock utcnow) (read_clock utcnow).
Proof.
  intros w1 w2 (Hl & Hc & Hk & He). right. unfold read_clock; cbn.
  by repeat split; cbn; rewrite ?Hc.
Qed.

Lemma sim_render_page cfg title content path :
  sim src (render_page utcnow cfg title content path)
      (render_page utcnow cfg title content path).
Proof.
  unfold render_page. apply sim_bind; [apply sim_read_clock|].
  intros built. apply sim_ret.
Qed.

Lemma sim_from_value_error {A} (o : option A) :
  sim src (from_value_error o) (from_value_error o).
Proof. destruct o; [apply sim_ret|apply sim_raise]. Qed.

Lemma sim_read_text p :
  src `prefix_of` p -> sim src (read_text p) (read_text p).
Proof.
  intros Hp w1 w2 HR. right. unfold read_text.
  destruct HR as (Hl & Hc & Hk & He). rewrite (Hk p Hp).
  by destruct (kind_of w2 p).
Qed.

Lemma sim_md_title p : src `prefix_of` p -> sim src (md_title p) (md_title p).
Proof.
  intros Hp. unfold md_title. apply sim_bind; [by apply sim_read_text|].
  intros text. apply sim_ret.
Qed.

Lemma sim_exists_path p :
  src `prefix_of` p -> sim src (exists_path p) (exists_path p).
Proof.
  intros Hp w1 w2 HR. right. unfold exists_path. cbn [fst snd].
  split; [|done]. destruct HR as (Hl & Hc & Hk & He). by rewrite (Hk p Hp).
Qed.

(** The one place where the two runs differ: the real run writes. *)
Lemma sim_write_text x t :
  sim src (write_text (dst ++ x) t true) (write_text (dst ++ x) t false).
Proof.
  intros w1 w2 HR.
  destruct (write_text_real_cases (dst ++ x) t w2) as [H|H]; [by left|].
  right. rewrite H. cbn [fst snd]. split; [done|].
  unfold write_text, bind, logging, ret. cbn [snd].
  apply sim_rel_step; [done|..].
  - intros a Ha. apply lookup_write_other. intros ->. apply Ha.
    by apply prefix_app_r.
  - intros a Ha. rewrite mkdir_parents_elem. split; [|tauto].
    intros [H'|H']; [done|]. exfalso. apply (apart_on_the_way a x Ha).
    etrans; [exact H'|apply parent_prefix].
  - unfold enum. rewrite !filter_app. f_equal.
    + apply filter_mkdir_parents. intros a Ha Hm.
      apply Is_true_true, matches_below in Hm.
      apply (apart_on_the_way a x Hm). etrans; [exact Ha|apply parent_prefix].
    + apply filter_names_write. intros Hm.
      apply Is_true_true, matches_below in Hm.
      apply (apart_below (dst ++ x) Hm). by apply prefix_app_r.
Qed.

Lemma sim_for_each {A} (xs : list A) (f g : A -> M unit) :
  Forall (fun x => sim src (f x) (g x)) xs ->
  sim src (for_each xs f) (for_each xs g).
Proof.
  induction 1 as [|x xs Hx _ IH]; [apply sim_ret|].
  cbn [for_each]. apply sim_bind; [done|]. by intros _.
Qed.

Lemma sim_index_entries found :
  Forall (fun p => src `prefix_of` p) found ->
  sim src (index_entries src found) (index_entries src found).
Proof.
  induction 1 as [|p found Hp _ IH]; [apply sim_ret|].
  cbn [index_entries]. destruct (Py.startswith (name p) "__"); [done|].
  apply sim_bind; [apply sim_from_value_error|]. intros rel0.
  apply sim_bind; [apply sim_from_value_error|]. intros rel.
  apply sim_bind; [by apply sim_md_title|]. intros t.
  apply sim_bind; [done|]. intros tl. apply sim_ret.
Qed.

(** Both runs discover the same paths. *)
Lemma sim_rglob_md w1 w2 :
  sim_rel src w1 w2 ->
  rglob ".md" src (dirs w1) (files w1) = rglob ".md" src (dirs w2) (files w2).
Proof.
  intros (_ & _ & Hk & He). unfold rglob.
  specialize (Hk src (reflexivity _)). unfold kind_of in Hk. rewrite Hk.
  by destruct (stat (dirs w2) (files w2) src).
Qed.

Lemma sim_get_world {B} (k1 k2 : World -> M B) :
  (forall w1 w2, sim_rel src w1 w2 -> sim src (k1 w1) (k2 w2)) ->
  sim src (bind get_world k1) (bind get_world k2).
Proof. intros H w1 w2 HR. by apply H. Qed.

Lemma sim_collect_md_files {B} (k1 k2 : list Path -> M B) :
  (forall found,
      Forall (fun p => src `prefix_of` p) found ->
      sim src (k1 found) (k2 found)) ->
  sim src (bind (collect_md_files src) k1) (bind (collect_md_files src) k2).
Proof.
  intros H w1 w2 HR.
  assert (forall (k : list Path -> M B) w,
            bind (collect_md_files src) k w
            = k (rglob ".md" src (dirs w) (files w)) w) as E by reflexivity.
  rewrite !E, (sim_rglob_md w1 w2 HR). apply H; [apply rglob_below|done].
Qed.

Lemma sim_md_to_html_file md cfg :
  src `prefix_of` md ->
  sim src (md_to_html_file utcnow md src dst cfg true)
      (md_to_html_file utcnow md src dst cfg false).
Proof.
  intros Hmd. unfold md_to_html_file.
  destruct (_ && _); [apply sim_ret|].
  apply sim_bind; [apply sim_from_value_error|]. intros rel0.
  apply sim_bind; [apply sim_from_value_error|]. intros rel.
  apply sim_bind; [apply sim_logging|]. intros _.
  apply sim_bind; [by apply sim_read_text|]. intros text.
  apply sim_bind; [by apply sim_md_title|]. intros t.
  apply sim_bind; [apply sim_render_page|]. intros page.
  apply sim_bind; [apply sim_write_text|intros _; apply sim_ret].
Qed.

Lemma sim_build_index cfg :
  sim src (build_index utcnow src dst cfg true)
      (build_index utcnow src dst cfg false).
Proof.
  unfold build_index.
  assert (src `prefix_of` div src "__index__.md") as Hq
    by (by apply prefix_app_r).
  apply sim_bind; [by apply sim_exists_path|]. intros e.
  apply sim_bind.
  { destruct e; [|apply sim_ret].
    apply sim_bind; [by apply sim_read_text|]. intros text. apply sim_ret. }
  intros body. apply sim_get_world. intros w1 w2 HR.
  rewrite (sim_rglob_md w1 w2 HR).
  apply sim_bind; [apply sim_index_entries, rglob_below|]. intros es.
  apply sim_bind; [apply sim_render_page|]. intros page.
  apply sim_write_text.
Qed.

(** Cleaning, dry and real, from the same world. *)
Lemma clean_domain_dry_real w :
  os_error (fst (clean_domain dst false w))
  \/ (fst (clean_domain dst true w) = fst (clean_domain dst false w)
      /\ sim_rel src (snd (clean_domain dst true w))
           (snd (clean_domain dst false w))).
Proof.
  unfold clean_domain, bind, exists_path.
  destruct (match kind_of w dst with
            | Directory | Regular _ => true | _ => false end);
    cbn [negb get_world]; [|right; split; [done|apply sim_rel_refl]].
  set (found := rglob ".html" dst (dirs w) (files w)).
  assert (Forall (fun p => dst `prefix_of` p) found) as Hfound
    by apply rglob_below.
  rewrite Forall_forall in Hfound.
  rewrite remove_each_dry.
  destruct (remove_each_real_cases found w) as [H|H]; [by left|].
  right. rewrite H. cbn [fst snd]. split; [done|].
  apply sim_rel_step; [apply sim_rel_refl|..].
  - intros a Ha. apply lookup_filter_other. intros t. cbn [fst].
    intros Hin. by apply Ha, Hfound.
  - done.
  - unfold enum. rewrite !filter_app. f_equal.
    apply filter_names_remove. intros p Hp Hm.
    apply Is_true_true, matches_below in Hm.
    by apply (apart_below p Hm), Hfound.
Qed.

End Simulation.

Lemma unless_bind_same {A B} (m : M A) (k1 k2 : A -> M B) w :
  (forall a w', agree_unless_os_error (k1 a w') (k2 a w')) ->
  agree_unless_os_error (bind m k1 w) (bind m k2 w).
Proof.
  intros H. unfold bind. destruct (m w) as [[a|e] w']; [apply H|].
  right. by split.
Qed.

Lemma unless_bind_ret {A B} (a : A) (k1 k2 : A -> M B) w :
  agree_unless_os_error (k1 a w) (k2 a w) ->
  agree_unless_os_error (bind (ret a) k1 w) (bind (ret a) k2 w).
Proof. done. Qed.

Lemma unless_sim {A} src (m1 m2 : M A) w1 w2 :
  sim src m1 m2 -> sim_rel src w1 w2 -> agree_unless_os_error (m1 w1) (m2 w2).
Proof.
  intros Hs HR. destruct (Hs w1 w2 HR) as [H|[E (Hl & _)]]; [by left|].
  right. by split.
Qed.

Lemma unless_bind_sim {A B} src (c1 c2 : M A) (k1 k2 : A -> M B) w :
  os_error (fst (c2 w))
  \/ (fst (c1 w) = fst (c2 w) /\ sim_rel src (snd (c1 w)) (snd (c2 w))) ->
  (forall a, sim src (k1 a) (k2 a)) ->
  agree_unless_os_error (bind c1 k1 w) (bind c2 k2 w).
Proof.
  intros [H|[E HR]] Hk; unfold bind.
  { left. by destruct (c2 w) as [[a|e] w2]. }
  destruct (c1 w) as [[a|e1] w1], (c2 w) as [[a'|e2] w2];
    cbn [fst snd] in *; try done.
  - injection E as <-. by eapply unless_sim.
  - injection E as <-. destruct HR as (Hl & _). right. by split.
Qed.

Lemma write_text_unless p t w :
  agree_unless_os_error (write_text p t true w) (write_text p t false w).
Proof.
  destruct (write_text_real_cases p t w) as [H|H]; [by left|].
  right. by rewrite H.
Qed.

Lemma clean_domain_unless root w :
  agree_unless_os_error (clean_domain root true w) (clean_domain root false w).
Proof.
  unfold clean_domain, bind, exists_path.
  destruct (match kind_of w root with
            | Directory | Regular _ => true | _ => false end);
    cbn [negb get_world]; [|by right].
  rewrite remove_each_dry.
  destruct (remove_each_real_cases
              (rglob ".html" root (dirs w) (files w)) w) as [H|H]; [by left|].
  right. by rewrite H.
Qed.

Section DryAndReal.

Variable utcnow : nat -> string.

Lemma run_clean_unless cfg args :
  dry_run args = true ->
  forall w,
    agree_unless_os_error (run_clean cfg args w)
      (run_clean cfg (for_real args) w).
Proof.
  intros Hdry w. unfold run_clean. rewrite Hdry.
  cbn [for_real domain args_dst_root dry_run].
  apply unless_bind_same. intros dst w0. unfold bind.
  destruct (clean_domain_unless (div dst (domain args)) w0)
    as [H|[E Hl]].
  { left. by destruct (clean_domain _ false w0) as [[[]|e] w2]. }
  destruct (clean_domain _ true w0) as [[[]|e1] w1],
    (clean_domain _ false w0) as [[[]|e2] w2];
    cbn [fst snd] in *; try done; right.
  - split; [done|]. cbn. by rewrite Hl.
  - by split.
Qed.

(** What a build does once its roots are settled, cleaning included. *)
Lemma build_steps_unless src dst cfg (clean : bool) domain_name w :
  ~ src `prefix_of` dst -> ~ dst `prefix_of` src ->
  agree_unless_os_error
    ((let* _ := (if clean then clean_domain dst true else ret tt) in
      let* md_files := collect_md_files src in
      let* _ := logging (LogFound (length md_files)) in
      let* _ := for_each md_files (fun md =>
                  let* _ := md_to_html_file utcnow md src dst cfg true in
                  ret tt) in
      let* _ := build_index utcnow src dst cfg true in
      logging (LogBuildComplete domain_name)) w)
    ((let* _ := (if clean then clean_domain dst false else ret tt) in
      let* md_files := collect_md_files src in
      let* _ := logging (LogFound (length md_files)) in
      let* _ := for_each md_files (fun md =>
                  let* _ := md_to_html_file utcnow md src dst cfg false in
                  ret tt) in
      let* _ := build_index utcnow src dst cfg false in
      logging (LogBuildComplete domain_name)) w).
Proof.
  intros Hsd Hds.
  apply (unless_bind_sim src).
  { destruct clean; [by apply clean_domain_dry_real|].
    right. split; [done|apply sim_rel_refl]. }
  intros _. apply sim_collect_md_files. intros found Hfound.
  apply sim_bind; [apply sim_logging|]. intros _.
  apply sim_bind.
  { apply sim_for_each. eapply Forall_impl; [exact Hfound|].
    intros md Hmd. apply sim_bind; [|intros ?; apply sim_ret].
    by apply sim_md_to_html_file. }
  intros _. apply sim_bind; [by apply sim_build_index|]. intros _.
  apply sim_logging.
Qed.

Lemma run_build_unless cfg args :
  dry_run args = true -> trees_apart cfg args ->
  forall w,
    agree_unless_os_error (run_build utcnow cfg args w)
      (run_build utcnow cfg (for_real args) w).
Proof.
  intros Hdry Hapart w. unfold run_build. rewrite Hdry.
  cbn [for_real domain args_src_root clean_first dry_run].
  apply unless_bind_same. intros r w0.
  apply unless_bind_same. intros _ w1.
  unfold trees_apart in Hapart.
  destruct (src_root cfg) as [s|]; [|right; by split].
  cbn [assert_path]. apply unless_bind_ret.
  destruct (dst_root cfg) as [d|]; [|right; by split].
  cbn [assert_path]. apply unless_bind_ret.
  destruct Hapart as [Hsd Hds].
  apply unless_bind_same. intros e w2.
  destruct (negb e); [right; by split|].
  by apply build_steps_unless.
Qed.

End DryAndReal.
Section DryRunTheorem.

Variable utcnow : nat -> string.


End DryRunTheorem.



(** * Further properties of the renderer *)

(** ** Delimiter substitution, in full *)

(** X1. What [_replace_delimited] returns, for every text and every
    delimiter that is not empty ([str.split] raises [ValueError] on an
    empty separator, and no caller passes one): the parts joined with
    every second one wrapped, the last one included, when the delimiter
    occurs an odd number of times and at least three times; the text
    itself in every other case, also when the delimiters are paired. *)
Theorem X1_replace_delimited_by_count (s delim open_tag close_tag : string) :
  delim <> "" ->
  _replace_delimited s delim open_tag close_tag
  = if Nat.odd (Py.count s delim) && (3 <=? Py.count s delim)%nat
    then Py.join ""
           (fst (wrap_parts open_tag close_tag false (Py.split s delim)))
    else s.
Proof.
  intros _. destruct (Nat.odd (Py.count s delim)) eqn:Hodd; cbn [andb].
  - destruct (Nat.leb_spec 3 (Py.count s delim)) as [Hge|Hlt].
    + by apply replace_delimited_odd_count.
    + apply replace_delimited_few_parts. rewrite split_length.
      destruct (Py.count s delim) as [|[|n]]; [done|lia|].
      destruct n; [done|lia].
  - apply replace_delimited_even_count. by rewrite <- Nat.negb_odd, Hodd.
Qed.

Lemma X1_replace_delimited_witness :
  _replace_delimited "a**b**c**d" "**" "<strong>" "</strong>"
  = if Nat.odd (Py.count "a**b**c**d" "**")
       && (3 <=? Py.count "a**b**c**d" "**")%nat
    then Py.join ""
           (fst (wrap_parts "<strong>" "</strong>" false
                   (Py.split "a**b**c**d" "**")))
    else "a**b**c**d".
Proof. by apply X1_replace_delimited_by_count. Defined.

(** ** Texts without markup *)

Lemma prefix_head_ne p0 p c r :
  c <> p0 -> String.prefix (String p0 p) (String c r) = false.
Proof. intros Hne. cbn. destruct (ascii_dec p0 c); congruence. Qed.

Lemma count_go_absent p0 p k s :
  str_all (fun c => negb (Ascii.eqb c p0)) s = true ->
  Py.count_go (String p0 p) k s = 0.
Proof.
  revert k. induction s as [|c r IH]; intros k Hs; [done|].
  apply andb_true_iff in Hs as [Hc Hr]. cbn [Py.count_go].
  destruct k; [|by apply IH].
  rewrite prefix_head_ne; [by apply IH|].
  intros ->. by rewrite Ascii.eqb_refl in Hc.
Qed.

Lemma replace_delimited_absent s p0 p o c :
  str_all (fun c => negb (Ascii.eqb c p0)) s = true ->
  _replace_delimited s (String p0 p) o c = s.
Proof.
  intros Hs. apply replace_delimited_even_count.
  unfold Py.count. by rewrite count_go_absent.
Qed.

Lemma find_char_absent a s :
  str_all (fun c => negb (Ascii.eqb c a)) s = true -> Py.find_char a s = None.
Proof.
  induction s as [|c r IH]; [done|]. intros [Hc Hr]%andb_true_iff.
  cbn [Py.find_char]. apply negb_true_iff in Hc. rewrite Hc.
  by rewrite IH.
Qed.

Lemma str_all_drop P n s : str_all P s = true -> str_all P (Py.drop n s) = true.
Proof.
  revert s. induction n as [|n IH]; intros [|c r] Hs; try done.
  apply andb_true_iff in Hs as [_ Hr]. by apply IH.
Qed.

Lemma link_at_no_paren r :
  str_all (fun c => negb (Ascii.eqb c ")")) r = true -> link_at r = None.
Proof.
  intros Hr. unfold link_at.
  destruct (Py.find_char "]" r) as [j|]; [|done].
  pose proof (str_all_drop _ (S j) r Hr) as Hd.
  destruct (Py.drop (S j) r) as [|c after]; [done|].
  apply andb_true_iff in Hd as [_ Hafter].
  rewrite (find_char_absent ")" after Hafter).
  destruct c as [[] [] [] [] [] [] [] []]; done.
Qed.

Lemma replace_links_no_bracket s :
  str_all (fun c => negb (Ascii.eqb c "[")) s = true -> _replace_links s = s.
Proof.
  unfold _replace_links. induction s as [|c r IH]; [done|].
  intros [Hc Hr]%andb_true_iff. cbn [replace_links_go].
  apply negb_true_iff in Hc. rewrite Hc. by rewrite IH.
Qed.

Lemma replace_links_no_paren s :
  str_all (fun c => negb (Ascii.eqb c ")")) s = true -> _replace_links s = s.
Proof.
  unfold _replace_links. induction s as [|c r IH]; [done|].
  intros [Hc Hr]%andb_true_iff. cbn [replace_links_go].
  rewrite (link_at_no_paren r Hr), IH by done. by destruct (Ascii.eqb c "[").
Qed.

Lemma str_all_impl (P Q : ascii -> bool) s :
  (forall c, P c = true -> Q c = true) ->
  str_all P s = true -> str_all Q s = true.
Proof.
  intros H. induction s as [|c r IH]; [done|].
  intros [Hc Hr]%andb_true_iff. cbn [str_all].
  by rewrite (H c Hc), IH.
Qed.

Lemma escape_plain s :
  str_all plain_char s = true -> str_all plain_char (Py.escape s) = true.
Proof.
  induction s as [|c r IH]; [done|]. intros [Hc Hr]%andb_true_iff.
  cbn [Py.escape]. rewrite str_all_app, IH, andb_true_r by done.
  unfold Py.escape_char.
  destruct (Ascii.eqb c "&"); [done|].
  destruct (Ascii.eqb c "<"); [done|].
  destruct (Ascii.eqb c ">"); [done|].
  destruct (Ascii.eqb c Py.DQUOTE); [done|].
  destruct (Ascii.eqb c "'"); [done|].
  cbn [str_all]. by rewrite Hc.
Qed.

(** X2. A text with no backtick, no asterisk and no opening bracket is
    only escaped: [_render_inline] adds no element to it. *)
Theorem X2_plain_text_is_only_escaped (text : string) :
  str_all plain_char text = true -> _render_inline text = Py.escape text.
Proof.
  intros Hp%escape_plain. unfold _render_inline.
  assert (str_all (fun c => negb (Ascii.eqb c "`")) (Py.escape text) = true)
    as Hcode.
  { eapply str_all_impl; [|exact Hp]. intros c. unfold plain_char.
    by intros [[? _]%andb_true_iff _]%andb_true_iff. }
  assert (str_all (fun c => negb (Ascii.eqb c "*")) (Py.escape text) = true)
    as Hstar.
  { eapply str_all_impl; [|exact Hp]. intros c. unfold plain_char.
    by intros [[_ ?]%andb_true_iff _]%andb_true_iff. }
  assert (str_all (fun c => negb (Ascii.eqb c "[")) (Py.escape text) = true)
    as Hlink.
  { eapply str_all_impl; [|exact Hp]. intros c. unfold plain_char.
    by intros [_ ?]%andb_true_iff. }
  rewrite (replace_delimited_absent _ "`" "") by done.
  rewrite (replace_delimited_absent _ "*" "*") by done.
  rewrite (replace_delimited_absent _ "*" "") by done.
  by apply replace_links_no_bracket.
Qed.

Lemma X2_plain_text_witness :
  _render_inline "Tom & Jerry <3 'quotes'"
  = Py.escape "Tom & Jerry <3 'quotes'".
Proof. apply X2_plain_text_is_only_escaped. reflexivity. Defined.

(** ** Links *)

Lemma find_char_app a x y :
  str_all (fun c => negb (Ascii.eqb c a)) x = true ->
  Py.find_char a (x +:+ String a y) = Some (Py.len x).
Proof.
  induction x as [|c x IH]; intros Hx.
  - rewrite append_nil_l. cbn [Py.find_char]. by rewrite Ascii.eqb_refl.
  - apply andb_true_iff in Hx as [Hc Hx]. apply negb_true_iff in Hc.
    rewrite append_cons. cbn [Py.find_char]. by rewrite Hc, IH.
Qed.

Lemma take_app x y : Py.take (Py.len x) (x +:+ y) = x.
Proof.
  induction x as [|c x IH]; [by destruct y|].
  rewrite append_cons. cbn [Py.len String.length Py.take].
  f_equal. exact IH.
Qed.

Lemma drop_S_app x c y : Py.drop (S (Py.len x)) (x +:+ String c y) = y.
Proof. induction x as [|d x IH]; [done|]. by rewrite append_cons. Qed.

Lemma replace_links_go_skip x k y :
  replace_links_go (Py.len x + k) (x +:+ y) = replace_links_go k y.
Proof. induction x as [|c x IH]; [done|]. by rewrite append_cons. Qed.

Lemma link_at_link text url rest :
  str_all (fun c => negb (Ascii.eqb c "]")) text = true ->
  str_all (fun c => negb (Ascii.eqb c ")")) url = true ->
  link_at (text +:+ String "]" (String "(" (url +:+ String ")" rest)))
  = Some (text, url, Py.len text + 2 + Py.len url + 1).
Proof.
  intros Ht Hu. unfold link_at.
  rewrite find_char_app, drop_S_app, find_char_app, !take_app by done.
  reflexivity.
Qed.

Lemma replace_links_go_app pre s :
  str_all (fun c => negb (Ascii.eqb c "[")) pre = true ->
  replace_links_go 0 (pre +:+ s) = pre +:+ replace_links_go 0 s.
Proof.
  induction pre as [|c pre IH]; [done|]. intros [Hc Hp]%andb_true_iff.
  rewrite !append_cons. cbn [replace_links_go].
  apply negb_true_iff in Hc. by rewrite Hc, IH.
Qed.

(** X3. The link rule.  After a stretch without an opening bracket, a
    bracketed text without a closing bracket, directly followed by a
    parenthesised URL without a closing parenthesis, becomes one [<a>]
    element with the URL and the text as they stand, and the scan goes on
    behind the closing parenthesis. *)
Theorem X3_link_becomes_anchor (pre text url rest : string) :
  str_all (fun c => negb (Ascii.eqb c "[")) pre = true ->
  str_all (fun c => negb (Ascii.eqb c "]")) text = true ->
  str_all (fun c => negb (Ascii.eqb c ")")) url = true ->
  _replace_links
    (pre +:+ "[" +:+ text +:+ "](" +:+ url +:+ ")" +:+ rest)
  = pre +:+ anchor url text +:+ _replace_links rest.
Proof.
  intros Hp Ht Hu. unfold _replace_links.
  rewrite replace_links_go_app by done. f_equal.
  change ("[" +:+ text +:+ "](" +:+ url +:+ ")" +:+ rest)
    with (String "[" (text +:+ String "]" (String "(" (url +:+ String ")" rest)))).
  assert (replace_links_go (Py.len text + 2 + Py.len url + 1)
            (text +:+ String "]" (String "(" (url +:+ String ")" rest)))
          = replace_links_go 0 rest) as Hskip.
  { change (text +:+ String "]" (String "(" (url +:+ String ")" rest)))
      with (text +:+ "](" +:+ url +:+ ")" +:+ rest).
    rewrite <- (append_assoc text "](" _), <- (append_assoc _ url _).
    rewrite <- (append_assoc _ ")" rest).
    replace (Py.len text + 2 + Py.len url + 1)
      with (Py.len (((text +:+ "](") +:+ url) +:+ ")") + 0)
      by (rewrite !len_app; cbn; lia).
    apply replace_links_go_skip. }
  cbn [replace_links_go]. rewrite Ascii.eqb_refl, link_at_link by done.
  rewrite Hskip. unfold anchor. by rewrite !append_assoc.
Qed.

Lemma X3_link_witness :
  _replace_links ("see " +:+ "[" +:+ "the docs" +:+ "](" +:+ "/d?a=1"
                  +:+ ")" +:+ " and [more")
  = "see " +:+ anchor "/d?a=1" "the docs" +:+ _replace_links " and [more".
Proof. apply X3_link_becomes_anchor; reflexivity. Defined.

(** X4. No link without a closing parenthesis: a text in which [)] does
    not occur is returned as it is, brackets included. *)
Theorem X4_no_link_without_closing_paren (s : string) :
  str_all (fun c => negb (Ascii.eqb c ")")) s = true -> _replace_links s = s.
Proof. apply replace_links_no_paren. Qed.

Lemma X4_no_link_witness :
  _replace_links "[open](never closed [x]" = "[open](never closed [x]".
Proof. apply X4_no_link_without_closing_paren. reflexivity. Defined.

(** ** Paragraphs *)

Lemma turn_plain st raw rest :
  is_plain raw = true -> in_code st = false ->
  process_line st raw rest = (emit [paragraph raw] (close_lists st), 1).
Proof.
  unfold is_plain, is_fence, is_ordered, ordered_item, is_unordered.
  intros H Hc. unfold process_line, paragraph. rewrite Hc.
  destruct (_is_fenced_start (line_of raw)); [done|].
  destruct (Py.startswith (line_of raw) "#"); [done|].
  destruct (truthy (_starts_with_numbered_item (line_of raw))); [done|].
  destruct (is_unordered_item (line_of raw)); [done|].
  destruct (String.eqb (Py.strip (line_of raw)) ""); [done|].
  by destruct (is_indented (line_of raw)).
Qed.

Lemma close_lists_closed st :
  list_open st = false -> ol_open st = false -> close_lists st = emit [] st.
Proof.
  intros H1 H2. unfold close_lists, emit. rewrite H1, H2.
  destruct st; cbn in *. by subst.
Qed.

Lemma scan_plain_run st ls more :
  in_code st = false -> list_open st = false -> ol_open st = false ->
  Forall (fun l => is_plain l = true) ls ->
  scan 0 st (ls ++ more) = scan 0 (emit (map paragraph ls) st) more.
Proof.
  intros Hc H1 H2 Hls. revert st Hc H1 H2.
  induction Hls as [|l ls Hl _ IH]; intros st Hc H1 H2.
  - unfold emit. cbn. rewrite app_nil_r. by destruct st.
  - cbn [app scan]. rewrite turn_plain by done. cbn [Nat.sub].
    rewrite close_lists_closed by done. rewrite IH by done.
    f_equal. unfold emit; cbn. by rewrite app_nil_r, <- app_assoc.
Qed.

(** X5. Paragraphs are never joined: a document of lines that are
    neither fence, heading, list item, blank nor indented renders as one
    [<p>] element per line, in order, each holding the inline rendering of
    the stripped line. *)
Theorem X5_one_paragraph_per_line (md : string) (ls : list string) :
  Py.splitlines md = ls -> Forall (fun l => is_plain l = true) ls ->
  markdown_to_html md = doc (map paragraph ls).
Proof.
  intros Hmd Hls. unfold markdown_to_html, render_lines. rewrite Hmd.
  rewrite <- (app_nil_r ls), scan_plain_run by done.
  unfold finish. cbn. by rewrite !app_nil_r.
Qed.

Lemma X5_paragraph_witness :
  markdown_to_html (doc ["first line"; "second line of the same block"])
  = doc (map paragraph ["first line"; "second line of the same block"]).
Proof.
  apply X5_one_paragraph_per_line; [reflexivity|by repeat constructor].
Defined.

(** ** Indented code *)

Lemma collect_block block more :
  Forall (fun l => is_indented l = true) block -> stops more ->
  _collect_indented_code (block ++ more) = (map unindent block, length block).
Proof.
  intros Hb Hs. rewrite collect_app by done.
  induction Hb as [|l block Hl _ IH]; [done|].
  cbn [_collect_indented_code]. by rewrite Hl, IH.
Qed.

Lemma rstrip_by_prefix f s : exists t, s = Py.rstrip_by f s +:+ t.
Proof.
  induction s as [|c r [t IH]]; [by exists ""|]. cbn [Py.rstrip_by].
  destruct (Py.rstrip_by f r) as [|c' r'] eqn:E.
  - destruct (f c); [by exists (String c r)|].
    exists r. by rewrite append_cons, append_nil_l.
  - exists t. rewrite append_cons. by rewrite <- IH.
Qed.

Lemma string_prefix_app p a t :
  String.prefix p a = true -> String.prefix p (a +:+ t) = true.
Proof.
  revert a. induction p as [|c p IH]; intros a; [by destruct a, t|].
  destruct a as [|d a]; [done|]. rewrite append_cons. cbn [String.prefix].
  destruct (ascii_dec c d); [apply IH|done].
Qed.

Lemma is_indented_line_of raw :
  is_indented (line_of raw) = true -> is_indented raw = true.
Proof.
  unfold is_indented, Py.startswith, line_of.
  destruct (rstrip_by_prefix (Py.is_char Py.LF) raw) as [t Ht].
  intros [H|H]%orb_true_iff; apply orb_true_iff; [left|right];
    rewrite Ht; by apply string_prefix_app.
Qed.

Lemma scan_skip st block more :
  scan (length block) st (block ++ more) = scan 0 st more.
Proof. induction block as [|l block IH]; [done|apply IH]. Qed.

(** X6. An indented block.  When a line opens an indented block, it and
    all indented lines that follow it directly are emitted as one
    [<pre><code>] element after any open list has been closed: one output
    line holds them all, each with one indentation unit taken off, joined
    and escaped.  The following lines are not examined any further, so an
    indented line that looks like a list item or a blank line is code. *)
Theorem X6_indented_block (st : RenderState) (raw : string)
    (body more : list string) :
  in_code st = false -> opens_code raw = true ->
  Forall (fun l => is_indented l = true) body -> stops more ->
  scan 0 st (raw :: body ++ more)
  = scan 0
      (emit ["<pre><code>";
             Py.escape (Py.join Py.nl (map unindent (raw :: body)));
             "</code></pre>"] (close_lists st)) more.
Proof.
  unfold opens_code, is_fence, is_ordered, ordered_item, is_unordered.
  intros Hc Ho Hbody Hs. cbn [scan]. unfold process_line. rewrite Hc.
  destruct (_is_fenced_start (line_of raw)); [done|].
  destruct (Py.startswith (line_of raw) "#"); [done|].
  destruct (truthy (_starts_with_numbered_item (line_of raw))); [done|].
  destruct (is_unordered_item (line_of raw)); [done|].
  destruct (String.eqb (Py.strip (line_of raw)) ""); [done|].
  destruct (is_indented (line_of raw)) eqn:Hi; [|done].
  apply is_indented_line_of in Hi.
  rewrite (app_comm_cons body more raw), collect_block;
    [|by constructor|done].
  cbn [length Nat.sub]. rewrite Nat.sub_0_r. apply scan_skip.
Qed.

Lemma X6_indented_block_witness :
  scan 0 (mkRenderState ["<ul>"; "<li>a</li>"] false [] true false)
    ("    x = 1" :: ["    - y"; "    "] ++ ["after"])
  = scan 0
      (emit ["<pre><code>";
             Py.escape (Py.join Py.nl
                          (map unindent ("    x = 1" :: ["    - y"; "    "])));
             "</code></pre>"]
         (close_lists
            (mkRenderState ["<ul>"; "<li>a</li>"] false [] true false)))
      ["after"].
Proof.
  apply X6_indented_block; [reflexivity|reflexivity| |reflexivity].
  by repeat constructor.
Defined.

(** ** Numbered items *)

Lemma lstrip_by_app f a b :
  str_all f a = true ->
  match b with "" => True | String c _ => f c = false end ->
  Py.lstrip_by f (a +:+ b) = b.
Proof.
  intros Ha Hb. induction a as [|c a IH].
  - rewrite append_nil_l. destruct b as [|c b]; [done|].
    cbn [Py.lstrip_by]. by rewrite Hb.
  - cbn [str_all] in Ha. apply andb_true_iff in Ha as [Hc Ha].
    rewrite append_cons. cbn [Py.lstrip_by]. rewrite Hc. by apply IH.
Qed.

Lemma isdigit_not_isspace c : Py.isdigit c = true -> Py.isspace c = false.
Proof.
  destruct c as [[] [] [] [] [] [] [] []]; by vm_compute.
Qed.

(** X16. The form of a numbered item.  Optional white space, one or more
    digits, a dot and a space: [_starts_with_numbered_item] returns the
    rest of the line, stripped.  The number itself is not looked at, so
    items with different numbers and the same text give the same result. *)
Theorem X16_numbered_item_form (ws ds text : string) :
  str_all Py.isspace ws = true -> str_all Py.isdigit ds = true ->
  ds <> "" ->
  _starts_with_numbered_item (ws +:+ ds +:+ ". " +:+ text)
  = Some (Py.strip text).
Proof.
  intros Hws Hds Hne. destruct ds as [|d ds]; [done|].
  cbn [str_all] in Hds. apply andb_true_iff in Hds as [Hd Hds].
  unfold _starts_with_numbered_item, Py.lstrip.
  rewrite lstrip_by_app; [|done|].
  - rewrite append_cons, Hd, andb_true_r.
    replace (3 <=? Py.len (String d (ds +:+ ". " +:+ text)))%nat with true.
    + rewrite lstrip_by_app; [|done|done]. by rewrite !append_cons.
    + symmetry. apply Nat.leb_le. rewrite <- append_cons, !len_app.
      unfold Py.len. cbn [String.length]. lia.
  - rewrite append_cons. by apply isdigit_not_isspace.
Qed.

Lemma X16_numbered_item_witness :
  _starts_with_numbered_item ("  " +:+ "12" +:+ ". " +:+ " twelfth  ")
  = Some (Py.strip " twelfth  ").
Proof. by apply X16_numbered_item_form. Defined.

(** ** Headings and page titles *)

Lemma startswith_hash line :
  Py.startswith line "#" = true -> exists r, line = String "#" r.
Proof.
  unfold Py.startswith. destruct line as [|c r]; cbn [String.prefix]; [done|].
  destruct (ascii_dec "#" c) as [<-|]; [eauto|done].
Qed.

Lemma leading_hashes_pos line :
  Py.startswith line "#" = true -> 1 <= leading_hashes line.
Proof.
  intros [r ->]%startswith_hash. unfold leading_hashes.
  cbn [Py.lstrip_by Py.is_char]. rewrite Ascii.eqb_refl.
  pose proof (lstrip_by_len (Py.is_char "#") r).
  unfold Py.len in *. cbn [String.length]. lia.
Qed.

Lemma first_heading_skips pre lines :
  Forall (fun l => Py.startswith l "#" = false) pre ->
  first_heading (pre ++ lines) = first_heading lines.
Proof.
  induction 1 as [|l pre Hl _ IH]; [done|]. cbn [app first_heading].
  by rewrite Hl.
Qed.

(** X7. The heading and the page title agree up to level six.  For the
    first line of a text that starts with [#], when it has at most six of
    them, the [<hN>] element has [N] the number of [#] and holds the inline
    rendering of exactly the text that [md_title] returns for the file. *)
Theorem X7_heading_holds_the_title (pre : list string) (line : string)
    (rest : list string) :
  Forall (fun l => Py.startswith l "#" = false) pre ->
  Py.startswith line "#" = true -> leading_hashes line <= 6 ->
  exists title,
    first_heading (pre ++ line :: rest) = Some title
    /\ heading_html line
       = ("<h" +:+ Py.str_of_nat (leading_hashes line) +:+ ">")
           +:+ _render_inline title
           +:+ ("</h" +:+ Py.str_of_nat (leading_hashes line) +:+ ">").
Proof.
  intros Hpre Hh Hn. exists (Py.strip (Py.lstrip_by (Py.is_char "#") line)).
  split.
  - rewrite first_heading_skips by done. cbn [first_heading]. by rewrite Hh.
  - pose proof (leading_hashes_pos line Hh) as Hpos.
    destruct (heading_marker_stripped line) as [E1 E2]; [lia|].
    unfold heading_html. by rewrite E2, E1.
Qed.

Lemma X7_heading_title_witness :
  exists title,
    first_heading (["intro"; ""] ++ "### A *b* c" :: ["# Later"]) = Some title
    /\ heading_html "### A *b* c"
       = ("<h" +:+ Py.str_of_nat (leading_hashes "### A *b* c") +:+ ">")
           +:+ _render_inline title
           +:+ ("</h" +:+ Py.str_of_nat (leading_hashes "### A *b* c") +:+ ">").
Proof.
  apply (X7_heading_holds_the_title ["intro"; ""] "### A *b* c" ["# Later"]);
    [by repeat constructor|reflexivity|vm_compute; lia].
Defined.

(** X8. [md_title] does not know about fences.  A line that starts with
    [#] inside a fenced block, with no such line before it, is the title of
    the page, while the renderer emits it as a line of code and no heading
    for it. *)
Theorem X8_title_taken_from_fenced_code (opening line closing : string)
    (before after more : list string) :
  is_fence opening = true -> is_fence closing = true ->
  Forall (fun l => is_fence l = false /\ Py.startswith l "#" = false) before ->
  Forall (fun l => is_fence l = false) after ->
  Py.startswith line "#" = true ->
  first_heading (opening :: (before ++ line :: after) ++ closing :: more)
  = Some (Py.strip (Py.lstrip_by (Py.is_char "#") line))
  /\ scan 0 init_state
       (opening :: (before ++ line :: after) ++ closing :: more)
     = scan 0
         (mkRenderState
            (["<pre><code>"]
               ++ Py.splitlines
                    (Py.escape (Py.join Py.nl (before ++ line :: after)))
               ++ ["</code></pre>"])
            false [] false false) more.
Proof.
  intros Ho Hc Hb Ha Hh. split.
  - destruct (fence_head _ Ho) as [l ->]. cbn [first_heading].
    replace (Py.startswith (String "`" l) "#") with false by done.
    rewrite <- app_assoc, first_heading_skips.
    + cbn [app first_heading]. by rewrite Hh.
    + eapply Forall_impl; [exact Hb|]. by intros ? [_ ?].
  - rewrite scan_fenced_block; [done|done|done| |done].
    apply Forall_app. split.
    + eapply Forall_impl; [exact Hb|]. by intros ? [? _].
    + constructor; [|done]. destruct (startswith_hash _ Hh) as [r ->].
      destruct (is_fence (String "#" r)) eqn:E; [|done].
      by apply fence_head in E as [? ?].
Qed.

Lemma X8_title_from_code_witness :
  first_heading
    ("```sh" :: (["ls"] ++ "# list the files" :: ["pwd"]) ++ "```" :: ["# Real"])
  = Some (Py.strip (Py.lstrip_by (Py.is_char "#") "# list the files"))
  /\ scan 0 init_state
       ("```sh" :: (["ls"] ++ "# list the files" :: ["pwd"])
          ++ "```" :: ["# Real"])
     = scan 0
         (mkRenderState
            (["<pre><code>"]
               ++ Py.splitlines
                    (Py.escape
                       (Py.join Py.nl (["ls"] ++ "# list the files" :: ["pwd"])))
               ++ ["</code></pre>"])
            false [] false false) ["# Real"].
Proof.
  apply (X8_title_taken_from_fenced_code "```sh" "# list the files" "```"
           ["ls"] ["pwd"] ["# Real"]);
    [reflexivity|reflexivity|by repeat constructor|by repeat constructor
    |reflexivity].
Defined.

(** * Further properties of the site builder *)

(** ** What a run can reach *)

Lemma stays_below_keeps {A} root (m : M A) : keeps_fs m -> stays_below root m.
Proof. intros Hm w. destruct (Hm w) as [-> ->]. by split. Qed.

Lemma stays_below_bind {A B} root (m : M A) (k : A -> M B) :
  stays_below root m -> (forall a, stays_below root (k a)) ->
  stays_below root (bind m k).
Proof.
  intros Hm Hk w. unfold bind. destruct (Hm w) as [Hf Hd].
  destruct (m w) as [[a|e] w1]; cbn [snd] in *; [|done].
  destruct (Hk a w1) as [Hf' Hd']. split.
  - intros q Hq. by rewrite Hf', Hf.
  - by etrans.
Qed.

Lemma stays_below_bind_ret {A B} root (a : A) (k : A -> M B) :
  stays_below root (k a) -> stays_below root (bind (ret a) k).
Proof. done. Qed.

Lemma stays_below_for_each {A} root (xs : list A) (body : A -> M unit) :
  (forall x, x ∈ xs -> stays_below root (body x)) ->
  stays_below root (for_each xs body).
Proof.
  induction xs as [|x xs IH]; intros Hb.
  - apply stays_below_keeps, keeps_ret.
  - cbn [for_each]. apply stays_below_bind; [apply Hb; by left|].
    intros _. apply IH. intros y Hy. apply Hb. by right.
Qed.

Lemma stays_below_mkdir root d : stays_below root (mkdir d).
Proof.
  intros w. unfold mkdir. destruct (kind_of w d); cbn [snd files dirs];
    (split; [done|]); try done; unfold mkdir_parents; set_solver.
Qed.

Lemma stays_below_path_write_text root p t :
  root `prefix_of` p -> stays_below root (path_write_text p t).
Proof.
  intros Hp w. unfold path_write_text.
  assert (forall q, ~ root `prefix_of` q ->
            lookup_file q (write_file p t (files w)) = lookup_file q (files w))
    as Hw by (intros q Hq; apply lookup_write_other; by intros ->).
  destruct (kind_of w p); [destruct (kind_of w (parent p))|..];
    cbn [snd files dirs]; by split.
Qed.

Lemma stays_below_write_text root p t dry :
  root `prefix_of` p -> stays_below root (write_text p t dry).
Proof.
  intros Hp. unfold write_text.
  apply stays_below_bind; [apply stays_below_keeps, keeps_logging|].
  intros _. destruct dry; [apply stays_below_keeps, keeps_ret|].
  apply stays_below_bind; [apply stays_below_mkdir|]. intros _.
  by apply stays_below_path_write_text.
Qed.

Lemma stays_below_unlink root p :
  root `prefix_of` p -> stays_below root (ignore_not_found (unlink p)).
Proof.
  intros Hp w. unfold ignore_not_found, unlink.
  destruct (kind_of w p); cbn [snd files dirs]; (split; [|done]); try done.
  intros q Hq. apply lookup_remove_other. by intros ->.
Qed.

Lemma stays_below_clean_domain root r dry :
  root `prefix_of` r -> stays_below root (clean_domain r dry).
Proof.
  intros Hr. destruct dry.
  { apply stays_below_keeps, keeps_clean_domain_dry. }
  unfold clean_domain.
  apply stays_below_bind; [apply stays_below_keeps, keeps_exists_path|].
  intros e. destruct (negb e); [apply stays_below_keeps, keeps_logging|].
  intros w. unfold bind at 1, get_world. revert w.
  assert (forall w0 : World,
            stays_below root
              (remove_each (rglob ".html" r (dirs w0) (files w0)) false))
    as H; [|intros w; apply H].
  intros w0. unfold remove_each. apply stays_below_for_each. intros p Hp.
  apply stays_below_bind; [apply stays_below_keeps, keeps_logging|].
  intros _. cbn [negb]. apply stays_below_unlink.
  pose proof (rglob_below ".html" r (dirs w0) (files w0)) as Hall.
  rewrite Forall_forall in Hall. etrans; [exact Hr|by apply Hall].
Qed.

Ltac frame :=
  repeat first
    [ apply stays_below_keeps; solve [keeps]
    | match goal with
      | |- stays_below _ (bind (ret _) _) => apply stays_below_bind_ret
      | |- stays_below _ (bind _ _) => apply stays_below_bind; [|intros ?]
      | |- stays_below _ (if ?b then _ else _) => destruct b
      | |- stays_below _ (match ?o with Some _ => _ | None => _ end) =>
          destruct o
      end ].

Section Frame.

Variable utcnow : nat -> string.

Lemma stays_below_md_to_html_file root md rel_root out_root cfg dry :
  root `prefix_of` out_root ->
  stays_below root (md_to_html_file utcnow md rel_root out_root cfg dry).
Proof.
  intros Hr. unfold md_to_html_file.
  pose proof (keeps_render_page utcnow). pose proof keeps_md_title.
  frame. apply stays_below_write_text. by apply prefix_app_r.
Qed.

Lemma stays_below_build_index root src dst cfg dry :
  root `prefix_of` dst ->
  stays_below root (build_index utcnow src dst cfg dry).
Proof.
  intros Hr. unfold build_index.
  pose proof (keeps_render_page utcnow). pose proof keeps_index_entries.
  frame; apply stays_below_write_text; by apply prefix_app_r.
Qed.

Lemma stays_below_run_build cfg args d :
  dst_root cfg = Some d ->
  stays_below (div d (domain args)) (run_build utcnow cfg args).
Proof.
  intros Hd. unfold run_build. rewrite Hd. cbn [assert_path].
  pose proof keeps_load_domain_settings. pose proof keeps_assert_path.
  unfold collect_md_files.
  frame; first
    [ by apply stays_below_clean_domain
    | by apply stays_below_build_index
    | apply stays_below_for_each; intros md _; frame;
      by apply stays_below_md_to_html_file ].
Qed.

Lemma stays_below_run_clean cfg args d :
  match dst_root cfg with Some p => Some p | None => args_dst_root args end
  = Some d ->
  stays_below (div d (domain args)) (run_clean cfg args).
Proof.
  intros Hd. unfold run_clean. rewrite Hd. cbn [assert_path].
  frame. by apply stays_below_clean_domain.
Qed.

End Frame.



(** ** Errors that end a build *)

(** X10. A build needs [--src-root] on the command line.  Without it
    [run_build] logs that [src_root] is not set and exits with status 2
    before anything else happens, also when the configuration names a
    source root. *)
Theorem X10_build_needs_src_root_option (utcnow : nat -> string)
    (cfg : Config) (args : Args) (w : World) :
  args_src_root args = None ->
  run_build utcnow cfg args w
  = (Raise (SystemExit 2),
     mkWorld (files w) (dirs w) (log w ++ [LogNotSet "src_root"]) (clock w)).
Proof. intros H. unfold run_build. by rewrite H. Qed.

Lemma X10_src_root_option_witness :
  let cfg := mkConfig "Site" "/" "/style.css" "%Y-%m-%d"
               (Some ["src"]) (Some ["out"]) in
  let w := mkWorld [(["src"; "d"; "a.md"], "# A")]
             [[]; ["src"]; ["src"; "d"]] [] 0 in
  run_build (fun _ => "2024-01-01 00:00:00") cfg
    (mkArgs "d" None None false false) w
  = (Raise (SystemExit 2),
     mkWorld (files w) (dirs w) (log w ++ [LogNotSet "src_root"]) (clock w)).
Proof.
  intros cfg w. by apply X10_build_needs_src_root_option.
Defined.

(** X11. A missing domain source ends the build before anything is
    removed.  When all roots are set, the domain is one plain path
    component and [src_root / domain] does not exist, [run_build] exits
    with status 2, its last log line names the missing path, and files and
    directories are as they were, also with [--clean-first] in a real
    run. *)
Theorem X11_missing_source_ends_build_untouched (utcnow : nat -> string)
    (cfg : Config) (args : Args) (r s d : Path) (w : World) :
  is_component (domain args) = true ->
  args_src_root args = Some r -> src_root cfg = Some s ->
  dst_root cfg = Some d ->
  exists_path (div s (domain args)) w = (Ok false, w) ->
  fst (run_build utcnow cfg args w) = Raise (SystemExit 2)
  /\ files (snd (run_build utcnow cfg args w)) = files w
  /\ dirs (snd (run_build utcnow cfg args w)) = dirs w
  /\ last (log (snd (run_build utcnow cfg args w)))
     = Some (LogSourceMissing (div s (domain args))).
Proof.
  intros _ Hr Hs Hd He. unfold exists_path in He. injection He as He.
  unfold run_build. rewrite Hr, Hs, Hd.
  unfold bind, load_domain_settings, bind, exists_path, logging, raise.
  cbn [assert_path ret].
  destruct (match kind_of w (div (div r (domain args)) "__settings__.toml")
            with Directory | Regular _ => true | _ => false end);
    cbn [ret]; unfold kind_of in *; cbn [files dirs]; rewrite He;
    cbn [negb fst snd files dirs log]; by rewrite last_snoc.
Qed.

Lemma X11_missing_source_witness :
  let cfg := mkConfig "Site" "/" "/style.css" "%Y-%m-%d"
               (Some ["src"]) (Some ["out"]) in
  let args := mkArgs "d" (Some ["src"]) None true false in
  let w := mkWorld [(["out"; "d"; "old.html"], "O")]
             [[]; ["src"]; ["out"]; ["out"; "d"]] [] 0 in
  fst (run_build (fun _ => "2024-01-01 00:00:00") cfg args w)
  = Raise (SystemExit 2)
  /\ files (snd (run_build (fun _ => "2024-01-01 00:00:00") cfg args w))
     = files w
  /\ dirs (snd (run_build (fun _ => "2024-01-01 00:00:00") cfg args w))
     = dirs w
  /\ last (log (snd (run_build (fun _ => "2024-01-01 00:00:00") cfg args w)))
     = Some (LogSourceMissing (div ["src"] (domain args))).
Proof.
  intros cfg args w.
  by apply (X11_missing_source_ends_build_untouched _ cfg args
              ["src"] ["src"] ["out"]).
Defined.

(** ** Cleaning twice *)

Lemma relative_to_app_self root rel : relative_to (root ++ rel) root = Some rel.
Proof.
  induction root as [|c root IH]; [by destruct rel|].
  cbn [app relative_to]. by rewrite String.eqb_refl.
Qed.

(** Removing files blocks no path. *)
Lemma blocked_filter (P : Path * string -> Prop) `{forall e, Decision (P e)}
    fs p :
  blocked (filter P fs) p = true -> blocked fs p = true.
Proof.
  rewrite !blocked_true. intros (a & Ha & Hf). exists a. split; [done|].
  apply lookup_file_Some in Hf. apply lookup_file_Some.
  apply list_elem_of_fmap in Hf as (e & -> & He).
  apply list_elem_of_filter in He as [_ He].
  apply list_elem_of_fmap. by exists e.
Qed.

Lemma names_after_clean ext root (fs : Files) :
  filter (matches ext root)
    (fst <$> filter (fun e => negb (matches ext root (fst e))) fs)
  = [].
Proof.
  apply filter_none, Forall_forall. intros p Hp.
  apply list_elem_of_fmap in Hp as (e & -> & He).
  apply list_elem_of_filter in He as [He _]. intros Hm.
  apply Is_true_true in Hm. by rewrite Hm in He.
Qed.

(** X12. Cleaning is idempotent.  After a real [clean_domain] on a root
    that is a directory, with nothing but regular files for the
    enumeration to report, a second one finds nothing: it returns
    normally, logs no line and leaves the world exactly as the first one
    left it. *)
Theorem X12_second_clean_finds_nothing (root : Path) (w : World) :
  kind_of w root = Directory ->
  Forall (regular w) (rglob ".html" root (dirs w) (files w)) ->
  clean_domain root false w
  = (Ok tt, snd (clean_domain root false w))
  /\ clean_domain root false (snd (clean_domain root false w))
     = (Ok tt, snd (clean_domain root false w)).
Proof.
  intros Hroot Hall. rewrite (clean_domain_directory root w Hroot Hall).
  cbn [snd]. split; [done|].
  set (fs' := filter (fun e => negb (matches ".html" root (fst e))) (files w)).
  assert (stat (dirs w) fs' root = Directory) as Hroot'.
  { apply stat_directory. apply stat_directory in Hroot as [Hb Hd].
    split; [|done]. destruct (blocked fs' root) eqn:E; [|done].
    apply blocked_filter in E. by rewrite E in Hb. }
  assert (rglob ".html" root (dirs w) fs' = []) as Hnone.
  { rewrite rglob_directory by done. rewrite filter_app.
    unfold fs'. rewrite names_after_clean, app_nil_r.
    apply filter_none, Forall_forall. intros p Hp Hm.
    rewrite Forall_forall in Hall.
    apply (regular_not_dir w p); [|done]. apply Hall.
    rewrite rglob_directory by done. apply list_elem_of_filter.
    split; [done|]. apply elem_of_app. by left. }
  unfold clean_domain, bind, exists_path, kind_of. cbn [files dirs].
  rewrite Hroot'. cbn [negb get_world files dirs]. by rewrite Hnone.
Qed.

Lemma X12_second_clean_witness :
  let w := mkWorld
             [(["out"; "d"; "a.html"], "A"); (["out"; "d"; "style.css"], "S");
              (["out"; "d"; "sub"; "b.html"], "B")]
             [[]; ["out"]; ["out"; "d"]; ["out"; "d"; "sub"]] [] 0 in
  clean_domain ["out"; "d"] false w
  = (Ok tt, snd (clean_domain ["out"; "d"] false w))
  /\ clean_domain ["out"; "d"] false (snd (clean_domain ["out"; "d"] false w))
     = (Ok tt, snd (clean_domain ["out"; "d"] false w)).
Proof.
  intros w. apply X12_second_clean_finds_nothing; [reflexivity|].
  repeat constructor; by eexists.
Defined.

(** ** Where a page is written *)

Lemma with_suffix_name sfx p :
  name p <> "" ->
  with_suffix sfx p = Some (removelast p ++ [stem (name p) +:+ sfx]).
Proof. unfold with_suffix. by destruct (name p). Qed.

Section Pages.

Variable utcnow : nat -> string.

(** What one call of [md_to_html_file] does up to its write. *)
Lemma md_to_html_file_steps md rel_root out_root rel cfg dry text w :
  Py.startswith (name md) "__" && String.eqb (suffix (name md)) ".md" = false ->
  relative_to md rel_root = Some rel -> rel <> [] -> name md <> "" ->
  kind_of w md = Regular text ->
  md_to_html_file utcnow md rel_root out_root cfg dry w
  = match write_text (out_root ++ html_path rel)
            (page_for utcnow cfg md (html_path rel) text (clock w)) dry
            (mkWorld (files w) (dirs w)
               (log w ++ [LogConvert md (out_root ++ html_path rel)])
               (S (clock w)))
    with
    | (Ok _, w') => (Ok (Some (out_root ++ html_path rel)), w')
    | (Raise e, w') => (Raise e, w')
    end.
Proof.
  intros Hres Hrel Hne Hnm Ht. unfold md_to_html_file.
  rewrite Hres, Hrel. cbn [from_value_error].
  assert (name rel <> "") as Hnr by (by rewrite (relative_to_last _ _ _ Hrel)).
  unfold bind at 1. cbn [ret]. rewrite (with_suffix_name _ _ Hnr).
  fold (html_path rel). cbn [from_value_error].
  unfold bind at 1. cbn [ret]. unfold bind at 1, logging.
  unfold bind at 1. rewrite (read_text_regular md _ text) by exact Ht.
  unfold bind at 1. rewrite (md_title_read md _ text) by exact Ht.
  unfold bind at 1. rewrite render_page_run. cbn [files dirs log clock].
  fold (page_for utcnow cfg md (html_path rel) text (clock w)).
  unfold bind. by destruct (write_text _ _ dry _) as [[[]|e] w'].
Qed.

Lemma md_to_html_file_run md rel_root out_root rel cfg dry text w :
  Py.startswith (name md) "__" && String.eqb (suffix (name md)) ".md" = false ->
  relative_to md rel_root = Some rel -> rel <> [] -> name md <> "" ->
  kind_of w md = Regular text ->
  (dry = false -> can_write w (out_root ++ html_path rel) = true) ->
  md_to_html_file utcnow md rel_root out_root cfg dry w
  = (Ok (Some (out_root ++ html_path rel)),
     mkWorld
       (if dry then files w
        else write_file (out_root ++ html_path rel)
               (page_for utcnow cfg md (html_path rel) text (clock w))
               (files w))
       (if dry then dirs w
        else mkdir_parents (parent (out_root ++ html_path rel)) (dirs w))
       (log w ++ [LogConvert md (out_root ++ html_path rel);
                  LogWrite (out_root ++ html_path rel)])
       (S (clock w))).
Proof.
  intros Hres Hrel Hne Hnm Ht Hw.
  rewrite (md_to_html_file_steps md rel_root out_root rel cfg dry text w)
    by done.
  destruct dry.
  - unfold write_text, bind, logging, ret. cbn. by rewrite <- app_assoc.
  - rewrite write_text_can_write by (by apply Hw).
    cbn [files dirs log clock]. by rewrite <- app_assoc.
Qed.

End Pages.

(** X13. The page of a source mirrors its place below the source root.
    For a source [md] that is a regular file, is not reserved and lies at
    the relative path [rel] below [rel_root], [md_to_html_file] returns
    [out_root / rel] with the suffix of the last name replaced by
    [.html], logs the conversion and the write, and reads the clock once.
    A dry run leaves files and directories alone.  A real run, when no
    regular file is in the way of the page and no directory in its place,
    leaves the page at that path and the directories down to its
    parent. *)
Theorem X13_page_path_mirrors_source (utcnow : nat -> string)
    (md rel_root out_root rel : Path) (cfg : Config) (dry : bool)
    (text : string) (w : World) :
  Py.startswith (name md) "__" && String.eqb (suffix (name md)) ".md" = false ->
  relative_to md rel_root = Some rel -> rel <> [] -> name md <> "" ->
  kind_of w md = Regular text ->
  (dry = false -> can_write w (out_root ++ html_path rel) = true) ->
  md_to_html_file utcnow md rel_root out_root cfg dry w
  = (Ok (Some (out_root ++ html_path rel)),
     mkWorld
       (if dry then files w
        else write_file (out_root ++ html_path rel)
               (page_for utcnow cfg md (html_path rel) text (clock w))
               (files w))
       (if dry then dirs w
        else mkdir_parents (parent (out_root ++ html_path rel)) (dirs w))
       (log w ++ [LogConvert md (out_root ++ html_path rel);
                  LogWrite (out_root ++ html_path rel)])
       (S (clock w))).
Proof. apply md_to_html_file_run. Qed.

Lemma X13_page_path_witness :
  let w := mkWorld [(["src"; "d"; "sub"; "my-post.md"], "text")]
             [[]; ["src"]; ["src"; "d"]; ["src"; "d"; "sub"]] [] 0 in
  let cfg := mkConfig "Site" "/" "/style.css" "%Y-%m-%d" None None in
  md_to_html_file (fun _ => "2024-01-01 00:00:00")
    ["src"; "d"; "sub"; "my-post.md"] ["src"; "d"] ["out"; "d"] cfg false w
  = (Ok (Some (["out"; "d"] ++ html_path ["sub"; "my-post.md"])),
     mkWorld
       (write_file (["out"; "d"] ++ html_path ["sub"; "my-post.md"])
          (page_for (fun _ => "2024-01-01 00:00:00") cfg
             ["src"; "d"; "sub"; "my-post.md"]
             (html_path ["sub"; "my-post.md"]) "text" (clock w))
          (files w))
       (mkdir_parents
          (parent (["out"; "d"] ++ html_path ["sub"; "my-post.md"])) (dirs w))
       (log w ++ [LogConvert ["src"; "d"; "sub"; "my-post.md"]
                    (["out"; "d"] ++ html_path ["sub"; "my-post.md"]);
                  LogWrite (["out"; "d"] ++ html_path ["sub"; "my-post.md"])])
       (S (clock w))).
Proof.
  intros w cfg.
  by apply (X13_page_path_mirrors_source _ _ _ _ ["sub"; "my-post.md"]
              cfg false "text" w).
Defined.

(** X14. What a build writes, a clean removes.  After a real
    [md_to_html_file] that can write its page, the page is at its path
    below [out_root]; a real [clean_domain] on [out_root] directly
    afterwards, when it returns, has removed it again; and it returns
    when everything that its enumeration reports is a regular file. *)
Theorem X14_built_page_is_cleaned (utcnow : nat -> string)
    (md rel_root out_root rel : Path) (cfg : Config) (text : string)
    (w : World) :
  Py.startswith (name md) "__" && String.eqb (suffix (name md)) ".md" = false ->
  relative_to md rel_root = Some rel -> rel <> [] -> name md <> "" ->
  kind_of w md = Regular text ->
  can_write w (out_root ++ html_path rel) = true ->
  lookup_file (out_root ++ html_path rel)
    (files (snd (md_to_html_file utcnow md rel_root out_root cfg false w)))
  = Some (page_for utcnow cfg md (html_path rel) text (clock w))
  /\ (forall w2,
       clean_domain out_root false
         (snd (md_to_html_file utcnow md rel_root out_root cfg false w))
       = (Ok tt, w2) ->
       lookup_file (out_root ++ html_path rel) (files w2) = None)
  /\ (Forall
        (regular (snd (md_to_html_file utcnow md rel_root out_root cfg false
                         w)))
        (rglob ".html" out_root
           (dirs (snd (md_to_html_file utcnow md rel_root out_root cfg false
                         w)))
           (files (snd (md_to_html_file utcnow md rel_root out_root cfg false
                          w)))) ->
      fst (clean_domain out_root false
             (snd (md_to_html_file utcnow md rel_root out_root cfg false w)))
      = Ok tt).
Proof.
  intros Hres Hrel Hne Hnm Ht Hw.
  rewrite (md_to_html_file_run utcnow md rel_root out_root rel cfg false
             text w) by done.
  cbn [snd]. split; [apply lookup_write_same|].
  set (dst := out_root ++ html_path rel) in *.
  set (w1 := mkWorld _ _ _ _).
  assert (kind_of w1 out_root = Directory) as Hroot.
  { apply stat_directory. unfold w1. cbn [files dirs]. split.
    - destruct (blocked _ out_root) eqn:E; [|done].
      apply blocked_true in E as (a & Ha & Hf).
      unfold can_write in Hw.
      apply andb_true_iff in Hw as [[_ Hb]%andb_true_iff _].
      apply negb_true_iff in Hb.
      assert (blocked (files w) dst = true) as Hc; [|congruence].
      apply blocked_true. exists a. split.
      + apply prefix_ancestors. apply ancestors_prefix in Ha.
        etrans; [exact Ha|]. etrans; [apply parent_prefix|].
        unfold dst, parent, html_path.
        rewrite app_assoc, removelast_last. by apply prefix_app_r.
      + rewrite lookup_write_other in Hf; [done|]. intros ->.
        apply ancestors_prefix in Ha.
        assert (dst `prefix_of` out_root) as Hp
          by (etrans; [exact Ha|apply parent_prefix]).
        apply prefix_length in Hp. unfold dst, html_path in Hp.
        rewrite !length_app in Hp. cbn in Hp. lia.
    - apply mkdir_parents_creates. unfold dst, parent, html_path.
      rewrite app_assoc, removelast_last. by apply prefix_app_r. }
  split; [|intros Hall; by rewrite (clean_domain_directory _ _ Hroot Hall)].
  intros w2 Hclean. unfold clean_domain, bind in Hclean.
  rewrite exists_path_directory in Hclean by done.
  cbn [negb get_world] in Hclean.
  destruct (remove_each_real_cases
              (rglob ".html" out_root (dirs w1) (files w1)) w1) as [H|H].
  { by rewrite Hclean in H. }
  rewrite H in Hclean. injection Hclean as <-. cbn [files].
  apply lookup_filter_gone. intros t. cbn [fst]. intros Hn. apply Hn.
  rewrite rglob_directory by done. apply list_elem_of_filter. split.
  - apply Is_true_true. unfold matches, is_under, dst.
    rewrite relative_to_app_self.
    unfold html_path at 1 2. rewrite app_assoc, name_snoc, endswith_app.
    destruct (removelast rel ++ _) eqn:E; [|done].
    by apply app_eq_nil in E as [_ ?].
  - apply elem_of_app. right. apply lookup_file_Some.
    unfold w1. cbn [files]. by rewrite lookup_write_same.
Qed.

Lemma X14_built_page_witness :
  let w := mkWorld [(["src"; "d"; "sub"; "my-post.md"], "text")]
             [[]; ["src"]; ["src"; "d"]; ["src"; "d"; "sub"]] [] 0 in
  let cfg := mkConfig "Site" "/" "/style.css" "%Y-%m-%d" None None in
  let now := fun _ : nat => "2024-01-01 00:00:00" in
  lookup_file (["out"; "d"] ++ html_path ["sub"; "my-post.md"])
    (files (snd (md_to_html_file now ["src"; "d"; "sub"; "my-post.md"]
                   ["src"; "d"] ["out"; "d"] cfg false w)))
  = Some (page_for now cfg ["src"; "d"; "sub"; "my-post.md"]
            (html_path ["sub"; "my-post.md"]) "text" (clock w))
  /\ (forall w2,
        clean_domain ["out"; "d"] false
          (snd (md_to_html_file now ["src"; "d"; "sub"; "my-post.md"]
                  ["src"; "d"] ["out"; "d"] cfg false w))
        = (Ok tt, w2) ->
        lookup_file (["out"; "d"] ++ html_path ["sub"; "my-post.md"])
          (files w2) = None)
  /\ fst (clean_domain ["out"; "d"] false
            (snd (md_to_html_file now ["src"; "d"; "sub"; "my-post.md"]
                    ["src"; "d"] ["out"; "d"] cfg false w)))
     = Ok tt.
Proof.
  intros w cfg now.
  destruct (X14_built_page_is_cleaned now ["src"; "d"; "sub"; "my-post.md"]
              ["src"; "d"] ["out"; "d"] ["sub"; "my-post.md"] cfg "text" w)
    as (H1 & H2 & H3); [done..|].
  split; [exact H1|]. split; [exact H2|]. apply H3.
  repeat constructor. by eexists.
Defined.

(** X15. A top-level [index.md] loses its page.  [md_to_html_file]
    writes the page of [src / index.md], when it can write it, to
    [dst / index.html], the path to which [build_index] writes afterwards:
    whatever is there, after a real [build_index] that returns the file
    holds the generated index page; and [build_index] returns when the
    body of the index can be read, its loop over the sources returns and
    nothing is in the way of [index.html]. *)
Theorem X15_index_md_page_is_overwritten (utcnow : nat -> string)
    (src dst : Path) (cfg : Config) (text : string) (w : World) :
  kind_of w (div src "index.md") = Regular text ->
  can_write w (div dst "index.html") = true ->
  fst (md_to_html_file utcnow (div src "index.md") src dst cfg false w)
  = Ok (Some (div dst "index.html"))
  /\ lookup_file (div dst "index.html")
       (files (snd (md_to_html_file utcnow (div src "index.md") src dst cfg
                      false w)))
     = Some (page_for utcnow cfg (div src "index.md") ["index.html"] text
               (clock w))
  /\ (forall w1 w1',
        build_index utcnow src dst cfg false w1 = (Ok tt, w1') ->
        exists body es,
          index_body src w1 = Ok body /\ index_entries_of src w1 = Ok es
          /\ lookup_file (div dst "index.html") (files w1')
             = Some (index_page utcnow cfg body es (clock w1)))
  /\ (forall w1 body es,
        index_body src w1 = Ok body -> index_entries_of src w1 = Ok es ->
        can_write w1 (div dst "index.html") = true ->
        build_index utcnow src dst cfg false w1
        = (Ok tt,
           mkWorld
             (write_file (div dst "index.html")
                (index_page utcnow cfg body es (clock w1)) (files w1))
             (mkdir_parents (parent (div dst "index.html")) (dirs w1))
             (log w1 ++ [LogWrite (div dst "index.html")])
             (S (clock w1)))).
Proof.
  intros Ht Hw.
  assert (md_to_html_file utcnow (div src "index.md") src dst cfg false w
          = (Ok (Some (div dst "index.html")),
             mkWorld
               (write_file (div dst "index.html")
                  (page_for utcnow cfg (div src "index.md") ["index.html"]
                     text (clock w)) (files w))
               (mkdir_parents (parent (div dst "index.html")) (dirs w))
               (log w ++ [LogConvert (div src "index.md")
                            (div dst "index.html");
                          LogWrite (div dst "index.html")])
               (S (clock w)))) as ->.
  { apply (md_to_html_file_run utcnow (div src "index.md") src dst
             ["index.md"] cfg false text w); try done.
    - unfold div. by rewrite name_snoc.
    - apply relative_to_app_self.
    - unfold div. by rewrite name_snoc. }
  split; [done|]. split; [apply lookup_write_same|].
  split; [intros w1 w1'; apply build_index_written|].
  intros w1 body es. apply build_index_real.
Qed.

Lemma X15_index_md_witness :
  let w := mkWorld [(["src"; "d"; "index.md"], "# Home")]
             [[]; ["src"]; ["src"; "d"]] [] 0 in
  let cfg := mkConfig "Site" "/" "/style.css" "%Y-%m-%d" None None in
  let now := fun _ : nat => "2024-01-01 00:00:00" in
  fst (md_to_html_file now (div ["src"; "d"] "index.md") ["src"; "d"]
         ["out"; "d"] cfg false w)
  = Ok (Some (div ["out"; "d"] "index.html"))
  /\ lookup_file (div ["out"; "d"] "index.html")
       (files (snd (md_to_html_file now (div ["src"; "d"] "index.md")
                      ["src"; "d"] ["out"; "d"] cfg false w)))
     = Some (page_for now cfg (div ["src"; "d"] "index.md") ["index.html"]
               "# Home" (clock w))
  /\ lookup_file (div ["out"; "d"] "index.html")
       (files
          (snd (build_index now ["src"; "d"] ["out"; "d"] cfg false
                  (snd (md_to_html_file now (div ["src"; "d"] "index.md")
                          ["src"; "d"] ["out"; "d"] cfg false w)))))
     = Some (index_page now cfg "<h2>Index</h2>" [("index.html", "Home")] 1).
Proof.
  intros w cfg now.
  destruct (X15_index_md_page_is_overwritten now ["src"; "d"] ["out"; "d"]
              cfg "# Home" w) as (H1 & H2 & _ & H4); [done|done|].
  split; [done|]. split; [done|].
  rewrite (H4 _ "<h2>Index</h2>" [("index.html", "Home")]);
    [apply lookup_write_same|by vm_compute..].
Defined.

(** ** Configuration *)

Lemma without_none_lookup (d : Dict) k :
  without_none d !! k
  = match d !! k with Some (Some v) => Some (Some v) | _ => None end.
Proof.
  unfold without_none. destruct (d !! k) as [[v|]|] eqn:E.
  - apply map_lookup_filter_Some. by split.
  - apply map_lookup_filter_None. right. intros x Hx [y Hy].
    cbn in Hy. congruence.
  - apply map_lookup_filter_None. by left.
Qed.

Lemma merge_config_lookup (base override : Dict) k :
  merge_config base override !! k
  = match override !! k with
    | Some (Some v) => Some (Some v)
    | _ => base !! k
    end.
Proof.
  unfold merge_config. rewrite lookup_union, without_none_lookup.
  destruct (override !! k) as [[v|]|]; cbn.
  - by destruct (base !! k).
  - by destruct (base !! k).
  - by destruct (base !! k).
Qed.

(** X17. [merge_config] key by key: a key that the override sets to a
    value takes that value; any other key, also one that the override
    holds with [None], keeps what the base has.  A [None] neither erases
    nor replaces a value, and the result has a [None] only where the base
    has one. *)
Theorem X17_merge_config_key_by_key (base override : Dict) (k : string) :
  merge_config base override !! k
  = match override !! k with
    | Some (Some v) => Some (Some v)
    | _ => base !! k
    end.
Proof. apply merge_config_lookup. Qed.

Section ConfigurationFacts.

Variable path_str : Path -> string.
Variable path_of : string -> Path.

Lemma merged_lookup (g d cli : Dict) k :
  merge_config (merge_config (merge_config ∅ g) d) (without_none cli) !! k
  = match in_force (cli !! k ≫= id) d g k with
    | Some s => Some (Some s)
    | None => None
    end.
Proof.
  rewrite !merge_config_lookup, without_none_lookup, lookup_empty.
  unfold in_force.
  destruct (cli !! k) as [[v|]|]; cbn; [done| |];
    destruct (d !! k) as [[v'|]|]; try done;
    by destruct (g !! k) as [[v''|]|].
Qed.

Lemma build_config_in_force g d opts args :
  let cfg := build_config path_str path_of g d opts args in
  site_title cfg
  = default "Site" (in_force (opt_site_title opts) d g "site_title")
  /\ base_url cfg = default "/" (in_force (opt_base_url opts) d g "base_url")
  /\ css_href cfg
     = default "/style.css" (in_force (opt_css_href opts) d g "css_href")
  /\ date_format cfg
     = default "%Y-%m-%d"
         (in_force (opt_date_format opts) d g "date_format")
  /\ src_root cfg
     = root_in_force path_of
         (in_force (path_str <$> args_src_root args) d g "src_root")
  /\ dst_root cfg
     = root_in_force path_of
         (in_force (path_str <$> args_dst_root args) d g "dst_root").
Proof.
  cbn zeta. unfold build_config, get_str, get_path, root_in_force.
  cbn [site_title base_url css_href date_format src_root dst_root].
  rewrite !merged_lookup. repeat split.
  all: match goal with
       | |- context [in_force (?m !! ?k ≫= id)] =>
           replace (m !! k ≫= id) with
             (match k with
              | "site_title" => opt_site_title opts
              | "base_url" => opt_base_url opts
              | "css_href" => opt_css_href opts
              | "date_format" => opt_date_format opts
              | "src_root" => path_str <$> args_src_root args
              | "dst_root" => path_str <$> args_dst_root args
              | _ => None
              end)
             by (by simplify_map_eq)
       end.
  all: by match goal with
          | |- context [in_force ?c ?d' ?g' ?k] =>
              destruct (in_force c d' g' k)
          end.
Qed.

End ConfigurationFacts.

(** X18. The order of precedence in [build_config].  Every setting
    takes the value of the command line if it gives one, else that of the
    domain settings, else that of the global configuration, else the
    default of [Config]; a level that holds [None] for the key counts as
    silent.  For the two roots the value in force is turned into a path,
    and an empty text counts as no root. *)
Theorem X18_build_config_precedence (path_str : Path -> string)
    (path_of : string -> Path) (g d : Dict) (opts : Options) (args : Args) :
  let cfg := build_config path_str path_of g d opts args in
  site_title cfg
  = default "Site" (in_force (opt_site_title opts) d g "site_title")
  /\ base_url cfg = default "/" (in_force (opt_base_url opts) d g "base_url")
  /\ css_href cfg
     = default "/style.css" (in_force (opt_css_href opts) d g "css_href")
  /\ date_format cfg
     = default "%Y-%m-%d"
         (in_force (opt_date_format opts) d g "date_format")
  /\ src_root cfg
     = root_in_force path_of
         (in_force (path_str <$> args_src_root args) d g "src_root")
  /\ dst_root cfg
     = root_in_force path_of
         (in_force (path_str <$> args_dst_root args) d g "dst_root").
Proof. apply build_config_in_force. Qed.

(** X19. An empty root hides the roots below it.  When the domain
    settings give the empty text for [dst_root] and the command line is
    silent, the configuration has no destination root, whatever the global
    configuration says. *)
Theorem X19_empty_root_hides_lower_levels (path_str : Path -> string)
    (path_of : string -> Path) (g d : Dict) (opts : Options) (args : Args) :
  d !! "dst_root" = Some (Some "") -> args_dst_root args = None ->
  dst_root (build_config path_str path_of g d opts args) = None.
Proof.
  intros Hd Ha.
  destruct (build_config_in_force path_str path_of g d opts args)
    as (_ & _ & _ & _ & _ & ->).
  unfold in_force. by rewrite Ha, Hd.
Qed.

Lemma X19_empty_root_witness :
  dst_root
    (build_config (fun p => "/" +:+ Py.join "/" p) (fun s => [s])
       {[ "dst_root" := Some "/var/www/htdocs" ]}
       {[ "dst_root" := Some "" ]}
       (mkOptions None None None None)
       (mkArgs "d" (Some ["src"]) None false false))
  = None.
Proof. by apply X19_empty_root_hides_lower_levels. Defined.

(** X20. Roots given on the command line decide.  As [str] of a path is
    never empty, a root of the command line is the root of the
    configuration, whatever the files say; so when the configuration has
    no destination root the command line has none either, and the
    alternative [cfg.dst_root or args.dst_root] of [run_clean] never
    supplies a root. *)
Theorem X20_command_line_roots_decide (path_str : Path -> string)
    (path_of : string -> Path) (g d : Dict) (opts : Options) (args : Args) :
  (forall p, path_str p <> "") ->
  (forall r, args_src_root args = Some r ->
             src_root (build_config path_str path_of g d opts args)
             = Some (path_of (path_str r)))
  /\ (forall p, args_dst_root args = Some p ->
                dst_root (build_config path_str path_of g d opts args)
                = Some (path_of (path_str p)))
  /\ (dst_root (build_config path_str path_of g d opts args) = None ->
      args_dst_root args = None).
Proof.
  intros Hstr.
  destruct (build_config_in_force path_str path_of g d opts args)
    as (_ & _ & _ & _ & -> & ->).
  assert (forall o : option Path, forall p, o = Some p ->
            root_in_force path_of (in_force (path_str <$> o) d g "dst_root")
            = Some (path_of (path_str p))) as Hdst.
  { intros o p ->. cbn. destruct (String.eqb_spec (path_str p) ""); [|done].
    by destruct (Hstr p). }
  split; [|split].
  - intros r ->. cbn. destruct (String.eqb_spec (path_str r) ""); [|done].
    by destruct (Hstr r).
  - intros p Hp. by apply Hdst.
  - intros Hn. destruct (args_dst_root args) as [p|] eqn:E; [|done].
    by rewrite (Hdst _ p eq_refl) in Hn.
Qed.

Lemma X20_command_line_roots_witness :
  let path_str := fun p : Path => "/" +:+ Py.join "/" p in
  let path_of := fun s : string => [s] in
  let g : Dict := {[ "src_root" := Some "/etc/src" ]} in
  let d : Dict := ∅ in
  let opts := mkOptions None None None None in
  let args := mkArgs "d" (Some ["srv"; "src"]) None false false in
  (forall r, args_src_root args = Some r ->
             src_root (build_config path_str path_of g d opts args)
             = Some (path_of (path_str r)))
  /\ (forall p, args_dst_root args = Some p ->
                dst_root (build_config path_str path_of g d opts args)
                = Some (path_of (path_str p)))
  /\ (dst_root (build_config path_str path_of g d opts args) = None ->
      args_dst_root args = None).
Proof.
  intros path_str path_of g d opts args.
  apply X20_command_line_roots_decide.
  intros p. unfold path_str. by rewrite append_cons.
Defined.
